(** * GynCycle: the follicle right-hand side, [FollicleFunction]

    A shallow embedding of [Python_model/FollicleFunction.py] and the
    properties its specification states about it.

    Conventions of the embedding.
    - NumPy's [float64] values are read as real numbers ([R]); [np.pi] is
      [PI] and [np.exp] is [exp].
    - [a ** n] with a literal natural exponent [n] is the real power
      [a ^ n].  [a ** b] with an exponent taken from a parameter vector is
      NumPy's [power]; it has no single closed form over all reals (zero or
      negative base), so it is a parameter [np_power] of the model.
    - A Python exception ([IndexError], [TypeError]) is the result [None].
    - [x = y[:NumFollicles]] is a basic slice of a NumPy array, hence a
      view: [x] shares the buffer of [y], and [x[i] = 0] writes slot [i] of
      [y].  The model therefore threads [y] as state.
    - The follicle registry is mutated in place by the function; the model
      threads it as state as well.
    - [ODE_Model_NormalCycle] lives in the module [HormoneModel], which is
      outside the embedded file; it is a parameter of the model. *)

From Stdlib Require Import Reals Lra Lia ZArith List Bool.
Import ListNotations.

Local Open Scope R_scope.

(** ** A small error monad *)

Definition bind {A B : Type} (m : option A) (k : A -> option B) : option B :=
  match m with
  | Some a => k a
  | None => None
  end.

Notation "x <- m ;; k" := (bind m (fun x => k))
  (at level 61, m at next level, right associativity).
Notation "' p <- m ;; k" := (bind m (fun x => match x with p => k end))
  (at level 61, p pattern, m at next level, right associativity).

(** Python's [a or b] and [a and b] on conditions that may raise:
    the right operand is only evaluated when the left one does not decide. *)
Definition or_else (a b : option bool) : option bool :=
  x <- a ;; if x then Some true else b.

Definition and_then (a b : option bool) : option bool :=
  x <- a ;; if x then b else Some false.

(** ** Python sequences *)

(** Position denoted by the index [i] in a sequence of length [n]:
    negative indices count from the end, anything else out of range raises. *)
Definition py_pos (n : nat) (i : Z) : option nat :=
  if (0 <=? i)%Z then
    (if (i <? Z.of_nat n)%Z then Some (Z.to_nat i) else None)
  else
    (if (0 <=? Z.of_nat n + i)%Z then Some (Z.to_nat (Z.of_nat n + i)) else None).

(** [l[i]] *)
Definition py_index {A : Type} (l : list A) (i : Z) : option A :=
  k <- py_pos (length l) i ;; nth_error l k.

(** [l] with position [k] replaced by [v] (positions out of range: no change;
    the callers check the range first, as Python raises there). *)
Fixpoint upd {A : Type} (k : nat) (v : A) (l : list A) : list A :=
  match l, k with
  | [], _ => []
  | _ :: l', O => v :: l'
  | a :: l', S k' => a :: upd k' v l'
  end.

(** [l[k] = v] for a loop index [k] (never negative) *)
Definition set_item {A : Type} (l : list A) (k : nat) (v : A) : option (list A) :=
  if (k <? length l)%nat then Some (upd k v l) else None.

(** [for i in l: s = body(i, s)] *)
Fixpoint for_each {S : Type} (body : nat -> S -> option S) (l : list nat) (s : S)
  : option S :=
  match l with
  | [] => Some s
  | i :: l' => s' <- body i s ;; for_each body l' s'
  end.

(** [for i in range(n)] *)
Definition for_range {S : Type} (body : nat -> S -> option S) (n : Z) (s : S)
  : option S :=
  for_each body (seq 0 (Z.to_nat n)) s.

(** [np.sum] *)
Definition np_sum (l : list R) : R := fold_right Rplus 0 l.

(** ** Comparisons of floats, as booleans *)

Definition Rleb (a b : R) : bool := if Rle_dec a b then true else false.
Definition Rgeb (a b : R) : bool := if Rge_dec a b then true else false.
Definition Rgtb (a b : R) : bool := if Rgt_dec a b then true else false.

(** ** The follicle registry *)

(** One entry of [Follicles.Follicle], a dictionary.  [Destiny], [Time] and
    [TimeDecrease] are the keys [FollicleFunction] reads or writes. *)
Record FollicleRecord : Type := mkFollicle {
  Destiny : Z;
  Time : list R;
  TimeDecrease : R;
  (** Modelled from the spec: the dictionary is built outside the embedded
      file; the specification's [sizeHistory] gives every follicle a
      sequence of recorded size samples next to the recorded times.
      [FollicleFunction] never reads this key. *)
  SizeSamples : list R
}.

(** The object [Follicles]: the records, the 1-based numbers of the active
    follicles in state-vector order, and their FSH sensitivities. *)
Record Follicles : Type := mkFollicles {
  Follicle : list FollicleRecord;
  Active : list Z;
  ActiveFSHS : list R
}.

(** Destiny tags used by the function. *)
Definition MarkedForDecline : Z := (-2)%Z.
Definition Atretic : Z := (-3)%Z.
Definition Dominant : Z := 3%Z.
Definition Growing : Z := (-1)%Z.

(** [Follicles.Follicle[Follicles.Active[i]-1]]: the position in the list of
    records and the record found there. *)
Definition follicle_at (Fs : Follicles) (i : nat) : option (nat * FollicleRecord) :=
  a <- nth_error (Active Fs) i ;;
  k <- py_pos (length (Follicle Fs)) (a - 1)%Z ;;
  r <- nth_error (Follicle Fs) k ;;
  Some (k, r).

Definition set_record (Fs : Follicles) (k : nat) (r : FollicleRecord) : Follicles :=
  mkFollicles (upd k r (Follicle Fs)) (Active Fs) (ActiveFSHS Fs).

(** What a call leaves behind: the returned vector [f], and the two objects
    it received by reference. *)
Record Outcome : Type := mkOutcome {
  returned : list R;
  y_after : list R;
  Follicles_after : Follicles
}.

Section Model.

(** NumPy's [power] for an exponent read from a parameter vector. *)
Variable np_power : R -> R -> R.

(** [HormoneModel.ODE_Model_NormalCycle(t, y, Par, E2, P4)]. *)
Variable ODE_Model_NormalCycle : R -> list R -> list R -> R -> R -> list R.

(** *** Lines 14-26: follicles that no longer secrete *)

(** Body of the loop of lines 18-20: [x[i] = 0] when the destiny is in
    [[-2, -3]].  [x] is the view [y[:NumFollicles]], so the write lands in
    [y]; it is in range when [i < len(x) = min(NumFollicles, len(y))], and
    [i < NumFollicles] holds for every loop index. *)
Definition zero_declining (Fs : Follicles) (i : nat) (y : list R) : option (list R) :=
  '(_, r) <- follicle_at Fs i ;;
  if ((Destiny r =? -2) || (Destiny r =? -3))%Z then set_item y i 0 else Some y.

(** Body of the loop of lines 24-26: [x[i] = 0] when the destiny is [4]. *)
Definition zero_ovulated (Fs : Follicles) (i : nat) (y : list R) : option (list R) :=
  '(_, r) <- follicle_at Fs i ;;
  if (Destiny r =? 4)%Z then set_item y i 0 else Some y.

(** Lines 14-26 as a whole: the state vector after both loops. *)
Definition zero_silent (para : list Z) (Fs : Follicles) (NumFollicles : Z) (y : list R)
  : option (list R) :=
  if (0 <? NumFollicles)%Z then
    p0 <- py_index para 0 ;;
    if (p0 =? 0)%Z then
      y1 <- for_range (zero_declining Fs) NumFollicles y ;;
      for_range (zero_ovulated Fs) NumFollicles y1
    else Some y
  else Some y.

(** Lines 9-12: [x], read off the current state vector. *)
Definition x_of (NumFollicles : Z) (y : list R) : list R :=
  if (0 <? NumFollicles)%Z then firstn (Z.to_nat NumFollicles) y else [0].

(** *** Lines 28-31: hormone levels *)

(** One summand of line 29.  The quotient is the real one: it is the
    quotient of the floats where the powers are finite and the divisor is
    not zero.  At a slot that holds 0 this is what [SF_defined_at_zero]
    asks of [Par]; without it line 29 computes 0/0 there, which is not a
    number, and nothing is stated about [SF]. *)
Definition SF_term (p56 p57 : R) (s : R) : R :=
  np_power s p56 / (np_power s p56 + np_power p57 p56) * s ^ 2.

Definition SF_of (Par : list R) (x : list R) : option R :=
  p56 <- py_index Par 56 ;;
  p57 <- py_index Par 57 ;;
  Some (PI * np_sum (map (SF_term p56 p57) x)).

Definition E2_of (Par : list R) (t Tovu SF : R) : option R :=
  p74 <- py_index Par 74 ;;
  p58 <- py_index Par 58 ;;
  p59 <- py_index Par 59 ;;
  p60 <- py_index Par 60 ;;
  p61 <- py_index Par 61 ;;
  Some (p74 + (p58 + p59 * SF) + p60 * exp (- p61 * (t - (Tovu + 7)) ^ 2)).

Definition P4_of (Par : list R) (t Tovu : R) : option R :=
  p75 <- py_index Par 75 ;;
  p62 <- py_index Par 62 ;;
  p61 <- py_index Par 61 ;;
  Some (p75 + p62 * exp (- p61 * (t - (Tovu + 7)) ^ 2)).

(** The values of [SF], [E2_lvl] and [P4_lvl] after line 31. *)
Definition hormone_levels (t Tovu : R) (Par : list R) (x : list R) : option (R * R * R) :=
  SF <- SF_of Par x ;;
  E2 <- E2_of Par t Tovu SF ;;
  P4 <- P4_of Par t Tovu ;;
  Some (SF, E2, P4).

(** *** Lines 47-60: the growth law *)

Definition gamma_of (pf1 p4all fshrezcomp : R) : R :=
  pf1 * ((1 / (1 + (p4all / 3) ^ 3)) + (fshrezcomp ^ 5) / (0.95 ^ 5 + fshrezcomp ^ 5)).

Definition kappa_of (pf4 fshrezcomp : R) : R :=
  pf4 * (0.55 ^ 10 / (0.55 ^ 10 + fshrezcomp ^ 10)).

(** Line 57.  The quotient is the real one; it is the quotient of the
    floats where [fshrezcomp ** 4 + fFSH ** 4] is not zero
    ([quotients_defined]). *)
Definition ffsh_of (fshrezcomp fFSH : R) : R :=
  (fshrezcomp ^ 4) / (fshrezcomp ^ 4 + fFSH ^ 4).

Definition X_of (ffsh xi fsize gamma kappa SumV pf3 pf0 : R) : R :=
  ffsh * (xi - fsize) * fsize * (gamma - (kappa * (SumV - (pf3 * (np_power fsize pf0))))).

(** The value of [X] in iteration [i] of the loop of line 45. *)
Definition growth_X (parafoll : list R) (Fs : Follicles) (y : list R)
    (p4all fshrezcomp SumV : R) (i : nat) : option R :=
  fFSH <- nth_error (ActiveFSHS Fs) i ;;
  fsize <- nth_error y i ;;
  pf1 <- py_index parafoll 1 ;;
  let gamma := gamma_of pf1 p4all fshrezcomp in
  pf4 <- py_index parafoll 4 ;;
  let kappa := kappa_of pf4 fshrezcomp in
  xi <- py_index parafoll 2 ;;
  let ffsh := ffsh_of fshrezcomp fFSH in
  pf3 <- py_index parafoll 3 ;;
  pf0 <- py_index parafoll 0 ;;
  Some (X_of ffsh xi fsize gamma kappa SumV pf3 pf0).

(** *** Lines 67-72: the condition of the decline branch *)

(** The last disjunct (line 72): oldest recorded time minus latest recorded
    time, against [parafoll[14]]. *)
Definition span_guard (parafoll : list R) (r : FollicleRecord) : option bool :=
  t0 <- py_index (Time r) 0 ;;
  tl <- py_index (Time r) (-1) ;;
  pf14 <- py_index parafoll 14 ;;
  Some (Rgtb (t0 - tl) pf14).

(** [rec] is the lookup [Follicles.Follicle[Follicles.Active[i]-1]], which
    every disjunct but the first repeats. *)
Definition decline_condition (t X : R) (parafoll : list R)
    (rec : option (nat * FollicleRecord)) : option bool :=
  or_else (pf11 <- py_index parafoll 11 ;; Some (Rleb X pf11))
  (or_else ('(_, r) <- rec ;; Some (Destiny r =? -2)%Z)
  (or_else
     (and_then (pf12 <- py_index parafoll 12 ;; Some (Rleb X pf12))
     (and_then ('(_, r) <- rec ;; t0 <- py_index (Time r) 0 ;;
                pf14 <- py_index parafoll 14 ;; Some (Rgeb (t - t0) pf14))
               ('(_, r) <- rec ;; Some (Destiny r =? 3)%Z)))
  (or_else
     (and_then (pf12 <- py_index parafoll 12 ;; Some (Rleb X pf12))
     (and_then ('(_, r) <- rec ;; t0 <- py_index (Time r) 0 ;;
                pf13 <- py_index parafoll 13 ;; Some (Rgeb (t - t0) pf13))
               ('(_, r) <- rec ;; Some (Destiny r =? -1)%Z)))
  (or_else
     (and_then ('(_, r) <- rec ;; Some (Destiny r =? 3)%Z)
               ('(_, r) <- rec ;; pf10 <- py_index parafoll 10 ;;
                Some (Rgeb (t - TimeDecrease r) pf10)))
     ('(_, r) <- rec ;; span_guard parafoll r))))).

(** Lines 76-77: the record once marked for decline at time [t]. *)
Definition mark_decline (t : R) (r : FollicleRecord) : FollicleRecord :=
  mkFollicle (-2) (Time r) t (SizeSamples r).

(** *** Lines 45-88: one iteration of the main loop

    The state of the loop is the vector [f] under construction and the
    registry; [y] is not written any more. *)
Definition growth_step (t : R) (para : list Z) (parafoll : list R) (y : list R)
    (p4all fshrezcomp SumV : R) (i : nat) (s : list R * Follicles)
  : option (list R * Follicles) :=
  let '(f, Fs) := s in
  X <- growth_X parafoll Fs y p4all fshrezcomp SumV i ;;
  p0 <- py_index para 0 ;;
  (* lines 62-64 assign a local that is never read *)
  if (p0 =? 0)%Z then
    c <- decline_condition t X parafoll (follicle_at Fs i) ;;
    if c then
      '(k, r) <- follicle_at Fs i ;;
      let Fs' := if (Destiny r =? -2)%Z then Fs else set_record Fs k (mark_decline t r) in
      yi <- nth_error y i ;;
      '(_, r') <- follicle_at Fs' i ;;
      f' <- set_item f i (-0.05 * yi * (t - TimeDecrease r')) ;;
      Some (f', Fs')
    else
      '(_, r) <- follicle_at Fs i ;;
      if (Destiny r =? -3)%Z then
        yi <- nth_error y i ;;
        f' <- set_item f i (-1000 * yi) ;;
        Some (f', Fs)
      else
        f' <- set_item f i X ;;
        Some (f', Fs)
  else
    f' <- set_item f i X ;;
    Some (f', Fs).

(** *** The function *)

(** Lines 6-31: the number of follicle slots, the state vector as the two
    zeroing loops leave it, and [SF], [E2_lvl], [P4_lvl]. *)
Definition hormone_snapshot (t : R) (y : list R) (Tovu : R) (Fs : Follicles)
    (para : list Z) (Par : list R) : option (Z * list R * (R * R * R)) :=
  p1 <- py_index para 1 ;;
  let NumFollicles := (Z.of_nat (length y) - p1)%Z in
  y1 <- zero_silent para Fs NumFollicles y ;;
  let x := x_of NumFollicles y1 in
  h <- hormone_levels t Tovu Par x ;;
  Some (NumFollicles, y1, h).

(** Lines 40-43: [fshrezcomp] and [SumV]. *)
Definition feedback_terms (parafoll : list R) (NumFollicles : Z) (y1 : list R)
  : option (R * R) :=
  let r := Z.of_nat (length y1) in
  fshrezcomp <- py_index y1 (r - 15)%Z ;;
  pf0 <- py_index parafoll 0 ;;
  let SumV := np_sum (map (fun s => np_power s pf0) (x_of NumFollicles y1)) in
  Some (fshrezcomp, SumV).

(** [Stim] and [settings] are never used and are left out. *)
Definition FollicleFunction (t : R) (y : list R) (Tovu : R) (Fs : Follicles)
    (para : list Z) (parafoll Par : list R) : option Outcome :=
  '(NumFollicles, y1, (_, E2_lvl, P4_lvl)) <- hormone_snapshot t y Tovu Fs para Par ;;
  let dy := ODE_Model_NormalCycle t y1 Par E2_lvl P4_lvl in
  let f := dy in
  '(fshrezcomp, SumV) <- feedback_terms parafoll NumFollicles y1 ;;
  let p4all := P4_lvl in
  '(f', Fs') <- for_range (growth_step t para parafoll y1 p4all fshrezcomp SumV)
                  NumFollicles (f, Fs) ;;
  Some (mkOutcome f' y1 Fs').

(** ** Vocabulary of the specification *)

(** Entry [k] of a parameter vector. *)
Definition param (l : list R) (k : nat) : R := nth k l 0.

(** The mode flag [para[0]]: [0] is a normal evaluation, anything else a
    test (calibration) evaluation. *)
Definition normal_mode (para : list Z) : Prop := py_index para 0 = Some 0%Z.
Definition test_mode (para : list Z) : Prop :=
  exists p0, py_index para 0 = Some p0 /\ p0 <> 0%Z.

(** [NumFollicles] of line 7, and the number of iterations of a loop over
    [range(NumFollicles)]. *)
Definition NumFollicles_of (y : list R) (para : list Z) : Z :=
  (Z.of_nat (length y) - nth 1 para 0)%Z.

Definition slots (y : list R) (para : list Z) : nat :=
  Z.to_nat (NumFollicles_of y para).

(** A follicle that no longer secretes: marked for decline, atretic or
    ovulated. *)
Definition silent (r : FollicleRecord) : bool :=
  ((Destiny r =? -2) || (Destiny r =? -3) || (Destiny r =? 4))%Z.



(** What line 29 needs of [Par] to give the summand 0 at a slot that holds
    0: an exponent [Par[56]] and a constant [Par[57]] that are not
    negative, so that both powers are finite, and a divisor
    [0 ** Par[56] + Par[57] ** Par[56]] that is not zero. *)
Definition SF_defined_at_zero (Par : list R) : Prop :=
  0 <= param Par 56 /\ 0 <= param Par 57 /\
  np_power 0 (param Par 56) + np_power (param Par 57) (param Par 56) <> 0.



(** What lines 43 and 60 need to be finite: an exponent [parafoll[0]] that
    is not negative and follicle slots that are not negative. *)
Definition powers_defined (parafoll y : list R) (n : nat) : Prop :=
  0 <= param parafoll 0 /\
  forall k v, (k < n)%nat -> nth_error y k = Some v -> 0 <= v.

(** The divisors of lines 51 and 57 are not zero (that of line 54 never
    is). *)
Definition quotients_defined (p4all fshrezcomp fFSH : R) : Prop :=
  1 + (p4all / 3) ^ 3 <> 0 /\ 0.95 ^ 5 + fshrezcomp ^ 5 <> 0 /\
  fshrezcomp ^ 4 + fFSH ^ 4 <> 0.

(** Gaussian bump of the given height and width around [center]. *)
Definition gaussian_bump (height width center t : R) : R :=
  height * exp (- width * (t - center) ^ 2).

Definition E2_spec (Par : list R) (t Tovu SF : R) : R :=
  param Par 74 + (param Par 58 + param Par 59 * SF)
  + gaussian_bump (param Par 60) (param Par 61) (Tovu + 7) t.

Definition P4_spec (Par : list R) (t Tovu : R) : R :=
  param Par 75 + gaussian_bump (param Par 62) (param Par 61) (Tovu + 7) t.

(** The value the zeroing loops of lines 14-26 leave in slot [j] when they
    found [a] there. *)
Definition silenced (Fs : Follicles) (j : nat) (a : R) : R :=
  match follicle_at Fs j with
  | Some (_, r) => if silent r then 0 else a
  | None => a
  end.

(** The growth law of slot [i], with the parameters named. *)
Definition raw_growth (parafoll : list R) (p4all fshrezcomp SumV fFSH fsize : R) : R :=
  X_of (ffsh_of fshrezcomp fFSH) (param parafoll 2) fsize
       (gamma_of (param parafoll 1) p4all fshrezcomp)
       (kappa_of (param parafoll 4) fshrezcomp)
       SumV (param parafoll 3) (param parafoll 0).

(** What one normal-mode iteration leaves in the record of its follicle and
    in its slot of [f], given the value [c] of the decline condition, the
    record [r] found and the current content [yi] of slot [i] of [y]. *)
Definition slot_record (t : R) (c : bool) (r : FollicleRecord) : FollicleRecord :=
  if c then (if (Destiny r =? -2)%Z then r else mark_decline t r) else r.

Definition slot_derivative (t X : R) (c : bool) (r : FollicleRecord) (yi : R) : R :=
  if c then -0.05 * yi * (t - TimeDecrease (slot_record t c r))
  else if (Destiny r =? -3)%Z then -1000 * yi else X.

(** Position of the record of slot [i] in [Follicles.Follicle]. *)
Definition record_pos (Fs : Follicles) (i : nat) : option nat :=
  option_map fst (follicle_at Fs i).

(** No two follicle slots lead to the same record. *)
Definition distinct_follicles (Fs : Follicles) (n : nat) : Prop :=
  forall i j, (i < n)%nat -> (j < n)%nat -> i <> j -> record_pos Fs i <> record_pos Fs j.

(** How a call may change one entry of [Follicles.Follicle]: not at all, or
    by marking a follicle that was not yet marked for decline. *)
Definition marked_or_same (t : R) (before after : option FollicleRecord) : Prop :=
  after = before \/
  exists r, before = Some r /\ Destiny r <> (-2)%Z /\ after = Some (mark_decline t r).

(** The first and the last entry of a recorded history, [l[0]] and
    [l[-1]]. *)
Definition oldest (l : list R) : R := nth 0 l 0.
Definition latest (l : list R) : R := last l 0.

(** The decline condition of lines 67-72 as a plain boolean, for a record
    [r]. *)
Definition decline_fires (t X : R) (parafoll : list R) (r : FollicleRecord) : bool :=
  Rleb X (param parafoll 11)
  || (Destiny r =? -2)%Z
  || (Rleb X (param parafoll 12) && Rgeb (t - oldest (Time r)) (param parafoll 14)
      && (Destiny r =? 3)%Z)
  || (Rleb X (param parafoll 12) && Rgeb (t - oldest (Time r)) (param parafoll 13)
      && (Destiny r =? -1)%Z)
  || ((Destiny r =? 3)%Z && Rgeb (t - TimeDecrease r) (param parafoll 10))
  || Rgtb (oldest (Time r) - latest (Time r)) (param parafoll 14).

(** The value of [X] in iteration [i] of a call. *)
Definition X_in_call (t : R) (y : list R) (Tovu : R) (Fs : Follicles)
    (para : list Z) (parafoll Par : list R) (i : nat) : option R :=
  '(NumFollicles, y1, (_, _, P4_lvl)) <- hormone_snapshot t y Tovu Fs para Par ;;
  '(fshrezcomp, SumV) <- feedback_terms parafoll NumFollicles y1 ;;
  growth_X parafoll Fs y1 P4_lvl fshrezcomp SumV i.

(** Inputs on which no lookup of the function can fail: the parameter
    vectors are long enough, the state vector has its 15 trailing slots,
    [para[1]] is not negative, and every follicle slot has an entry in
    [Active] and [ActiveFSHS] that leads to a record with a recorded time. *)
Definition slots_ok (Fs : Follicles) (n : nat) : Prop :=
  forall j, (j < n)%nat ->
    (j < length (ActiveFSHS Fs))%nat /\
    exists k r, follicle_at Fs j = Some (k, r) /\ Time r <> [].

Definition well_formed (y : list R) (Fs : Follicles) (para : list Z)
    (parafoll Par : list R) : Prop :=
  (2 <= length para)%nat /\ (15 <= length parafoll)%nat /\ (76 <= length Par)%nat /\
  (15 <= length y)%nat /\ (0 <= nth 1 para 0)%Z /\
  slots_ok Fs (slots y para).

(** Modelled from the spec: [ODE_Model_NormalCycle] (module [HormoneModel])
    is not part of the embedded file; the specification's [CycleODESystem]
    produces the full derivative vector of the state, one derivative per
    slot of the state vector it is given. *)
Definition ODE_keeps_length : Prop :=
  forall t y Par E2 P4, length (ODE_Model_NormalCycle t y Par E2 P4) = length y.

(** *** The growth law in the words of the specification *)

(** Saturating inhibition by [x] with scale [K]. *)
Definition saturating_inhibition (K : R) (n : nat) (x : R) : R := 1 / (1 + (x / K) ^ n).

(** Increasing and decreasing sigmoids in [x ^ n] around the threshold [K]. *)
Definition sigmoid_up (K : R) (n : nat) (x : R) : R := x ^ n / (K ^ n + x ^ n).
Definition sigmoid_down (K : R) (n : nat) (x : R) : R := K ^ n / (K ^ n + x ^ n).

(** What makes these functions saturating: on non-negative arguments and
    for a positive threshold, the decreasing sigmoid decreases, the
    increasing one is its complement to 1, and the saturating inhibition is
    the decreasing sigmoid. *)
Definition saturating_shapes : Prop :=
  (forall K n a b, 0 < K -> 0 <= a <= b -> sigmoid_down K n b <= sigmoid_down K n a) /\
  (forall K n x, 0 < K -> 0 <= x -> sigmoid_up K n x = 1 - sigmoid_down K n x) /\
  (forall K n x, 0 < K -> 0 <= x -> saturating_inhibition K n x = sigmoid_down K n x).

Definition gamma_spec (gamma_max P4 fshResidual : R) : R :=
  gamma_max * (saturating_inhibition 3 3 P4 + sigmoid_up 0.95 5 fshResidual).

Definition kappa_spec (kappa_max fshResidual : R) : R :=
  kappa_max * sigmoid_down 0.55 10 fshResidual.

Definition ffsh_spec (fshResidual fshSensitivity : R) : R :=
  sigmoid_up fshSensitivity 4 fshResidual.

(** The crowding term: the sum of [size ^ p] over the follicle slots. *)
Definition SumV_spec (p : R) (sizes : list R) : R :=
  np_sum (map (fun s => np_power s p) sizes).

(** [X = ffsh (xi - size) size (gamma - kappa (SumV - ownShareOfV))]. *)
Definition X_spec (ownShareOfV ffsh xi size gamma kappa SumV : R) : R :=
  ffsh * (xi - size) * size * (gamma - kappa * (SumV - ownShareOfV)).

(** The growth expression with the own share [size ^ p], as claimed, and
    with the own share [parafoll[3] * size ^ p]. *)
Definition X_claimed (parafoll : list R) (P4 fshResidual fshSensitivity size : R)
    (sizes : list R) : R :=
  X_spec (np_power size (param parafoll 0))
         (ffsh_spec fshResidual fshSensitivity) (param parafoll 2) size
         (gamma_spec (param parafoll 1) P4 fshResidual)
         (kappa_spec (param parafoll 4) fshResidual)
         (SumV_spec (param parafoll 0) sizes).

Definition X_weighted (parafoll : list R) (P4 fshResidual fshSensitivity size : R)
    (sizes : list R) : R :=
  X_spec (param parafoll 3 * np_power size (param parafoll 0))
         (ffsh_spec fshResidual fshSensitivity) (param parafoll 2) size
         (gamma_spec (param parafoll 1) P4 fshResidual)
         (kappa_spec (param parafoll 4) fshResidual)
         (SumV_spec (param parafoll 0) sizes).

(** The levels without any follicle contribution and without the Gaussian
    bump: the baseline constants ([Par[58]] is the constant of the linear
    term of E2). *)
Definition E2_baseline (Par : list R) : R := param Par 74 + param Par 58.
Definition P4_baseline (Par : list R) : R := param Par 75.

(** Two registries that differ at most in the destiny tags of their records. *)
Definition same_but_destiny (Fs1 Fs2 : Follicles) : Prop :=
  Active Fs1 = Active Fs2 /\ ActiveFSHS Fs1 = ActiveFSHS Fs2 /\
  Forall2 (fun r1 r2 => Time r1 = Time r2 /\ TimeDecrease r1 = TimeDecrease r2 /\
                        SizeSamples r1 = SizeSamples r2)
          (Follicle Fs1) (Follicle Fs2).

(** The stagnation guard as the specification words it: the most recent
    size sample is smaller than the oldest one by more than the span. *)
Definition size_drop_exceeds (span : R) (r : FollicleRecord) : Prop :=
  oldest (SizeSamples r) - latest (SizeSamples r) > span.

(** ** Sample inputs *)

(** NumPy's [power] where it is a real number without sign cases: a
    positive base, or a zero base with an exponent that is not negative. *)
Definition numpy_power (a b : R) : R :=
  if Req_dec_T a 0 then (if Req_dec_T b 0 then 1 else 0) else Rpower a b.

(** A stand-in for [ODE_Model_NormalCycle]: the zero derivative in every
    slot. *)
Definition zero_ODE (t : R) (y Par : list R) (E2 P4 : R) : list R :=
  map (fun _ => 0) y.

(** [Par]: entries 56 to 62 are [2, 1, 0, 1, 1, 1, 1], entries 74 and 75 are
    [1], every other entry is [0]. *)
Definition sample_Par : list R :=
  repeat 0 56 ++ [2; 1; 0; 1; 1; 1; 1] ++ repeat 0 11 ++ [1; 1].

(** [parafoll]: exponent 2, [gamma] scale 1, [xi] 25, own share 1/2,
    [kappa] scale 1, and the thresholds of entries 10 to 14. *)
Definition sample_parafoll : list R :=
  [2; 1; 25; 1/2; 1; 0; 0; 0; 0; 0; 5; 0; 0; 10; 5].

(** The same with negative growth thresholds in entries 11 and 12. *)
Definition sample_parafoll_strict : list R :=
  [2; 1; 25; 1/2; 1; 0; 0; 0; 0; 0; 5; -1; -1; 10; 5].

Definition normal_para : list Z := [0; 15]%Z.
Definition test_para : list Z := [1; 15]%Z.

(** One follicle slot and fifteen hormone slots, all 0. *)
Definition one_follicle_y (size : R) : list R := size :: repeat 0 15.

(** One follicle of size 2. *)
Definition sample_y : list R := one_follicle_y 2.

(** One follicle of size 1 and fifteen hormone slots, all 1. *)
Definition sample_y_fsh : list R := 1 :: repeat 1 15.

(** One follicle of size 25, the value of [parafoll[2]] in the samples, and
    fifteen hormone slots, all 1. *)
Definition sample_y_xi : list R := 25 :: repeat 1 15.

(** No follicle slot. *)
Definition sample_y_empty : list R := repeat 0 15.

(** A follicle recorded once, at time 0 with size 2, with the given destiny
    and decline time. *)
Definition sample_follicle (destiny : Z) (td : R) : FollicleRecord :=
  mkFollicle destiny [0] td [2].

(** A registry whose only record is active, with FSH sensitivity 1. *)
Definition one_follicle_registry (r : FollicleRecord) : Follicles :=
  mkFollicles [r] [1%Z] [1].

Definition sample_registry (destiny : Z) (td : R) : Follicles :=
  one_follicle_registry (sample_follicle destiny td).

Definition empty_registry : Follicles := mkFollicles [] [] [].

(** A growing follicle whose recorded size fell from 10 to 1 between the
    times 0 and 1. *)
Definition shrunk_follicle : FollicleRecord := mkFollicle (-1) [0; 1] 0 [10; 1].

(** ** The transitions of lines 67-77, destiny by destiny *)

(** When a growing follicle (destiny -1) is marked for decline. *)
Definition growing_declines (t X : R) (parafoll : list R) (r : FollicleRecord) : Prop :=
  X <= param parafoll 11 \/
  (X <= param parafoll 12 /\ t - oldest (Time r) >= param parafoll 13) \/
  oldest (Time r) - latest (Time r) > param parafoll 14.

(** When a dominant follicle (destiny 3) is marked for decline. *)
Definition dominant_declines (t X : R) (parafoll : list R) (r : FollicleRecord) : Prop :=
  X <= param parafoll 11 \/
  (X <= param parafoll 12 /\ t - oldest (Time r) >= param parafoll 14) \/
  t - TimeDecrease r >= param parafoll 10 \/
  oldest (Time r) - latest (Time r) > param parafoll 14.

(** ** Basic facts: the monad, sequences, comparisons *)

Lemma bind_Some {A B : Type} (m : option A) (k : A -> option B) (b : B) :
  bind m k = Some b -> exists a, m = Some a /\ k a = Some b.
Proof.
  destruct m as [a|]; cbn; intros H; [exists a; auto | discriminate].
Qed.

(** Splits a hypothesis [x <- m ;; k = Some b] into [m = Some a] and
    [k a = Some b], repeatedly. *)
Ltac inv_bind H :=
  let a := fresh "a" in
  let E := fresh "E" in
  let H' := fresh "H" in
  apply bind_Some in H; destruct H as (a & E & H'); rename H' into H.

Lemma py_pos_lt (n : nat) (i : Z) (k : nat) :
  py_pos n i = Some k -> (k < n)%nat.
Proof.
  unfold py_pos; intros H.
  destruct (Z.leb_spec 0 i).
  - destruct (Z.ltb_spec i (Z.of_nat n)); inversion H; lia.
  - destruct (Z.leb_spec 0 (Z.of_nat n + i)); inversion H; lia.
Qed.

Lemma py_pos_nat (n k : nat) :
  (k < n)%nat -> py_pos n (Z.of_nat k) = Some k.
Proof.
  intros H; unfold py_pos.
  destruct (Z.leb_spec 0 (Z.of_nat k)); [|lia].
  destruct (Z.ltb_spec (Z.of_nat k) (Z.of_nat n)); [|lia].
  now rewrite Nat2Z.id.
Qed.

Lemma py_index_nat {A : Type} (l : list A) (k : nat) :
  (k < length l)%nat -> py_index l (Z.of_nat k) = nth_error l k.
Proof.
  intros H; unfold py_index; now rewrite (py_pos_nat _ _ H).
Qed.

Lemma py_index_in_range {A : Type} (l : list A) (k : nat) :
  (k < length l)%nat -> exists a, py_index l (Z.of_nat k) = Some a.
Proof.
  intros H; rewrite (py_index_nat _ _ H).
  destruct (nth_error l k) eqn:E; [eauto|].
  apply nth_error_None in E; lia.
Qed.

Lemma py_index_last {A : Type} (l : list A) :
  l <> [] -> exists a, py_index l (-1) = Some a.
Proof.
  intros H; unfold py_index, py_pos.
  assert (0 < length l)%nat by (destruct l; [congruence | cbn; lia]).
  destruct (Z.leb_spec 0 (-1)); [lia|].
  destruct (Z.leb_spec 0 (Z.of_nat (length l) + -1)); [|lia].
  cbn [bind].
  destruct (nth_error l (Z.to_nat (Z.of_nat (length l) + -1))) eqn:E; [eauto|].
  apply nth_error_None in E; lia.
Qed.

Lemma length_upd {A : Type} (k : nat) (v : A) (l : list A) :
  length (upd k v l) = length l.
Proof.
  revert k; induction l as [|a l IH]; intros [|k]; cbn; auto.
Qed.

Lemma nth_error_upd_same {A : Type} (k : nat) (v : A) (l : list A) :
  (k < length l)%nat -> nth_error (upd k v l) k = Some v.
Proof.
  revert k; induction l as [|a l IH]; intros [|k]; cbn; intros H; try lia; auto.
  apply IH; lia.
Qed.

Lemma nth_error_upd_other {A : Type} (k j : nat) (v : A) (l : list A) :
  j <> k -> nth_error (upd k v l) j = nth_error l j.
Proof.
  revert k j; induction l as [|a l IH]; intros [|k] [|j]; cbn; intros H;
    try congruence; auto.
Qed.

Lemma set_item_Some {A : Type} (l l' : list A) (k : nat) (v : A) :
  set_item l k v = Some l' -> (k < length l)%nat /\ l' = upd k v l.
Proof.
  unfold set_item; destruct (Nat.ltb_spec k (length l)) as [Hk|Hk]; intros H;
    inversion H; auto.
Qed.

Lemma set_item_in_range {A : Type} (l : list A) (k : nat) (v : A) :
  (k < length l)%nat -> set_item l k v = Some (upd k v l).
Proof.
  intros Hk; unfold set_item; destruct (Nat.ltb_spec k (length l)); [auto | lia].
Qed.

Lemma Rleb_true (a b : R) : Rleb a b = true <-> a <= b.
Proof. unfold Rleb; destruct (Rle_dec a b); split; auto; discriminate. Qed.

Lemma Rleb_false (a b : R) : Rleb a b = false <-> b < a.
Proof.
  unfold Rleb; destruct (Rle_dec a b); split; auto; try discriminate; lra.
Qed.

Lemma Rgeb_true (a b : R) : Rgeb a b = true <-> a >= b.
Proof. unfold Rgeb; destruct (Rge_dec a b); split; auto; discriminate. Qed.

Lemma Rgeb_false (a b : R) : Rgeb a b = false <-> a < b.
Proof.
  unfold Rgeb; destruct (Rge_dec a b); split; auto; try discriminate; lra.
Qed.

Lemma Rgtb_true (a b : R) : Rgtb a b = true <-> a > b.
Proof. unfold Rgtb; destruct (Rgt_dec a b); split; auto; discriminate. Qed.

Lemma Rgtb_false (a b : R) : Rgtb a b = false <-> a <= b.
Proof.
  unfold Rgtb; destruct (Rgt_dec a b); split; auto; try discriminate; lra.
Qed.

(** ** Loops *)

(** A loop whose body keeps an invariant and succeeds under it runs to its
    end. *)
Lemma for_each_total {S : Type} (Inv : S -> Prop) (body : nat -> S -> option S)
    (l : list nat) :
  (forall i s, In i l -> Inv s -> exists s', body i s = Some s' /\ Inv s') ->
  forall s, Inv s -> exists s', for_each body l s = Some s' /\ Inv s'.
Proof.
  induction l as [|i l IH]; intros Hb s Hs; cbn.
  - eauto.
  - destruct (Hb i s (or_introl eq_refl) Hs) as (s1 & E1 & H1).
    rewrite E1; cbn. apply IH; auto.
    intros j s0 Hj; apply Hb; now right.
Qed.

(** ** Lookups *)

Lemma py_index_param (l : list R) (k : nat) :
  (k < length l)%nat -> py_index l (Z.of_nat k) = Some (param l k).
Proof.
  intros H; rewrite (py_index_nat _ _ H).
  unfold param; now apply nth_error_nth'.
Qed.

Lemma py_index_nth_Z (l : list Z) (k : nat) :
  (k < length l)%nat -> py_index l (Z.of_nat k) = Some (nth k l 0%Z).
Proof.
  intros H; rewrite (py_index_nat _ _ H). now apply nth_error_nth'.
Qed.

Lemma py_index_param_inv (l : list R) (k : nat) (v : R) :
  py_index l (Z.of_nat k) = Some v -> v = param l k.
Proof.
  unfold py_index; intros H; inv_bind H.
  pose proof (py_pos_lt _ _ _ E) as Hlt.
  unfold py_pos in E.
  destruct (Z.leb_spec 0 (Z.of_nat k)); [|lia].
  destruct (Z.ltb_spec (Z.of_nat k) (Z.of_nat (length l))); [|discriminate].
  inversion E; subst a. rewrite Nat2Z.id in H.
  unfold param. now rewrite (nth_error_nth _ _ _ H).
Qed.

Lemma py_index_nth_Z_inv (l : list Z) (k : nat) (v : Z) :
  py_index l (Z.of_nat k) = Some v -> v = nth k l 0%Z.
Proof.
  unfold py_index; intros H; inv_bind H.
  unfold py_pos in E.
  destruct (Z.leb_spec 0 (Z.of_nat k)); [|lia].
  destruct (Z.ltb_spec (Z.of_nat k) (Z.of_nat (length l))); [|discriminate].
  inversion E; subst a. rewrite Nat2Z.id in H.
  now rewrite (nth_error_nth _ _ _ H).
Qed.

Lemma follicle_at_Some (Fs : Follicles) (i k : nat) (r : FollicleRecord) :
  follicle_at Fs i = Some (k, r) ->
  nth_error (Follicle Fs) k = Some r /\ (k < length (Follicle Fs))%nat /\
  exists a, nth_error (Active Fs) i = Some a /\
            py_pos (length (Follicle Fs)) (a - 1) = Some k.
Proof.
  unfold follicle_at; intros H.
  inv_bind H. inv_bind H. inv_bind H. inversion H; subst.
  split; [auto|]. split; [eapply py_pos_lt; eauto | eauto].
Qed.

(** The position of a slot's record depends on [Active] and on the number
    of records only. *)
Lemma follicle_at_pos (Fs Fs' : Follicles) (i k : nat) (r : FollicleRecord) :
  Active Fs' = Active Fs -> length (Follicle Fs') = length (Follicle Fs) ->
  follicle_at Fs i = Some (k, r) ->
  exists r', follicle_at Fs' i = Some (k, r') /\ nth_error (Follicle Fs') k = Some r'.
Proof.
  intros HA HL H. destruct (follicle_at_Some _ _ _ _ H) as (Hr & Hk & a & Ea & Ep).
  destruct (nth_error (Follicle Fs') k) as [r'|] eqn:E.
  - exists r'; split; auto. unfold follicle_at.
    rewrite HA, Ea; cbn [bind]. rewrite HL, Ep; cbn [bind]. now rewrite E.
  - apply nth_error_None in E; lia.
Qed.

Lemma follicle_at_set_record (Fs : Follicles) (i k : nat) (r r' : FollicleRecord) :
  follicle_at Fs i = Some (k, r) ->
  follicle_at (set_record Fs k r') i = Some (k, r').
Proof.
  intros H. destruct (follicle_at_Some _ _ _ _ H) as (Hr & Hk & a & Ea & Ep).
  unfold follicle_at, set_record; cbn [Active Follicle].
  rewrite Ea; cbn [bind]. rewrite length_upd, Ep; cbn [bind].
  now rewrite nth_error_upd_same.
Qed.

(** ** Lines 14-26: what the zeroing loops do to the state vector *)

(** A loop over distinct indices whose body rewrites its own slot only. *)
Lemma for_each_pointwise (body : nat -> list R -> option (list R)) (g : nat -> R -> R) :
  (forall i l l', body i l = Some l' ->
     length l' = length l /\
     nth_error l' i = option_map (g i) (nth_error l i) /\
     forall j, j <> i -> nth_error l' j = nth_error l j) ->
  forall idx l l', NoDup idx -> for_each body idx l = Some l' ->
    length l' = length l /\
    (forall j, In j idx -> nth_error l' j = option_map (g j) (nth_error l j)) /\
    (forall j, ~ In j idx -> nth_error l' j = nth_error l j).
Proof.
  intros Hb; induction idx as [|i idx IH]; intros l l' Hnd H; cbn in H.
  - inversion H; subst. repeat split; auto. intros j [].
  - inv_bind H. inversion Hnd as [|? ? Hi Hnd']; subst.
    destruct (Hb _ _ _ E) as (L1 & S1 & O1).
    destruct (IH _ _ Hnd' H) as (L2 & S2 & O2).
    split; [congruence|]. split.
    + intros j [<-|Hj].
      * rewrite (O2 _ Hi). exact S1.
      * rewrite (S2 _ Hj). rewrite O1; auto. intros ->; contradiction.
    + intros j Hj. rewrite O2 by (intros Hn; apply Hj; now right).
      apply O1. intros ->; apply Hj; now left.
Qed.

Lemma option_map_same {A : Type} (o : option A) : option_map (fun a => a) o = o.
Proof. now destruct o. Qed.

Lemma zero_body_pointwise (Fs : Follicles) (test : FollicleRecord -> bool)
    (i : nat) (l l' : list R) :
  ('(_, r) <- follicle_at Fs i ;; if test r then set_item l i 0 else Some l) = Some l' ->
  length l' = length l /\
  nth_error l' i =
    option_map (fun a => match follicle_at Fs i with
                         | Some (_, r) => if test r then 0 else a
                         | None => a
                         end) (nth_error l i) /\
  forall j, j <> i -> nth_error l' j = nth_error l j.
Proof.
  intros H. inv_bind H. destruct a as [k r]. rewrite E.
  destruct (test r).
  - apply set_item_Some in H; destruct H as [Hi ->].
    rewrite length_upd, nth_error_upd_same by auto.
    split; [auto|]. split.
    + destruct (nth_error l i) eqn:En; [reflexivity|].
      apply nth_error_None in En; lia.
    + intros j Hj; now apply nth_error_upd_other.
  - inversion H; subst. split; [auto|]. split; [|auto].
    now rewrite option_map_same.
Qed.

Lemma zero_silent_normal (para : list Z) (Fs : Follicles) (N : Z) (y y1 : list R) :
  normal_mode para -> (0 < N)%Z -> zero_silent para Fs N y = Some y1 ->
  length y1 = length y /\
  (forall j, (j < Z.to_nat N)%nat ->
     nth_error y1 j = option_map (silenced Fs j) (nth_error y j)) /\
  (forall j, ~ (j < Z.to_nat N)%nat -> nth_error y1 j = nth_error y j).
Proof.
  intros Hm HN H. unfold zero_silent in H.
  destruct (Z.ltb_spec 0 N); [|lia].
  rewrite Hm in H; cbn [bind] in H. rewrite Z.eqb_refl in H.
  inv_bind H. unfold for_range in E, H.
  pose proof (for_each_pointwise (zero_declining Fs) _
                (fun i l l' => zero_body_pointwise Fs
                   (fun r => ((Destiny r =? -2) || (Destiny r =? -3))%Z) i l l')
                _ _ _ (seq_NoDup _ 0) E) as (L1 & S1 & O1).
  pose proof (for_each_pointwise (zero_ovulated Fs) _
                (fun i l l' => zero_body_pointwise Fs
                   (fun r => (Destiny r =? 4)%Z) i l l')
                _ _ _ (seq_NoDup _ 0) H) as (L2 & S2 & O2).
  split; [congruence|]. split.
  - intros j Hj. assert (In j (seq 0 (Z.to_nat N))) as Hin by (apply in_seq; lia).
    rewrite (S2 _ Hin), (S1 _ Hin).
    destruct (nth_error y j) as [v|]; cbn; [|reflexivity].
    unfold silenced, silent. destruct (follicle_at Fs j) as [[k r]|]; [|reflexivity].
    destruct (Destiny r =? -2)%Z, (Destiny r =? -3)%Z, (Destiny r =? 4)%Z; reflexivity.
  - intros j Hj. assert (~ In j (seq 0 (Z.to_nat N))) as Hin by (rewrite in_seq; lia).
    now rewrite (O2 _ Hin), (O1 _ Hin).
Qed.

Lemma zero_silent_test (para : list Z) (Fs : Follicles) (N : Z) (y y1 : list R) :
  test_mode para -> zero_silent para Fs N y = Some y1 -> y1 = y.
Proof.
  intros (p0 & E0 & Hp) H. unfold zero_silent in H.
  destruct (0 <? N)%Z; [|congruence].
  rewrite E0 in H; cbn [bind] in H.
  destruct (Z.eqb_spec p0 0); [contradiction | congruence].
Qed.

Lemma zero_silent_empty (para : list Z) (Fs : Follicles) (N : Z) (y : list R) :
  (N <= 0)%Z -> zero_silent para Fs N y = Some y.
Proof.
  intros H; unfold zero_silent. destruct (Z.ltb_spec 0 N); [lia | reflexivity].
Qed.

Lemma zero_silent_length (para : list Z) (Fs : Follicles) (N : Z) (y y1 : list R) :
  zero_silent para Fs N y = Some y1 -> length y1 = length y.
Proof.
  intros H. pose proof H as H0. unfold zero_silent in H.
  destruct (Z.ltb_spec 0 N); [|congruence].
  inv_bind H. destruct (Z.eqb_spec a 0); [|congruence].
  subst a. now apply (zero_silent_normal para Fs N y y1).
Qed.

(** Every index of a loop that ran to its end had its body run. *)
Lemma for_each_ran {S : Type} (body : nat -> S -> option S) (l : list nat) (s s' : S) :
  for_each body l s = Some s' ->
  forall i, In i l -> exists s1 s2, body i s1 = Some s2.
Proof.
  revert s; induction l as [|j l IH]; intros s H i Hi; [destruct Hi|].
  cbn in H; inv_bind H. destruct Hi as [<-|Hi]; eauto.
Qed.

Lemma zero_silent_records (para : list Z) (Fs : Follicles) (N : Z) (y y1 : list R) :
  normal_mode para -> (0 < N)%Z -> zero_silent para Fs N y = Some y1 ->
  forall j, (j < Z.to_nat N)%nat -> exists k r, follicle_at Fs j = Some (k, r).
Proof.
  intros Hm HN H j Hj. unfold zero_silent in H.
  destruct (Z.ltb_spec 0 N); [|lia].
  rewrite Hm in H; cbn [bind] in H. rewrite Z.eqb_refl in H.
  inv_bind H. unfold for_range in E.
  destruct (for_each_ran _ _ _ _ E j) as (s1 & s2 & Hb); [apply in_seq; lia|].
  unfold zero_declining in Hb. inv_bind Hb. destruct a0 as [k r]; eauto.
Qed.

(** ** Lines 28-31: the hormone levels *)

Lemma SF_term_zero (Par : list R) :
  SF_defined_at_zero Par -> SF_term (param Par 56) (param Par 57) 0 = 0.
Proof.
  intros (_ & _ & Hd). unfold SF_term. field. exact Hd.
Qed.









(** Names the values read from a vector of floats. *)
Ltac read_params :=
  repeat match goal with
  | H : py_index ?l ?i = Some ?v |- _ =>
      let k := eval cbv in (Z.to_nat i) in
      apply (py_index_param_inv l k) in H; try subst v
  end.

Lemma hormone_levels_Some (t Tovu : R) (Par x : list R) (SF E2 P4 : R) :
  hormone_levels t Tovu Par x = Some (SF, E2, P4) ->
  SF = PI * np_sum (map (SF_term (param Par 56) (param Par 57)) x) /\
  E2 = E2_spec Par t Tovu SF /\ P4 = P4_spec Par t Tovu.
Proof.
  unfold hormone_levels; intros H.
  inv_bind H. rename E into ESF, a into SF0.
  inv_bind H. rename E into EE2, a into E20.
  inv_bind H. rename E into EP4, a into P40.
  inversion H; subst SF0 E20 P40; clear H.
  unfold SF_of in ESF. do 2 inv_bind ESF.
  unfold E2_of in EE2. do 5 inv_bind EE2.
  unfold P4_of in EP4. do 3 inv_bind EP4.
  read_params.
  inversion ESF; inversion EE2; inversion EP4; subst.
  repeat split; reflexivity.
Qed.

(** Performs the lookup of entry [k] of a vector of floats known to be long
    enough. *)
Ltac have_param l k :=
  let i := eval cbv in (Z.of_nat k) in
  let H := fresh in
  assert (H : py_index l i = Some (param l k)) by (apply (py_index_param l k); lia);
  rewrite !H; clear H; cbn [bind].

Lemma hormone_levels_total (t Tovu : R) (Par x : list R) :
  (76 <= length Par)%nat ->
  exists SF E2 P4, hormone_levels t Tovu Par x = Some (SF, E2, P4).
Proof.
  intros H. unfold hormone_levels, SF_of, E2_of, P4_of.
  have_param Par 56%nat. have_param Par 57%nat.
  have_param Par 74%nat. have_param Par 58%nat. have_param Par 59%nat.
  have_param Par 60%nat. have_param Par 61%nat.
  have_param Par 75%nat. have_param Par 62%nat.
  eauto.
Qed.

Lemma hormone_snapshot_Some (t : R) (y : list R) (Tovu : R) (Fs : Follicles)
    (para : list Z) (Par : list R) (N : Z) (y1 : list R) (h : R * R * R) :
  hormone_snapshot t y Tovu Fs para Par = Some (N, y1, h) ->
  N = NumFollicles_of y para /\
  zero_silent para Fs N y = Some y1 /\
  hormone_levels t Tovu Par (x_of N y1) = Some h.
Proof.
  unfold hormone_snapshot; intros H. do 3 inv_bind H.
  apply (py_index_nth_Z_inv para 1) in E. inversion H; subst.
  unfold NumFollicles_of. auto.
Qed.

(** The same for an entry of [para]. *)
Ltac have_para l k :=
  let i := eval cbv in (Z.of_nat k) in
  let H := fresh in
  assert (H : py_index l i = Some (nth k l 0%Z)) by (apply (py_index_nth_Z l k); lia);
  rewrite !H; clear H; cbn [bind].

Lemma zero_silent_total (para : list Z) (Fs : Follicles) (N : Z) (y : list R) :
  (1 <= length para)%nat -> (Z.to_nat N <= length y)%nat ->
  (forall j, (j < Z.to_nat N)%nat -> exists k r, follicle_at Fs j = Some (k, r)) ->
  exists y1, zero_silent para Fs N y = Some y1.
Proof.
  intros Hp HN Hr. unfold zero_silent.
  destruct (0 <? N)%Z; [|eauto].
  have_para para 0%nat.
  destruct (nth 0 para 0 =? 0)%Z; [|eauto].
  assert (forall test : FollicleRecord -> bool,
            forall l, length l = length y ->
            exists l', for_each (fun i l =>
                          '(_, r) <- follicle_at Fs i ;;
                          if test r then set_item l i 0 else Some l)
                         (seq 0 (Z.to_nat N)) l = Some l' /\ length l' = length y)
    as Hloop.
  { intros test. apply for_each_total. intros i l Hi Hl. apply in_seq in Hi.
    destruct (Hr i) as (k & r & E); [lia|]. rewrite E; cbn [bind].
    destruct (test r); [|eauto].
    rewrite set_item_in_range by lia. eexists; split; [reflexivity|].
    now rewrite length_upd. }
  unfold for_range.
  destruct (Hloop (fun r => ((Destiny r =? -2) || (Destiny r =? -3))%Z) y eq_refl)
    as (y1 & E1 & L1).
  unfold zero_declining at 1. rewrite E1; cbn [bind].
  destruct (Hloop (fun r => (Destiny r =? 4)%Z) y1 L1) as (y2 & E2 & L2).
  unfold zero_ovulated. rewrite E2. eauto.
Qed.

Lemma slots_le_length (y : list R) (para : list Z) :
  (0 <= nth 1 para 0)%Z -> (slots y para <= length y)%nat.
Proof. unfold slots, NumFollicles_of; lia. Qed.

Lemma hormone_snapshot_total (t : R) (y : list R) (Tovu : R) (Fs : Follicles)
    (para : list Z) (parafoll Par : list R) :
  well_formed y Fs para parafoll Par ->
  exists y1 h, hormone_snapshot t y Tovu Fs para Par
               = Some (NumFollicles_of y para, y1, h).
Proof.
  intros (Hpara & Hpf & HPar & Hy & Hp1 & Hs).
  unfold hormone_snapshot.
  have_para para 1%nat.
  fold (NumFollicles_of y para).
  destruct (zero_silent_total para Fs (NumFollicles_of y para) y) as (y1 & E1).
  - lia.
  - now apply slots_le_length.
  - intros j Hj. destruct (Hs j Hj) as (_ & k & r & E & _); eauto.
  - rewrite E1; cbn [bind].
    destruct (hormone_levels_total t Tovu Par
                (x_of (NumFollicles_of y para) y1) HPar) as (SF & E2 & P4 & Eh).
    rewrite Eh; cbn [bind]. eauto.
Qed.

(** [E2_lvl] and [P4_lvl] of a call, in the words of the specification. *)
Lemma hormone_snapshot_levels (t : R) (y : list R) (Tovu : R) (Fs : Follicles)
    (para : list Z) (Par : list R) (N : Z) (y1 : list R) (SF E2 P4 : R) :
  hormone_snapshot t y Tovu Fs para Par = Some (N, y1, (SF, E2, P4)) ->
  E2 = E2_spec Par t Tovu SF /\ P4 = P4_spec Par t Tovu.
Proof.
  intros H. apply hormone_snapshot_Some in H. destruct H as (_ & _ & Hh).
  apply hormone_levels_Some in Hh. destruct Hh as (_ & HE2 & HP4). auto.
Qed.


(** ** Lines 45-88: one iteration *)

Lemma growth_X_Some (parafoll : list R) (Fs : Follicles) (y : list R)
    (p4all fshrezcomp SumV : R) (i : nat) (X : R) :
  growth_X parafoll Fs y p4all fshrezcomp SumV i = Some X ->
  exists fFSH fsize,
    nth_error (ActiveFSHS Fs) i = Some fFSH /\ nth_error y i = Some fsize /\
    X = raw_growth parafoll p4all fshrezcomp SumV fFSH fsize.
Proof.
  unfold growth_X; intros H. do 7 inv_bind H. read_params.
  inversion H; subst. exists a, a0. auto.
Qed.

Lemma growth_X_total (parafoll : list R) (Fs : Follicles) (y : list R)
    (p4all fshrezcomp SumV : R) (i : nat) (fFSH fsize : R) :
  (5 <= length parafoll)%nat ->
  nth_error (ActiveFSHS Fs) i = Some fFSH -> nth_error y i = Some fsize ->
  growth_X parafoll Fs y p4all fshrezcomp SumV i
  = Some (raw_growth parafoll p4all fshrezcomp SumV fFSH fsize).
Proof.
  intros Hl E1 E2. unfold growth_X. rewrite E1, E2; cbn [bind].
  have_param parafoll 1%nat. have_param parafoll 4%nat. have_param parafoll 2%nat.
  have_param parafoll 3%nat. have_param parafoll 0%nat. reflexivity.
Qed.

(** The growth law reads the registry through [ActiveFSHS] only. *)
Lemma growth_X_registry (parafoll : list R) (Fs Fs' : Follicles) (y : list R)
    (p4all fshrezcomp SumV : R) (i : nat) :
  ActiveFSHS Fs' = ActiveFSHS Fs ->
  growth_X parafoll Fs' y p4all fshrezcomp SumV i
  = growth_X parafoll Fs y p4all fshrezcomp SumV i.
Proof. intros H; unfold growth_X; now rewrite H. Qed.

Lemma growth_step_test (t : R) (para : list Z) (parafoll y : list R)
    (p4all fshrezcomp SumV : R) (i : nat) (f f' : list R) (Fs Fs' : Follicles) :
  test_mode para ->
  growth_step t para parafoll y p4all fshrezcomp SumV i (f, Fs) = Some (f', Fs') ->
  exists X, growth_X parafoll Fs y p4all fshrezcomp SumV i = Some X /\
            (i < length f)%nat /\ f' = upd i X f /\ Fs' = Fs.
Proof.
  intros (p0 & E0 & Hp) H. unfold growth_step in H.
  inv_bind H. rewrite E0 in H; cbn [bind] in H.
  destruct (Z.eqb_spec p0 0); [contradiction|].
  inv_bind H. apply set_item_Some in E1. destruct E1 as [Hi ->].
  inversion H; subst. exists a; auto.
Qed.

Lemma growth_step_normal (t : R) (para : list Z) (parafoll y : list R)
    (p4all fshrezcomp SumV : R) (i : nat) (f f' : list R) (Fs Fs' : Follicles) :
  normal_mode para ->
  growth_step t para parafoll y p4all fshrezcomp SumV i (f, Fs) = Some (f', Fs') ->
  exists k r X c yi,
    follicle_at Fs i = Some (k, r) /\
    growth_X parafoll Fs y p4all fshrezcomp SumV i = Some X /\
    decline_condition t X parafoll (Some (k, r)) = Some c /\
    nth_error y i = Some yi /\ (i < length f)%nat /\
    f' = upd i (slot_derivative t X c r yi) f /\
    Fs' = (if c && negb (Destiny r =? -2)%Z
           then set_record Fs k (mark_decline t r) else Fs).
Proof.
  intros Hm H. unfold growth_step in H.
  inv_bind H. rename a into X, E into EX.
  destruct (growth_X_Some _ _ _ _ _ _ _ _ EX) as (fFSH & fsize & _ & Ey & _).
  rewrite Hm in H; cbn [bind] in H. rewrite Z.eqb_refl in H.
  inv_bind H. rename a into c, E into Ec.
  destruct c.
  - inv_bind H. destruct a as [k r]. rewrite E in Ec.
    exists k, r, X, true, fsize. rewrite Ey in H; cbn [bind] in H.
    unfold slot_derivative, slot_record. cbn [andb].
    destruct (Z.eqb_spec (Destiny r) (-2)); cbn [negb].
    + rewrite E in H; cbn [bind] in H. inv_bind H.
      apply set_item_Some in E0. destruct E0 as [Hi ->].
      inversion H; subst. repeat split; auto.
    + rewrite (follicle_at_set_record _ _ _ _ _ E) in H; cbn [bind] in H.
      inv_bind H. apply set_item_Some in E0. destruct E0 as [Hi ->].
      inversion H; subst. repeat split; auto.
  - inv_bind H. destruct a as [k r]. rewrite E in Ec.
    exists k, r, X, false, fsize. unfold slot_derivative. cbn [andb].
    destruct (Destiny r =? -3)%Z.
    + rewrite Ey in H; cbn [bind] in H. inv_bind H.
      apply set_item_Some in E0. destruct E0 as [Hi ->].
      inversion H; subst. repeat split; auto.
    + inv_bind H. apply set_item_Some in E0. destruct E0 as [Hi ->].
      inversion H; subst. repeat split; auto.
Qed.

Lemma growth_step_mode (t : R) (para : list Z) (parafoll y : list R)
    (p4all fshrezcomp SumV : R) (i : nat) (s s' : list R * Follicles) :
  growth_step t para parafoll y p4all fshrezcomp SumV i s = Some s' ->
  normal_mode para \/ test_mode para.
Proof.
  destruct s as [f Fs]. unfold growth_step; intros H. do 2 inv_bind H.
  destruct (Z.eqb_spec a0 0) as [->|Hne]; [now left | right; exists a0; auto].
Qed.

(** What an iteration can change: slot [i] of [f], and the record of
    follicle [i], by marking it. *)
Lemma growth_step_frame (t : R) (para : list Z) (parafoll y : list R)
    (p4all fshrezcomp SumV : R) (i : nat) (f f' : list R) (Fs Fs' : Follicles) :
  growth_step t para parafoll y p4all fshrezcomp SumV i (f, Fs) = Some (f', Fs') ->
  ((i < length f)%nat /\ exists v, f' = upd i v f) /\
  (Fs' = Fs \/
   exists k r, follicle_at Fs i = Some (k, r) /\ Destiny r <> (-2)%Z /\
               Fs' = set_record Fs k (mark_decline t r)).
Proof.
  intros H. destruct (growth_step_mode _ _ _ _ _ _ _ _ _ _ H) as [Hm|Hm].
  - destruct (growth_step_normal _ _ _ _ _ _ _ _ _ _ _ _ Hm H)
      as (k & r & X & c & yi & Er & _ & _ & _ & Hi & -> & ->).
    split; [eauto|].
    destruct c; cbn [andb]; [|now left].
    destruct (Z.eqb_spec (Destiny r) (-2)); cbn [negb]; [now left|].
    right; exists k, r; auto.
  - destruct (growth_step_test _ _ _ _ _ _ _ _ _ _ _ _ Hm H) as (X & _ & Hi & -> & ->).
    split; [eauto | now left].
Qed.

Lemma record_pos_eq (Fs Fs' : Follicles) (j : nat) :
  Active Fs' = Active Fs -> length (Follicle Fs') = length (Follicle Fs) ->
  record_pos Fs' j = record_pos Fs j.
Proof.
  intros HA HL. unfold record_pos, follicle_at. rewrite HA, HL.
  destruct (nth_error (Active Fs) j) as [a|]; cbn [bind]; [|reflexivity].
  destruct (py_pos (length (Follicle Fs)) (a - 1)) as [k|] eqn:E; cbn [bind];
    [|reflexivity].
  apply py_pos_lt in E.
  destruct (nth_error (Follicle Fs') k) eqn:E1;
    [|apply nth_error_None in E1; lia].
  destruct (nth_error (Follicle Fs) k) eqn:E2;
    [|apply nth_error_None in E2; lia].
  reflexivity.
Qed.

Lemma follicle_at_record_pos (Fs : Follicles) (j k : nat) (r : FollicleRecord) :
  follicle_at Fs j = Some (k, r) -> record_pos Fs j = Some k.
Proof. intros H; unfold record_pos; now rewrite H. Qed.

(** ** Lines 67-72: the decline condition *)

Lemma py_index_oldest (l : list R) (v : R) : py_index l 0 = Some v -> v = oldest l.
Proof. apply (py_index_param_inv l 0). Qed.

Lemma nth_error_last (l : list R) (v : R) :
  nth_error l (length l - 1) = Some v -> v = last l 0.
Proof.
  induction l as [|a l IH]; [discriminate|].
  destruct l as [|b l].
  - cbn. intros H; now inversion H.
  - intros H. change (last (a :: b :: l) 0) with (last (b :: l) 0). apply IH.
    cbn [length] in *. replace (S (S (length l)) - 1)%nat with (S (length l)) in H by lia.
    replace (S (length l) - 1)%nat with (length l) by lia. exact H.
Qed.

Lemma py_index_latest (l : list R) (v : R) : py_index l (-1) = Some v -> v = latest l.
Proof.
  unfold py_index, py_pos; intros H.
  destruct (Z.leb_spec 0 (-1)); [lia|].
  destruct (Z.leb_spec 0 (Z.of_nat (length l) + -1)); [|discriminate].
  cbn [bind] in H. apply nth_error_last.
  replace (length l - 1)%nat with (Z.to_nat (Z.of_nat (length l) + -1)) by lia.
  exact H.
Qed.

(** Whenever the lazily evaluated condition has a value, it is the value of
    the plain boolean expression. *)
Lemma decline_condition_fires (t X : R) (parafoll : list R) (k : nat)
    (r : FollicleRecord) (c : bool) :
  decline_condition t X parafoll (Some (k, r)) = Some c ->
  c = decline_fires t X parafoll r.
Proof.
  unfold decline_condition, span_guard, or_else, and_then; cbn [bind]; intros H.
  repeat first
    [ discriminate
    | match type of H with
      | context [py_index ?l ?i] =>
          let E := fresh "E" in destruct (py_index l i) eqn:E; cbn [bind] in H
      end
    | match type of H with
      | context [if ?b then _ else _] =>
          let E := fresh "B" in destruct b eqn:E; cbn [bind] in H
      end ];
  repeat match goal with
    | E : py_index _ 0 = Some ?v |- _ => apply py_index_oldest in E; try subst v
    | E : py_index _ (-1) = Some ?v |- _ => apply py_index_latest in E; try subst v
    end;
  read_params;
  inversion H; subst c; unfold decline_fires;
  repeat match goal with
    | E : ?b = true |- context [?b] => rewrite E
    | E : ?b = false |- context [?b] => rewrite E
    end;
  cbn [orb andb]; rewrite ?orb_true_r, ?andb_false_r; reflexivity.
Qed.

Lemma decline_condition_total (t X : R) (parafoll : list R) (k : nat)
    (r : FollicleRecord) :
  (15 <= length parafoll)%nat -> Time r <> [] ->
  exists c, decline_condition t X parafoll (Some (k, r)) = Some c.
Proof.
  intros Hl Ht.
  assert (exists t0, py_index (Time r) 0 = Some t0) as (t0 & E0).
  { apply (py_index_in_range (Time r) 0). destruct (Time r); [congruence | cbn; lia]. }
  destruct (py_index_last (Time r) Ht) as (tl & El).
  unfold decline_condition, span_guard, or_else, and_then; cbn [bind].
  have_param parafoll 11%nat. have_param parafoll 12%nat. have_param parafoll 13%nat.
  have_param parafoll 14%nat. have_param parafoll 10%nat.
  rewrite !E0, !El; cbn [bind].
  repeat match goal with
    | |- context [if ?b then _ else _] => destruct b; cbn [bind]
    end; eauto.
Qed.

Lemma growth_step_total (t : R) (para : list Z) (parafoll y : list R)
    (p4all fshrezcomp SumV : R) (i : nat) (f : list R) (Fs : Follicles)
    (k : nat) (r : FollicleRecord) :
  (1 <= length para)%nat -> (15 <= length parafoll)%nat ->
  (i < length f)%nat -> (i < length y)%nat -> (i < length (ActiveFSHS Fs))%nat ->
  follicle_at Fs i = Some (k, r) -> Time r <> [] ->
  exists s', growth_step t para parafoll y p4all fshrezcomp SumV i (f, Fs) = Some s'.
Proof.
  intros Hpa Hpf Hf Hy HA Er Ht.
  destruct (nth_error y i) as [yi|] eqn:Ey; [|apply nth_error_None in Ey; lia].
  destruct (nth_error (ActiveFSHS Fs) i) as [fF|] eqn:EA;
    [|apply nth_error_None in EA; lia].
  unfold growth_step.
  rewrite (growth_X_total parafoll Fs y p4all fshrezcomp SumV i fF yi) by (auto; lia).
  cbn [bind]. have_para para 0%nat.
  destruct (nth 0 para 0 =? 0)%Z.
  - rewrite Er.
    destruct (decline_condition_total t
                (raw_growth parafoll p4all fshrezcomp SumV fF yi) parafoll k r Hpf Ht)
      as (c & Ec).
    rewrite Ec; cbn [bind]. destruct c.
    + rewrite Ey; cbn [bind]. destruct (Destiny r =? -2)%Z.
      * rewrite Er; cbn [bind]. rewrite set_item_in_range by auto. cbn [bind]. eauto.
      * rewrite (follicle_at_set_record _ _ _ _ _ Er); cbn [bind].
        rewrite set_item_in_range by auto. cbn [bind]. eauto.
    + destruct (Destiny r =? -3)%Z.
      * rewrite Ey; cbn [bind]. rewrite set_item_in_range by auto. cbn [bind]. eauto.
      * rewrite set_item_in_range by auto. cbn [bind]. eauto.
  - rewrite set_item_in_range by auto. cbn [bind]. eauto.
Qed.

(** ** Lines 45-88: the loop *)

Section Loop.

Variables (t : R) (para : list Z) (parafoll y : list R) (p4all fshrezcomp SumV : R).


(** What the loop keeps: the shape of [f] and of the registry, the slots of
    [f] it does not visit, the records no visited slot leads to; and every
    record is the one found before the loop or that record marked. *)
Lemma growth_loop_frame (l : list nat) :
  forall f Fs f' Fs',
  for_each (growth_step t para parafoll y p4all fshrezcomp SumV) l (f, Fs)
    = Some (f', Fs') ->
  length f' = length f /\
  Active Fs' = Active Fs /\ ActiveFSHS Fs' = ActiveFSHS Fs /\
  length (Follicle Fs') = length (Follicle Fs) /\
  (forall j, ~ In j l -> nth_error f' j = nth_error f j) /\
  (forall k, (forall j, In j l -> record_pos Fs j <> Some k) ->
             nth_error (Follicle Fs') k = nth_error (Follicle Fs) k) /\
  (forall k, marked_or_same t (nth_error (Follicle Fs) k) (nth_error (Follicle Fs') k)).
Proof.
  induction l as [|i l IH]; intros f Fs f' Fs' H; cbn in H.
  - inversion H; subst. repeat split; auto. intros k; now left.
  - inv_bind H. destruct a as [f1 Fs1].
    destruct (growth_step_frame _ _ _ _ _ _ _ _ _ _ _ _ E) as ((Hi & v & ->) & HFs).
    destruct (IH _ _ _ _ H) as (L & A & AF & LF & Hf & Hr & Hm).
    rewrite length_upd in L.
    assert (Active Fs1 = Active Fs /\ ActiveFSHS Fs1 = ActiveFSHS Fs /\
            length (Follicle Fs1) = length (Follicle Fs)) as (A1 & AF1 & LF1).
    { destruct HFs as [->|(k & r & _ & _ & ->)]; [auto|].
      cbn [set_record Active ActiveFSHS Follicle]. now rewrite length_upd. }
    split; [auto|]. split; [congruence|]. split; [congruence|]. split; [congruence|].
    split; [|split].
    + intros j Hj. rewrite Hf by (intros Hn; apply Hj; now right).
      apply nth_error_upd_other. intros ->; apply Hj; now left.
    + intros k Hk. rewrite Hr.
      * destruct HFs as [->|(k0 & r & Er & _ & ->)]; [reflexivity|].
        cbn [set_record Follicle]. apply nth_error_upd_other.
        intros ->. apply (Hk i); [now left|].
        now apply follicle_at_record_pos in Er.
      * intros j Hj. rewrite (record_pos_eq Fs Fs1) by auto. apply Hk; now right.
    + intros k. specialize (Hm k).
      destruct HFs as [->|(k0 & r & Er & Hd & ->)]; [exact Hm|].
      apply follicle_at_Some in Er. destruct Er as (Er & Hk0 & _).
      cbn [set_record Follicle] in Hm.
      destruct (Nat.eq_dec k k0) as [->|Hne].
      * rewrite nth_error_upd_same in Hm by auto. rewrite Er.
        destruct Hm as [Hm|(r0 & E0 & Hd0 & _)].
        -- right; exists r; auto.
        -- inversion E0; subst r0. cbn in Hd0. congruence.
      * rewrite nth_error_upd_other in Hm by auto. exact Hm.
Qed.

(** In test mode the loop writes [X] into every slot it visits and leaves
    the registry alone. *)
Lemma growth_loop_test (l : list nat) :
  test_mode para -> NoDup l ->
  forall f Fs f' Fs',
  for_each (growth_step t para parafoll y p4all fshrezcomp SumV) l (f, Fs)
    = Some (f', Fs') ->
  Fs' = Fs /\
  forall j, In j l ->
    exists X, growth_X parafoll Fs y p4all fshrezcomp SumV j = Some X /\
              nth_error f' j = Some X.
Proof.
  intros Hm. induction l as [|i l IH]; intros Hnd f Fs f' Fs' H; cbn in H.
  - inversion H; subst. split; [auto | intros j []].
  - inv_bind H. destruct a as [f1 Fs1]. inversion Hnd as [|? ? Hi Hnd']; subst.
    destruct (growth_step_test _ _ _ _ _ _ _ _ _ _ _ _ Hm E) as (X & EX & Hlt & -> & ->).
    destruct (IH Hnd' _ _ _ _ H) as (-> & Hl).
    split; [auto|]. intros j [<-|Hj]; [|auto].
    exists X; split; [auto|].
    destruct (growth_loop_frame _ _ _ _ _ H) as (_ & _ & _ & _ & Hf & _).
    rewrite (Hf _ Hi). now apply nth_error_upd_same.
Qed.

(** In normal mode, when no two visited slots share a record, every visited
    slot and its record end as one iteration on the initial registry
    leaves them. *)
Lemma growth_loop_normal (l : list nat) :
  normal_mode para -> NoDup l ->
  forall f Fs f' Fs',
  (forall i j, In i l -> In j l -> i <> j -> record_pos Fs i <> record_pos Fs j) ->
  for_each (growth_step t para parafoll y p4all fshrezcomp SumV) l (f, Fs)
    = Some (f', Fs') ->
  forall j, In j l ->
    exists k r X c yi,
      follicle_at Fs j = Some (k, r) /\
      growth_X parafoll Fs y p4all fshrezcomp SumV j = Some X /\
      decline_condition t X parafoll (Some (k, r)) = Some c /\
      nth_error y j = Some yi /\
      nth_error f' j = Some (slot_derivative t X c r yi) /\
      nth_error (Follicle Fs') k = Some (slot_record t c r).
Proof.
  intros Hm. induction l as [|i l IH]; intros Hnd f Fs f' Fs' Hd H j Hj; [destruct Hj|].
  cbn in H. inv_bind H. destruct a as [f1 Fs1]. inversion Hnd as [|? ? Hi Hnd']; subst.
  destruct (growth_step_normal _ _ _ _ _ _ _ _ _ _ _ _ Hm E)
    as (k & r & X & c & yi & Er & EX & Ec & Ey & Hlt & Hf1 & HFs1).
  destruct (growth_loop_frame _ _ _ _ _ H) as (_ & _ & _ & _ & Hf & Hr & _).
  assert (Active Fs1 = Active Fs /\ ActiveFSHS Fs1 = ActiveFSHS Fs /\
          length (Follicle Fs1) = length (Follicle Fs)) as (A1 & AF1 & LF1).
  { subst Fs1. destruct (c && negb (Destiny r =? -2)%Z); [|auto].
    cbn [set_record Active ActiveFSHS Follicle]. now rewrite length_upd. }
  pose proof (follicle_at_Some _ _ _ _ Er) as (Hrk & Hk & _).
  destruct Hj as [<-|Hj].
  - exists k, r, X, c, yi. repeat (split; [assumption|]). split.
    + rewrite (Hf _ Hi), Hf1. now apply nth_error_upd_same.
    + rewrite Hr.
      * subst Fs1. unfold slot_record.
        destruct c; cbn [andb]; [|exact Hrk].
        destruct (Destiny r =? -2)%Z; cbn [negb]; [exact Hrk|].
        cbn [set_record Follicle]. now apply nth_error_upd_same.
      * intros j Hj. rewrite (record_pos_eq Fs Fs1) by auto.
        rewrite <- (follicle_at_record_pos _ _ _ _ Er).
        apply Hd; [now right | now left | intros ->; contradiction].
  - destruct (IH Hnd' f1 Fs1 f' Fs') with (j := j)
      as (kj & rj & Xj & cj & yj & Erj & EXj & Ecj & Eyj & Efj & ERj); auto.
    { intros a b Ha Hb Hab. rewrite !(record_pos_eq Fs Fs1) by auto.
      apply Hd; [now right | now right | auto]. }
    exists kj, rj, Xj, cj, yj.
    rewrite (growth_X_registry parafoll Fs Fs1) in EXj by auto.
    repeat (split; [try assumption|]); [|assumption].
    assert (kj <> k) as Hne.
    { intros ->. apply (Hd j i); [now right | now left | intros ->; contradiction |].
      rewrite (follicle_at_record_pos _ _ _ _ Er).
      rewrite <- (record_pos_eq Fs Fs1) by auto.
      now apply follicle_at_record_pos in Erj. }
    apply follicle_at_Some in Erj. destruct Erj as (Erj & Hkj & a & Ea & Ep).
    unfold follicle_at. rewrite <- A1, Ea; cbn [bind].
    rewrite <- LF1, Ep; cbn [bind].
    replace (nth_error (Follicle Fs) kj) with (Some rj); [reflexivity|].
    rewrite <- Erj. subst Fs1.
    destruct (c && negb (Destiny r =? -2)%Z); [|reflexivity].
    cbn [set_record Follicle]. now apply nth_error_upd_other.
Qed.

End Loop.

(** ** The function as a whole *)

Lemma FollicleFunction_Some (t : R) (y : list R) (Tovu : R) (Fs : Follicles)
    (para : list Z) (parafoll Par : list R) (out : Outcome) :
  FollicleFunction t y Tovu Fs para parafoll Par = Some out ->
  exists y1 SF E2 P4 fsh SumV,
    hormone_snapshot t y Tovu Fs para Par
      = Some (NumFollicles_of y para, y1, (SF, E2, P4)) /\
    feedback_terms parafoll (NumFollicles_of y para) y1 = Some (fsh, SumV) /\
    for_each (growth_step t para parafoll y1 P4 fsh SumV) (seq 0 (slots y para))
      (ODE_Model_NormalCycle t y1 Par E2 P4, Fs)
      = Some (returned out, Follicles_after out) /\
    y_after out = y1.
Proof.
  unfold FollicleFunction; intros H.
  inv_bind H. destruct a as [[N y1] [[SF E2] P4]].
  inv_bind H. destruct a as [fsh SumV].
  inv_bind H. destruct a as [f' Fs'].
  inversion H; subst out; clear H. cbn [returned y_after Follicles_after].
  destruct (hormone_snapshot_Some _ _ _ _ _ _ _ _ _ E) as (-> & _ & _).
  exists y1, SF, E2, P4, fsh, SumV. repeat split; auto.
Qed.

Lemma X_in_call_eq (t : R) (y : list R) (Tovu : R) (Fs : Follicles)
    (para : list Z) (parafoll Par : list R) (y1 : list R) (SF E2 P4 fsh SumV : R)
    (i : nat) :
  hormone_snapshot t y Tovu Fs para Par
    = Some (NumFollicles_of y para, y1, (SF, E2, P4)) ->
  feedback_terms parafoll (NumFollicles_of y para) y1 = Some (fsh, SumV) ->
  X_in_call t y Tovu Fs para parafoll Par i = growth_X parafoll Fs y1 P4 fsh SumV i.
Proof.
  intros E1 E2'. unfold X_in_call. rewrite E1; cbn [bind]. now rewrite E2'.
Qed.

Lemma feedback_terms_total (parafoll : list R) (N : Z) (y1 : list R) :
  (1 <= length parafoll)%nat -> (15 <= length y1)%nat ->
  exists fsh SumV, feedback_terms parafoll N y1 = Some (fsh, SumV).
Proof.
  intros Hp Hy. unfold feedback_terms.
  destruct (py_index_in_range y1 (length y1 - 15)) as (fsh & E); [lia|].
  replace (Z.of_nat (length y1 - 15)) with (Z.of_nat (length y1) - 15)%Z in E by lia.
  rewrite E; cbn [bind]. have_param parafoll 0%nat. eauto.
Qed.

(** On well-formed input, and with an [ODE_Model_NormalCycle] that returns
    one derivative per slot, the call returns. *)
Lemma FollicleFunction_total (t : R) (y : list R) (Tovu : R) (Fs : Follicles)
    (para : list Z) (parafoll Par : list R) :
  ODE_keeps_length -> well_formed y Fs para parafoll Par ->
  exists out, FollicleFunction t y Tovu Fs para parafoll Par = Some out.
Proof.
  intros HO Hwf.
  destruct (hormone_snapshot_total t y Tovu Fs para parafoll Par Hwf)
    as (y1 & [[SF E2] P4] & Eh).
  destruct Hwf as (Hpara & Hpf & HPar & Hy & Hp1 & Hs).
  destruct (hormone_snapshot_Some _ _ _ _ _ _ _ _ _ Eh) as (_ & Hz & _).
  pose proof (zero_silent_length _ _ _ _ _ Hz) as Ly1.
  destruct (feedback_terms_total parafoll (NumFollicles_of y para) y1)
    as (fsh & SumV & Ef); [lia | lia |].
  unfold FollicleFunction. rewrite Eh; cbn [bind]. rewrite Ef; cbn [bind].
  unfold for_range. fold (slots y para).
  set (f0 := ODE_Model_NormalCycle t y1 Par E2 P4).
  destruct (for_each_total
              (fun s : list R * Follicles =>
                 length (fst s) = length y /\
                 Active (snd s) = Active Fs /\ ActiveFSHS (snd s) = ActiveFSHS Fs /\
                 length (Follicle (snd s)) = length (Follicle Fs) /\
                 forall k, option_map Time (nth_error (Follicle (snd s)) k)
                           = option_map Time (nth_error (Follicle Fs) k))
              (growth_step t para parafoll y1 P4 fsh SumV)
              (seq 0 (slots y para))) with (s := (f0, Fs)) as ([f' Fs'] & El & _).
  - intros i [f Fc] Hi (Lf & A & AF & LF & HT). cbn [fst snd] in *.
    apply in_seq in Hi.
    destruct (Hs i) as (HiA & k & r & Er & Ht); [lia|].
    destruct (follicle_at_pos Fs Fc i k r A LF Er) as (r' & Er' & Hr').
    pose proof (slots_le_length y para Hp1) as Hle.
    assert (Time r' = Time r) as HTr.
    { specialize (HT k). rewrite Hr' in HT.
      apply follicle_at_Some in Er. destruct Er as (Er & _). rewrite Er in HT.
      now inversion HT. }
    destruct (growth_step_total t para parafoll y1 P4 fsh SumV i f Fc k r')
      as ([f1 F1] & E1); try lia; auto.
    { rewrite AF; lia. }
    { now rewrite HTr. }
    exists (f1, F1); split; [exact E1|]. cbn [fst snd].
    destruct (growth_step_frame _ _ _ _ _ _ _ _ _ _ _ _ E1) as ((_ & v & ->) & HF1).
    rewrite length_upd. split; [auto|].
    destruct HF1 as [->|(k0 & r0 & Er0 & _ & ->)]; [auto|].
    cbn [set_record Active ActiveFSHS Follicle]. rewrite length_upd.
    repeat (split; [auto|]). intros k1. rewrite <- HT.
    apply follicle_at_Some in Er0. destruct Er0 as (Er0 & Hk0 & _).
    destruct (Nat.eq_dec k1 k0) as [->|Hne].
    + rewrite nth_error_upd_same by auto. now rewrite Er0.
    + now rewrite nth_error_upd_other.
  - cbn [fst snd]. subst f0. rewrite HO. auto.
  - rewrite El; cbn [bind]. eauto.
Qed.

(** What a call keeps. *)
Lemma FollicleFunction_frame (t : R) (y : list R) (Tovu : R) (Fs : Follicles)
    (para : list Z) (parafoll Par : list R) (out : Outcome) :
  FollicleFunction t y Tovu Fs para parafoll Par = Some out ->
  length (y_after out) = length y /\
  Active (Follicles_after out) = Active Fs /\
  ActiveFSHS (Follicles_after out) = ActiveFSHS Fs /\
  length (Follicle (Follicles_after out)) = length (Follicle Fs) /\
  (forall k, marked_or_same t (nth_error (Follicle Fs) k)
                              (nth_error (Follicle (Follicles_after out)) k)) /\
  exists SF E2 P4,
    hormone_snapshot t y Tovu Fs para Par
      = Some (NumFollicles_of y para, y_after out, (SF, E2, P4)) /\
    length (returned out)
      = length (ODE_Model_NormalCycle t (y_after out) Par E2 P4) /\
    forall j, (slots y para <= j)%nat ->
      nth_error (returned out) j
      = nth_error (ODE_Model_NormalCycle t (y_after out) Par E2 P4) j.
Proof.
  intros H.
  destruct (FollicleFunction_Some _ _ _ _ _ _ _ _ H)
    as (y1 & SF & E2 & P4 & fsh & SumV & Eh & Ef & El & ->).
  destruct (hormone_snapshot_Some _ _ _ _ _ _ _ _ _ Eh) as (_ & Hz & _).
  destruct (growth_loop_frame _ _ _ _ _ _ _ _ _ _ _ _ El)
    as (L & A & AF & LF & Hf & _ & Hm).
  split; [eapply zero_silent_length; eauto|].
  repeat (split; [assumption|]).
  exists SF, E2, P4. repeat split; auto.
  intros j Hj. apply Hf. rewrite in_seq; lia.
Qed.

(** The state vector after a normal-mode call: the slots of the silent
    follicles are zero, every other slot is as it was. *)
Lemma FollicleFunction_y_after (t : R) (y : list R) (Tovu : R) (Fs : Follicles)
    (para : list Z) (parafoll Par : list R) (out : Outcome) :
  normal_mode para ->
  FollicleFunction t y Tovu Fs para parafoll Par = Some out ->
  (forall j, (j < slots y para)%nat ->
     nth_error (y_after out) j = option_map (silenced Fs j) (nth_error y j)) /\
  (forall j, (slots y para <= j)%nat -> nth_error (y_after out) j = nth_error y j).
Proof.
  intros Hm H.
  destruct (FollicleFunction_Some _ _ _ _ _ _ _ _ H)
    as (y1 & SF & E2 & P4 & fsh & SumV & Eh & _ & _ & ->).
  destruct (hormone_snapshot_Some _ _ _ _ _ _ _ _ _ Eh) as (_ & Hz & _).
  destruct (Z.ltb_spec 0 (NumFollicles_of y para)) as [Hpos|Hneg].
  - destruct (zero_silent_normal _ _ _ _ _ Hm Hpos Hz) as (_ & H1 & H2).
    split; [exact H1|]. intros j Hj. apply H2. unfold slots in Hj. lia.
  - rewrite zero_silent_empty in Hz by lia. inversion Hz; subst y1.
    split; [|auto]. intros j Hj. unfold slots in Hj. lia.
Qed.

(** Slot by slot, a normal-mode call on a registry whose follicle slots lead
    to distinct records. *)
Lemma FollicleFunction_slot_normal (t : R) (y : list R) (Tovu : R) (Fs : Follicles)
    (para : list Z) (parafoll Par : list R) (out : Outcome) :
  normal_mode para -> distinct_follicles Fs (slots y para) ->
  FollicleFunction t y Tovu Fs para parafoll Par = Some out ->
  forall j, (j < slots y para)%nat ->
    exists k r X yi,
      follicle_at Fs j = Some (k, r) /\
      X_in_call t y Tovu Fs para parafoll Par j = Some X /\
      nth_error (y_after out) j = Some yi /\
      nth_error (returned out) j
        = Some (slot_derivative t X (decline_fires t X parafoll r) r yi) /\
      nth_error (Follicle (Follicles_after out)) k
        = Some (slot_record t (decline_fires t X parafoll r) r).
Proof.
  intros Hm Hd H j Hj.
  destruct (FollicleFunction_Some _ _ _ _ _ _ _ _ H)
    as (y1 & SF & E2 & P4 & fsh & SumV & Eh & Ef & El & ->).
  assert (forall a b, In a (seq 0 (slots y para)) -> In b (seq 0 (slots y para)) ->
            a <> b -> record_pos Fs a <> record_pos Fs b) as Hdist.
  { intros a b Ha Hb. apply in_seq in Ha, Hb. apply Hd; lia. }
  assert (In j (seq 0 (slots y para))) as Hin by (apply in_seq; lia).
  destruct (growth_loop_normal t para parafoll y1 P4 fsh SumV (seq 0 (slots y para))
              Hm (seq_NoDup (slots y para) 0) _ _ _ _ Hdist El j Hin)
    as (k & r & X & c & yi & Er & EX & Ec & Ey & Efj & Erj).
  apply decline_condition_fires in Ec. subst c.
  exists k, r, X, yi. rewrite (X_in_call_eq _ _ _ _ _ _ _ _ _ _ _ _ _ _ Eh Ef).
  auto.
Qed.

(** In test mode the loop body does not look at the records. *)
Lemma growth_step_test_eq (t : R) (para : list Z) (parafoll y : list R)
    (p4all fshrezcomp SumV : R) (i : nat) (f : list R) (Fs : Follicles) :
  test_mode para ->
  growth_step t para parafoll y p4all fshrezcomp SumV i (f, Fs)
  = (X <- growth_X parafoll Fs y p4all fshrezcomp SumV i ;;
     f' <- set_item f i X ;; Some (f', Fs)).
Proof.
  intros (p0 & E0 & Hp). unfold growth_step. rewrite E0.
  destruct (growth_X parafoll Fs y p4all fshrezcomp SumV i); cbn [bind]; [|reflexivity].
  destruct (Z.eqb_spec p0 0); [contradiction | reflexivity].
Qed.

Lemma growth_loop_test_registry (t : R) (para : list Z) (parafoll y : list R)
    (p4all fshrezcomp SumV : R) (Fs1 Fs2 : Follicles) (l : list nat) :
  test_mode para -> ActiveFSHS Fs1 = ActiveFSHS Fs2 ->
  forall f,
  option_map fst (for_each (growth_step t para parafoll y p4all fshrezcomp SumV) l (f, Fs1))
  = option_map fst (for_each (growth_step t para parafoll y p4all fshrezcomp SumV) l (f, Fs2)).
Proof.
  intros Hm HA. induction l as [|i l IH]; intros f; cbn [for_each]; [reflexivity|].
  rewrite !growth_step_test_eq by auto.
  rewrite (growth_X_registry parafoll Fs2 Fs1) by auto.
  destruct (growth_X parafoll Fs2 y p4all fshrezcomp SumV i); cbn [bind]; [|reflexivity].
  destruct (set_item f i r); cbn [bind]; [apply IH | reflexivity].
Qed.

Lemma hormone_snapshot_test (t : R) (y : list R) (Tovu : R) (Fs1 Fs2 : Follicles)
    (para : list Z) (Par : list R) :
  test_mode para ->
  hormone_snapshot t y Tovu Fs1 para Par = hormone_snapshot t y Tovu Fs2 para Par.
Proof.
  intros (p0 & E0 & Hp). unfold hormone_snapshot, zero_silent.
  destruct (py_index para 1); cbn [bind]; [|reflexivity].
  destruct (0 <? Z.of_nat (length y) - z)%Z; [|reflexivity].
  rewrite E0; cbn [bind]. destruct (Z.eqb_spec p0 0); [contradiction | reflexivity].
Qed.

(** In test mode the returned vector depends on the registry through
    [ActiveFSHS] only. *)
Lemma FollicleFunction_test_registry (t : R) (y : list R) (Tovu : R)
    (Fs1 Fs2 : Follicles) (para : list Z) (parafoll Par : list R) :
  test_mode para -> ActiveFSHS Fs1 = ActiveFSHS Fs2 ->
  option_map returned (FollicleFunction t y Tovu Fs1 para parafoll Par)
  = option_map returned (FollicleFunction t y Tovu Fs2 para parafoll Par).
Proof.
  intros Hm HA. unfold FollicleFunction.
  rewrite (hormone_snapshot_test t y Tovu Fs1 Fs2) by auto.
  destruct (hormone_snapshot t y Tovu Fs2 para Par) as [[[N y1] [[SF E2] P4]]|];
    cbn [bind]; [|reflexivity].
  destruct (feedback_terms parafoll N y1) as [[fsh SumV]|]; cbn [bind]; [|reflexivity].
  unfold for_range.
  pose proof (growth_loop_test_registry t para parafoll y1 P4 fsh SumV Fs1 Fs2
                (seq 0 (Z.to_nat N)) Hm HA (ODE_Model_NormalCycle t y1 Par E2 P4)) as Hl.
  destruct (for_each _ _ (_, Fs1)) as [[f1 F1]|];
    destruct (for_each _ _ (_, Fs2)) as [[f2 F2]|];
    cbn [bind option_map fst returned] in *; congruence.
Qed.

(** Slot by slot, a test-mode call. *)
Lemma FollicleFunction_slot_test (t : R) (y : list R) (Tovu : R) (Fs : Follicles)
    (para : list Z) (parafoll Par : list R) (out : Outcome) :
  test_mode para ->
  FollicleFunction t y Tovu Fs para parafoll Par = Some out ->
  y_after out = y /\ Follicles_after out = Fs /\
  forall j, (j < slots y para)%nat ->
    exists X, X_in_call t y Tovu Fs para parafoll Par j = Some X /\
              nth_error (returned out) j = Some X.
Proof.
  intros Hm H.
  destruct (FollicleFunction_Some _ _ _ _ _ _ _ _ H)
    as (y1 & SF & E2 & P4 & fsh & SumV & Eh & Ef & El & ->).
  destruct (hormone_snapshot_Some _ _ _ _ _ _ _ _ _ Eh) as (_ & Hz & _).
  apply (zero_silent_test _ _ _ _ _ Hm) in Hz.
  destruct (growth_loop_test t para parafoll y1 P4 fsh SumV (seq 0 (slots y para))
              Hm (seq_NoDup (slots y para) 0) _ _ _ _ El) as (HF & Hl).
  repeat split; auto. intros j Hj.
  destruct (Hl j) as (X & EX & Ej); [apply in_seq; lia|].
  exists X. rewrite (X_in_call_eq _ _ _ _ _ _ _ _ _ _ _ _ _ _ Eh Ef). auto.
Qed.

(** ** The growth law and the decline condition, case by case *)

Lemma raw_growth_weighted (parafoll : list R) (P4 fsh SumV fFSH size : R) :
  raw_growth parafoll P4 fsh SumV fFSH size
  = X_spec (param parafoll 3 * np_power size (param parafoll 0))
           (ffsh_spec fsh fFSH) (param parafoll 2) size
           (gamma_spec (param parafoll 1) P4 fsh)
           (kappa_spec (param parafoll 4) fsh) SumV.
Proof.
  unfold raw_growth, X_of, X_spec, ffsh_of, ffsh_spec, gamma_of, gamma_spec,
    kappa_of, kappa_spec, sigmoid_up, sigmoid_down, saturating_inhibition.
  rewrite (Rplus_comm (fFSH ^ 4)). reflexivity.
Qed.

Lemma raw_growth_no_fsh (parafoll : list R) (P4 SumV fFSH size : R) :
  raw_growth parafoll P4 0 SumV fFSH size = 0.
Proof. unfold raw_growth, X_of, ffsh_of, Rdiv. ring. Qed.

Lemma raw_growth_zero_size (parafoll : list R) (P4 fsh SumV fFSH : R) :
  raw_growth parafoll P4 fsh SumV fFSH 0 = 0.
Proof. unfold raw_growth, X_of. ring. Qed.

Lemma X_in_call_Some (t : R) (y : list R) (Tovu : R) (Fs : Follicles)
    (para : list Z) (parafoll Par : list R) (i : nat) (X : R) :
  X_in_call t y Tovu Fs para parafoll Par i = Some X ->
  exists y1 SF E2 P4 fsh fFSH size,
    hormone_snapshot t y Tovu Fs para Par
      = Some (NumFollicles_of y para, y1, (SF, E2, P4)) /\
    py_index y1 (Z.of_nat (length y1) - 15) = Some fsh /\
    nth_error (ActiveFSHS Fs) i = Some fFSH /\
    nth_error y1 i = Some size /\
    X = raw_growth parafoll P4 fsh
          (SumV_spec (param parafoll 0) (x_of (NumFollicles_of y para) y1)) fFSH size.
Proof.
  unfold X_in_call; intros H.
  inv_bind H. destruct a as [[N y1] [[SF E2] P4]].
  inv_bind H. destruct a as [fsh SumV].
  destruct (hormone_snapshot_Some _ _ _ _ _ _ _ _ _ E) as (-> & _ & _).
  destruct (growth_X_Some _ _ _ _ _ _ _ _ H) as (fFSH & size & EA & Ey & ->).
  unfold feedback_terms in E0. do 2 inv_bind E0. read_params.
  inversion E0; subst.
  exists y1, SF, E2, P4, fsh, fFSH, size. repeat split; auto.
Qed.

(** In normal mode the slot of a silent follicle is zero when the growth
    law reads it, so its X is 0. *)
Lemma silent_follicle_X (t : R) (y : list R) (Tovu : R) (Fs : Follicles)
    (para : list Z) (parafoll Par : list R) (j k : nat) (r : FollicleRecord) (X : R) :
  normal_mode para -> (j < slots y para)%nat ->
  follicle_at Fs j = Some (k, r) -> silent r = true ->
  X_in_call t y Tovu Fs para parafoll Par j = Some X -> X = 0.
Proof.
  intros Hm Hj Er Hs EX.
  destruct (X_in_call_Some _ _ _ _ _ _ _ _ _ EX)
    as (y1 & SF & E2 & P4 & fsh & fFSH & size & Eh & _ & _ & Ey & ->).
  destruct (hormone_snapshot_Some _ _ _ _ _ _ _ _ _ Eh) as (_ & Hz & _).
  assert (0 < NumFollicles_of y para)%Z as Hpos by (unfold slots in Hj; lia).
  destruct (zero_silent_normal _ _ _ _ _ Hm Hpos Hz) as (_ & Hy & _).
  rewrite (Hy j Hj) in Ey.
  destruct (nth_error y j) as [v|]; [|discriminate].
  cbn [option_map] in Ey. unfold silenced in Ey. rewrite Er, Hs in Ey.
  inversion Ey; subst size. apply raw_growth_zero_size.
Qed.

Lemma decline_fires_low (t X : R) (parafoll : list R) (r : FollicleRecord) :
  X <= param parafoll 11 -> decline_fires t X parafoll r = true.
Proof.
  intros H. unfold decline_fires. apply Rleb_true in H. now rewrite H.
Qed.

Lemma decline_fires_marked (t X : R) (parafoll : list R) (r : FollicleRecord) :
  Destiny r = (-2)%Z -> decline_fires t X parafoll r = true.
Proof.
  intros H. unfold decline_fires. rewrite H. cbn [Z.eqb Pos.eqb].
  now rewrite orb_true_r.
Qed.

Lemma decline_fires_atretic (t X : R) (parafoll : list R) (r : FollicleRecord) :
  Destiny r = (-3)%Z ->
  decline_fires t X parafoll r
  = Rleb X (param parafoll 11)
    || Rgtb (oldest (Time r) - latest (Time r)) (param parafoll 14).
Proof.
  intros H. unfold decline_fires. rewrite H. cbn [Z.eqb Pos.eqb].
  now rewrite !andb_false_r, !orb_false_r.
Qed.

Lemma decline_fires_growing (t X : R) (parafoll : list R) (r : FollicleRecord) :
  Destiny r = (-1)%Z -> param parafoll 11 < X -> param parafoll 12 < X ->
  decline_fires t X parafoll r
  = Rgtb (oldest (Time r) - latest (Time r)) (param parafoll 14).
Proof.
  intros H H11 H12. unfold decline_fires. rewrite H. cbn [Z.eqb Pos.eqb].
  apply Rleb_false in H11, H12. rewrite H11, H12. reflexivity.
Qed.

Lemma gaussian_bump_center (h w c : R) : gaussian_bump h w c c = h.
Proof.
  unfold gaussian_bump. replace (- w * (c - c) ^ 2) with 0 by ring.
  rewrite exp_0; ring.
Qed.


Lemma X_in_call_total (t : R) (y : list R) (Tovu : R) (Fs : Follicles)
    (para : list Z) (parafoll Par : list R) (out : Outcome) :
  well_formed y Fs para parafoll Par ->
  FollicleFunction t y Tovu Fs para parafoll Par = Some out ->
  forall j, (j < slots y para)%nat ->
    exists X, X_in_call t y Tovu Fs para parafoll Par j = Some X.
Proof.
  intros (Hpara & Hpf & HPar & Hy & Hp1 & Hs) H j Hj.
  destruct (FollicleFunction_Some _ _ _ _ _ _ _ _ H)
    as (y1 & SF & E2 & P4 & fsh & SumV & Eh & Ef & _ & _).
  destruct (hormone_snapshot_Some _ _ _ _ _ _ _ _ _ Eh) as (_ & Hz & _).
  pose proof (zero_silent_length _ _ _ _ _ Hz) as Ly1.
  pose proof (slots_le_length y para Hp1) as Hle.
  rewrite (X_in_call_eq _ _ _ _ _ _ _ _ _ _ _ _ _ _ Eh Ef).
  destruct (Hs j Hj) as (HA & _).
  destruct (nth_error y1 j) as [yi|] eqn:Ey; [|apply nth_error_None in Ey; lia].
  destruct (nth_error (ActiveFSHS Fs) j) as [fF|] eqn:EA;
    [|apply nth_error_None in EA; lia].
  rewrite (growth_X_total parafoll Fs y1 P4 fsh SumV j fF yi) by (auto; lia).
  eauto.
Qed.

(** ** The claims of the specification *)


(** A call without follicle slots computes its hormone levels from the
    vector [[0]] of line 12 and leaves the state vector alone. *)
Lemma no_follicle_snapshot (t : R) (y : list R) (Tovu : R) (Fs : Follicles)
    (para : list Z) (Par : list R) :
  (2 <= length para)%nat -> (76 <= length Par)%nat ->
  (NumFollicles_of y para <= 0)%Z ->
  exists SF E2 P4,
    hormone_snapshot t y Tovu Fs para Par
      = Some (NumFollicles_of y para, y, (SF, E2, P4)) /\
    hormone_levels t Tovu Par [0] = Some (SF, E2, P4).
Proof.
  intros Hpara HPar HN.
  unfold hormone_snapshot. have_para para 1%nat. fold (NumFollicles_of y para).
  rewrite zero_silent_empty by auto. cbn [bind].
  assert (x_of (NumFollicles_of y para) y = [0]) as ->.
  { unfold x_of. destruct (Z.ltb_spec 0 (NumFollicles_of y para)); [lia | reflexivity]. }
  destruct (hormone_levels_total t Tovu Par [0] HPar) as (SF & E2 & P4 & Eh).
  rewrite Eh; cbn [bind]. eauto.
Qed.

Lemma SF_of_zero (t Tovu : R) (Par : list R) (SF E2 P4 : R) :
  SF_defined_at_zero Par ->
  hormone_levels t Tovu Par [0] = Some (SF, E2, P4) ->
  SF = 0 /\ E2 = E2_spec Par t Tovu 0 /\ P4 = P4_spec Par t Tovu.
Proof.
  intros Hdef Eh. apply hormone_levels_Some in Eh. destruct Eh as (HSF & HE2 & HP4).
  assert (SF = 0) as ->.
  { rewrite HSF. unfold np_sum; cbn [map fold_right].
    rewrite SF_term_zero by exact Hdef. ring. }
  auto.
Qed.

(** C9, as amended: when there is no active follicle and the parameter set
    defines the summand of line 29 at size 0 (exponent [Par[56]] and
    constant [Par[57]] not negative, divisor
    [0 ** Par[56] + Par[57] ** Par[56]] not zero), the hormone computation
    goes through with SF = 0 and returns the baseline constants plus the
    Gaussian bump of the time, without any follicle contribution: the
    levels do not depend on the state vector or on the registry. *)
Theorem C9_no_follicle_levels (t : R) (y : list R) (Tovu : R) (Fs : Follicles)
    (para : list Z) (Par : list R) :
  (2 <= length para)%nat -> (76 <= length Par)%nat ->
  (NumFollicles_of y para <= 0)%Z -> SF_defined_at_zero Par ->
  hormone_snapshot t y Tovu Fs para Par
  = Some (NumFollicles_of y para, y,
          (0,
           E2_baseline Par + gaussian_bump (param Par 60) (param Par 61) (Tovu + 7) t,
           P4_baseline Par + gaussian_bump (param Par 62) (param Par 61) (Tovu + 7) t)).
Proof.
  intros Hpara HPar HN Hdef.
  destruct (no_follicle_snapshot t y Tovu Fs para Par Hpara HPar HN)
    as (SF & E2 & P4 & Eh & El).
  destruct (SF_of_zero _ _ _ _ _ _ Hdef El) as (-> & -> & ->).
  rewrite Eh. unfold E2_spec, P4_spec, E2_baseline, P4_baseline.
  replace (param Par 74 + (param Par 58 + param Par 59 * 0))
    with (param Par 74 + param Par 58) by ring.
  reflexivity.
Qed.

(** C10: the vector returned by [FollicleFunction] is as long as the state
    vector [y], and every slot at or beyond the number of active follicles
    holds the component that [ODE_Model_NormalCycle] computed for it; only
    the leading follicle slots are overwritten. *)
Theorem C10_returned_vector_frame (t : R) (y : list R) (Tovu : R) (Fs : Follicles)
    (para : list Z) (parafoll Par : list R) :
  ODE_keeps_length -> well_formed y Fs para parafoll Par ->
  exists out SF E2 P4,
    FollicleFunction t y Tovu Fs para parafoll Par = Some out /\
    hormone_snapshot t y Tovu Fs para Par
      = Some (NumFollicles_of y para, y_after out, (SF, E2, P4)) /\
    length (returned out) = length y /\
    forall j, (slots y para <= j)%nat ->
      nth_error (returned out) j
      = nth_error (ODE_Model_NormalCycle t (y_after out) Par E2 P4) j.
Proof.
  intros HO Hwf.
  destruct (FollicleFunction_total t y Tovu Fs para parafoll Par HO Hwf) as (out & H).
  destruct (FollicleFunction_frame _ _ _ _ _ _ _ _ H)
    as (Ly & _ & _ & _ & _ & SF & E2 & P4 & Eh & Lr & Hr).
  exists out, SF, E2, P4. repeat split; auto.
  rewrite Lr, HO. exact Ly.
Qed.

(** C8: in test mode the derivatives do not depend on the destiny tags: for
    two registries that differ at most in the destinies of their records,
    the calls return the same vector, and every follicle slot holds the raw
    growth expression X, no lifecycle override applied. *)
Theorem C8_test_mode_ignores_destiny (t : R) (y : list R) (Tovu : R)
    (Fs1 Fs2 : Follicles) (para : list Z) (parafoll Par : list R) :
  ODE_keeps_length -> well_formed y Fs1 para parafoll Par ->
  test_mode para -> same_but_destiny Fs1 Fs2 ->
  exists out1 out2,
    FollicleFunction t y Tovu Fs1 para parafoll Par = Some out1 /\
    FollicleFunction t y Tovu Fs2 para parafoll Par = Some out2 /\
    returned out1 = returned out2 /\
    forall j, (j < slots y para)%nat ->
      exists X,
        X_in_call t y Tovu Fs1 para parafoll Par j = Some X /\
        X_in_call t y Tovu Fs2 para parafoll Par j = Some X /\
        nth_error (returned out1) j = Some X.
Proof.
  intros HO Hwf Hm (_ & HA & _).
  destruct (FollicleFunction_total t y Tovu Fs1 para parafoll Par HO Hwf) as (out1 & H1).
  pose proof (FollicleFunction_test_registry t y Tovu Fs1 Fs2 para parafoll Par Hm HA)
    as Heq.
  rewrite H1 in Heq. cbn [option_map] in Heq.
  destruct (FollicleFunction t y Tovu Fs2 para parafoll Par) as [out2|] eqn:H2;
    [|discriminate].
  cbn [option_map] in Heq. inversion Heq as [Hr].
  exists out1, out2. repeat (split; [auto|]).
  intros j Hj.
  destruct (FollicleFunction_slot_test _ _ _ _ _ _ _ _ Hm H1) as (_ & _ & S1).
  destruct (FollicleFunction_slot_test _ _ _ _ _ _ _ _ Hm H2) as (_ & _ & S2).
  destruct (S1 j Hj) as (X1 & EX1 & Er1). destruct (S2 j Hj) as (X2 & EX2 & Er2).
  exists X1. repeat split; auto. rewrite EX2. congruence.
Qed.

(** C1, as amended: a call changes the registry only by marking follicles
    for decline.  The lists [Active] and [ActiveFSHS] and the number of
    records are kept, and every entry of [Follicles.Follicle] after the call
    is the entry before the call or, for an entry whose destiny was not -2,
    that entry with destiny -2 and [TimeDecrease = t]. *)
Theorem C1_registry_marked_only (t : R) (y : list R) (Tovu : R) (Fs : Follicles)
    (para : list Z) (parafoll Par : list R) :
  ODE_keeps_length -> well_formed y Fs para parafoll Par ->
  exists out,
    FollicleFunction t y Tovu Fs para parafoll Par = Some out /\
    Active (Follicles_after out) = Active Fs /\
    ActiveFSHS (Follicles_after out) = ActiveFSHS Fs /\
    length (Follicle (Follicles_after out)) = length (Follicle Fs) /\
    forall k, marked_or_same t (nth_error (Follicle Fs) k)
                               (nth_error (Follicle (Follicles_after out)) k).
Proof.
  intros HO Hwf.
  destruct (FollicleFunction_total t y Tovu Fs para parafoll Par HO Hwf) as (out & H).
  destruct (FollicleFunction_frame _ _ _ _ _ _ _ _ H) as (_ & A & AF & LF & Hm & _).
  exists out. auto.
Qed.

Lemma x_of_slots (y y1 : list R) (para : list Z) (j : nat) :
  (j < slots y para)%nat -> x_of (NumFollicles_of y para) y1 = firstn (slots y para) y1.
Proof.
  unfold slots, x_of. intros Hj.
  destruct (Z.ltb_spec 0 (NumFollicles_of y para)); [reflexivity | lia].
Qed.

Lemma sigmoid_down_decreasing (K : R) (n : nat) (a b : R) :
  0 < K -> 0 <= a <= b -> sigmoid_down K n b <= sigmoid_down K n a.
Proof.
  intros HK [Ha Hab]. unfold sigmoid_down.
  assert (0 < K ^ n) as HKn by (apply pow_lt; exact HK).
  assert (0 <= a ^ n) as Han by (apply pow_le; exact Ha).
  assert (a ^ n <= b ^ n) as Hn by (apply pow_incr; split; assumption).
  unfold Rdiv. apply Rmult_le_compat_l; [lra|].
  apply Rinv_le_contravar; lra.
Qed.

Lemma sigmoid_up_complement (K : R) (n : nat) (x : R) :
  0 < K -> 0 <= x -> sigmoid_up K n x = 1 - sigmoid_down K n x.
Proof.
  intros HK Hx. unfold sigmoid_up, sigmoid_down.
  assert (0 < K ^ n) as HKn by (apply pow_lt; exact HK).
  assert (0 <= x ^ n) as Hxn by (apply pow_le; exact Hx).
  field. lra.
Qed.

Lemma saturating_inhibition_Hill (K : R) (n : nat) (x : R) :
  0 < K -> 0 <= x -> saturating_inhibition K n x = sigmoid_down K n x.
Proof.
  intros HK Hx. unfold saturating_inhibition, sigmoid_down.
  assert (0 < K ^ n) as HKn by (apply pow_lt; exact HK).
  assert (0 <= x ^ n) as Hxn by (apply pow_le; exact Hx).
  unfold Rdiv at 2. rewrite Rpow_mult_distr, pow_inv.
  field. split; lra.
Qed.

Lemma saturating_shapes_hold : saturating_shapes.
Proof.
  split; [|split].
  - apply sigmoid_down_decreasing.
  - apply sigmoid_up_complement.
  - apply saturating_inhibition_Hill.
Qed.

(** C2, as amended: for every active follicle the raw growth expression is
    X = ffsh (xi - size) size (gamma - kappa (SumV - ownShareOfV)), with
    SumV the sum of [size ^ p] over the follicle slots and
    ownShareOfV = [parafoll[3] * size ^ p], the follicle's own term weighted
    by [parafoll[3]]; gamma, kappa and ffsh are the saturating functions of
    P4 and of the FSH residual named in [gamma_spec], [kappa_spec] and
    [ffsh_spec], whose shapes are those of [saturating_shapes].  In test mode
    X is the derivative returned for the slot. *)
Theorem C2_growth_expression (t : R) (y : list R) (Tovu : R) (Fs : Follicles)
    (para : list Z) (parafoll Par : list R) :
  ODE_keeps_length -> well_formed y Fs para parafoll Par ->
  saturating_shapes /\
  exists out SF E2 P4 fsh,
    FollicleFunction t y Tovu Fs para parafoll Par = Some out /\
    hormone_snapshot t y Tovu Fs para Par
      = Some (NumFollicles_of y para, y_after out, (SF, E2, P4)) /\
    py_index (y_after out) (Z.of_nat (length (y_after out)) - 15) = Some fsh /\
    forall j, (j < slots y para)%nat ->
      exists fFSH size,
        nth_error (ActiveFSHS Fs) j = Some fFSH /\
        nth_error (y_after out) j = Some size /\
        X_in_call t y Tovu Fs para parafoll Par j
          = Some (X_weighted parafoll P4 fsh fFSH size
                    (firstn (slots y para) (y_after out))) /\
        (test_mode para ->
         nth_error (returned out) j
           = Some (X_weighted parafoll P4 fsh fFSH size
                     (firstn (slots y para) (y_after out)))).
Proof.
  intros HO Hwf. split; [exact saturating_shapes_hold|].
  destruct (FollicleFunction_total t y Tovu Fs para parafoll Par HO Hwf) as (out & H).
  destruct (FollicleFunction_Some _ _ _ _ _ _ _ _ H)
    as (y1 & SF & E2 & P4 & fsh & SumV & Eh & Ef & _ & Ey1).
  exists out, SF, E2, P4, fsh. rewrite Ey1.
  split; [exact H|]. split; [exact Eh|].
  assert (py_index y1 (Z.of_nat (length y1) - 15) = Some fsh) as Efsh.
  { unfold feedback_terms in Ef. do 2 inv_bind Ef. inversion Ef; subst. exact E. }
  split; [exact Efsh|]. intros j Hj.
  destruct (X_in_call_total _ _ _ _ _ _ _ _ Hwf H j Hj) as (X & EX).
  destruct (X_in_call_Some _ _ _ _ _ _ _ _ _ EX)
    as (y1' & SF' & E2' & P4' & fsh' & fFSH & size & Eh' & Efsh' & EA & Ey & HX).
  rewrite Eh in Eh'. inversion Eh'; subst y1' SF' E2' P4'.
  rewrite Efsh in Efsh'. inversion Efsh'; subst fsh'.
  exists fFSH, size. split; [exact EA|]. split; [exact Ey|].
  rewrite raw_growth_weighted in HX. rewrite (x_of_slots y y1 para j Hj) in HX.
  fold (X_weighted parafoll P4 fsh fFSH size (firstn (slots y para) y1)) in HX.
  split; [congruence|]. intros Hm.
  destruct (FollicleFunction_slot_test _ _ _ _ _ _ _ _ Hm H) as (_ & _ & S1).
  destruct (S1 j Hj) as (X1 & EX1 & Er1). congruence.
Qed.

Lemma decline_fires_atretic_false (t X : R) (parafoll : list R) (r : FollicleRecord) :
  Destiny r = (-3)%Z -> param parafoll 11 < X ->
  oldest (Time r) - latest (Time r) <= param parafoll 14 ->
  decline_fires t X parafoll r = false.
Proof.
  intros Hd H11 H14. rewrite decline_fires_atretic by auto.
  apply Rleb_false in H11. apply Rgtb_false in H14. now rewrite H11, H14.
Qed.

Lemma decline_fires_atretic_true (t X : R) (parafoll : list R) (r : FollicleRecord) :
  Destiny r = (-3)%Z ->
  X <= param parafoll 11 \/ oldest (Time r) - latest (Time r) > param parafoll 14 ->
  decline_fires t X parafoll r = true.
Proof.
  intros Hd [H|H]; [now apply decline_fires_low|].
  rewrite decline_fires_atretic by auto. apply Rgtb_true in H. rewrite H.
  apply orb_true_r.
Qed.

(** C3, as amended: through a normal-mode evaluation a follicle whose
    destiny is Atretic (-3) keeps its record when the decline condition does
    not fire for it, that is when X > parafoll[11] and the oldest recorded
    time exceeds the latest by at most parafoll[14]; when X <= parafoll[11]
    or the recorded times differ by more, the evaluation re-marks it:
    destiny -2 and [TimeDecrease = t]. *)
Theorem C3_atretic_kept_unless_decline (t : R) (y : list R) (Tovu : R)
    (Fs : Follicles) (para : list Z) (parafoll Par : list R) :
  ODE_keeps_length -> well_formed y Fs para parafoll Par ->
  normal_mode para -> distinct_follicles Fs (slots y para) ->
  exists out,
    FollicleFunction t y Tovu Fs para parafoll Par = Some out /\
    forall j k r,
      (j < slots y para)%nat -> follicle_at Fs j = Some (k, r) ->
      Destiny r = Atretic ->
      exists X r',
        X_in_call t y Tovu Fs para parafoll Par j = Some X /\
        nth_error (Follicle (Follicles_after out)) k = Some r' /\
        (param parafoll 11 < X ->
         oldest (Time r) - latest (Time r) <= param parafoll 14 -> r' = r) /\
        (X <= param parafoll 11 \/
         oldest (Time r) - latest (Time r) > param parafoll 14 ->
         r' = mark_decline t r).
Proof.
  intros HO Hwf Hm Hd.
  destruct (FollicleFunction_total t y Tovu Fs para parafoll Par HO Hwf) as (out & H).
  exists out. split; [exact H|]. intros j k r Hj Er Hdes.
  destruct (FollicleFunction_slot_normal _ _ _ _ _ _ _ _ Hm Hd H j Hj)
    as (k' & r0 & X & yi & Er' & EX & _ & _ & Erec).
  rewrite Er in Er'. inversion Er'; subst k' r0.
  exists X, (slot_record t (decline_fires t X parafoll r) r).
  split; [exact EX|]. split; [exact Erec|]. split.
  - intros H11 H14. now rewrite decline_fires_atretic_false.
  - intros Hor. rewrite decline_fires_atretic_true by auto.
    unfold slot_record. unfold Atretic in Hdes. now rewrite Hdes.
Qed.

(** An Atretic follicle for which the decline condition does not fire: its
    slot of [y] is zeroed by line 20, its X is 0, and line 82 computes the
    derivative from the zeroed slot. *)
Lemma atretic_slot_derivative (t : R) (y : list R) (Tovu : R)
    (Fs : Follicles) (para : list Z) (parafoll Par : list R) (out : Outcome)
    (j k : nat) (r : FollicleRecord) :
  normal_mode para -> distinct_follicles Fs (slots y para) ->
  FollicleFunction t y Tovu Fs para parafoll Par = Some out ->
  (j < slots y para)%nat -> follicle_at Fs j = Some (k, r) ->
  Destiny r = Atretic ->
  param parafoll 11 < 0 -> oldest (Time r) - latest (Time r) <= param parafoll 14 ->
  X_in_call t y Tovu Fs para parafoll Par j = Some 0 /\
  decline_fires t 0 parafoll r = false /\
  nth_error (y_after out) j = Some 0 /\
  nth_error (returned out) j = Some (-1000 * 0) /\
  nth_error (Follicle (Follicles_after out)) k = Some r.
Proof.
  intros Hm Hd H Hj Er Hdes H11 H14. unfold Atretic in Hdes.
  assert (silent r = true) as Hs by (unfold silent; now rewrite Hdes).
  destruct (FollicleFunction_slot_normal _ _ _ _ _ _ _ _ Hm Hd H j Hj)
    as (k' & r0 & X & yi & Er' & EX & Ey & Ef & Erec).
  rewrite Er in Er'. inversion Er'; subst k' r0.
  pose proof (silent_follicle_X _ _ _ _ _ _ _ _ _ _ _ Hm Hj Er Hs EX) as HX. subst X.
  destruct (FollicleFunction_y_after _ _ _ _ _ _ _ _ Hm H) as (Hy & _).
  assert (yi = 0) as ->.
  { rewrite (Hy j Hj) in Ey.
    destruct (nth_error y j) as [v|]; [|discriminate].
    cbn [option_map] in Ey. unfold silenced in Ey. rewrite Er, Hs in Ey.
    now inversion Ey. }
  pose proof (decline_fires_atretic_false t 0 parafoll r Hdes H11 H14) as Hf.
  split; [exact EX|]. split; [exact Hf|]. split; [exact Ey|].
  rewrite Ef, Erec, Hf. unfold slot_derivative, slot_record. rewrite Hdes.
  split; reflexivity.
Qed.

Lemma span_guard_value (parafoll : list R) (r : FollicleRecord) :
  (15 <= length parafoll)%nat -> Time r <> [] ->
  span_guard parafoll r
  = Some (Rgtb (oldest (Time r) - latest (Time r)) (param parafoll 14)).
Proof.
  intros Hl Ht.
  assert (exists t0, py_index (Time r) 0 = Some t0) as (t0 & E0).
  { apply (py_index_in_range (Time r) 0). destruct (Time r); [congruence | cbn; lia]. }
  destruct (py_index_last (Time r) Ht) as (tl & El).
  unfold span_guard. rewrite E0, El; cbn [bind]. have_param parafoll 14%nat.
  apply py_index_oldest in E0. apply py_index_latest in El. now subst.
Qed.

(** C7, as amended: the last disjunct of the decline condition compares
    recorded times, not sizes: it fires exactly when the oldest recorded
    time exceeds the latest recorded time by more than parafoll[14].  For a
    growing follicle whose X is above parafoll[11] and parafoll[12] the
    transition to MarkedForDecline fires exactly when this guard does. *)
Theorem C7_span_guard_compares_times (t X : R) (parafoll : list R) (k : nat)
    (r : FollicleRecord) :
  (15 <= length parafoll)%nat -> Time r <> [] ->
  exists g,
    span_guard parafoll r = Some g /\
    (g = true <-> oldest (Time r) - latest (Time r) > param parafoll 14) /\
    (Destiny r = Growing -> param parafoll 11 < X -> param parafoll 12 < X ->
     decline_condition t X parafoll (Some (k, r)) = Some g).
Proof.
  intros Hl Ht.
  exists (Rgtb (oldest (Time r) - latest (Time r)) (param parafoll 14)).
  split; [now apply span_guard_value|]. split; [apply Rgtb_true|].
  intros Hd H11 H12.
  destruct (decline_condition_total t X parafoll k r Hl Ht) as (c & Ec).
  rewrite Ec. f_equal. apply decline_condition_fires in Ec. subst c.
  now apply decline_fires_growing.
Qed.

(** A follicle that is already marked for decline when a normal-mode call
    starts: its slot of [y] is zeroed by line 20, and line 80 then computes
    the derivative from the zeroed slot. *)
Lemma marked_slot_derivative (t : R) (y : list R) (Tovu : R)
    (Fs : Follicles) (para : list Z) (parafoll Par : list R) (out : Outcome)
    (j k : nat) (r : FollicleRecord) :
  normal_mode para -> distinct_follicles Fs (slots y para) ->
  FollicleFunction t y Tovu Fs para parafoll Par = Some out ->
  (j < slots y para)%nat -> follicle_at Fs j = Some (k, r) ->
  Destiny r = MarkedForDecline ->
  nth_error (y_after out) j = Some 0 /\
  nth_error (returned out) j = Some (-0.05 * 0 * (t - TimeDecrease r)).
Proof.
  intros Hm Hd H Hj Er Hdes. unfold MarkedForDecline in Hdes.
  destruct (FollicleFunction_slot_normal _ _ _ _ _ _ _ _ Hm Hd H j Hj)
    as (k' & r0 & X & yi & Er' & EX & Ey & Ef & _).
  rewrite Er in Er'. inversion Er'; subst k' r0.
  destruct (FollicleFunction_y_after _ _ _ _ _ _ _ _ Hm H) as (Hy & _).
  assert (yi = 0) as ->.
  { rewrite (Hy j Hj) in Ey.
    destruct (nth_error y j) as [v|]; [|discriminate].
    cbn [option_map] in Ey. unfold silenced, silent in Ey. rewrite Er, Hdes in Ey.
    cbn in Ey. now inversion Ey. }
  split; [exact Ey|].
  rewrite Ef. rewrite decline_fires_marked by auto.
  unfold slot_derivative, slot_record. rewrite Hdes. reflexivity.
Qed.

(** ** More of the function: test mode *)

(** X1: a test-mode call has no side effect: it leaves the state vector and
    the registry as it found them. *)
Theorem X1_test_mode_no_side_effect (t : R) (y : list R) (Tovu : R) (Fs : Follicles)
    (para : list Z) (parafoll Par : list R) :
  ODE_keeps_length -> well_formed y Fs para parafoll Par -> test_mode para ->
  exists out,
    FollicleFunction t y Tovu Fs para parafoll Par = Some out /\
    y_after out = y /\ Follicles_after out = Fs.
Proof.
  intros HO Hwf Hm.
  destruct (FollicleFunction_total t y Tovu Fs para parafoll Par HO Hwf) as (out & H).
  destruct (FollicleFunction_slot_test _ _ _ _ _ _ _ _ Hm H) as (Hy & HF & _).
  exists out. auto.
Qed.

(** X2: in test mode the call reads the registry through [ActiveFSHS] only:
    whatever [Active] and the records are, even missing, two registries with
    the same [ActiveFSHS] make the call raise or return together, and return
    the same vector. *)
Theorem X2_test_mode_reads_ActiveFSHS_only (t : R) (y : list R) (Tovu : R)
    (Fs1 Fs2 : Follicles) (para : list Z) (parafoll Par : list R) :
  test_mode para -> ActiveFSHS Fs1 = ActiveFSHS Fs2 ->
  (FollicleFunction t y Tovu Fs1 para parafoll Par = None <->
   FollicleFunction t y Tovu Fs2 para parafoll Par = None) /\
  forall out1 out2,
    FollicleFunction t y Tovu Fs1 para parafoll Par = Some out1 ->
    FollicleFunction t y Tovu Fs2 para parafoll Par = Some out2 ->
    returned out1 = returned out2 /\ y_after out1 = y_after out2.
Proof.
  intros Hm HA.
  pose proof (FollicleFunction_test_registry t y Tovu Fs1 Fs2 para parafoll Par Hm HA)
    as Heq.
  split.
  - destruct (FollicleFunction t y Tovu Fs1 para parafoll Par);
      destruct (FollicleFunction t y Tovu Fs2 para parafoll Par);
      cbn in Heq; split; intros; congruence.
  - intros out1 out2 H1 H2. rewrite H1, H2 in Heq. cbn in Heq. split; [congruence|].
    destruct (FollicleFunction_slot_test _ _ _ _ _ _ _ _ Hm H1) as (Hy1 & _).
    destruct (FollicleFunction_slot_test _ _ _ _ _ _ _ _ Hm H2) as (Hy2 & _).
    congruence.
Qed.

(** ** More of the function: bounds and lookups *)

(** [y[r - 15]] for a vector of [r] entries: the 15th slot from the end, or,
    for a vector of 8 to 14 entries, the slot the negative index [r - 15]
    wraps to. *)
Lemma py_index_fifteenth (l : list R) :
  (8 <= length l)%nat ->
  py_index l (Z.of_nat (length l) - 15)
  = nth_error l (if (length l <? 15)%nat then 2 * length l - 15 else length l - 15).
Proof.
  intros H. unfold py_index, py_pos.
  destruct (Nat.ltb_spec (length l) 15) as [Hs|Hs].
  - destruct (Z.leb_spec 0 (Z.of_nat (length l) - 15)); [lia|].
    destruct (Z.leb_spec 0 (Z.of_nat (length l) + (Z.of_nat (length l) - 15))); [|lia].
    cbn [bind]. f_equal. lia.
  - destruct (Z.leb_spec 0 (Z.of_nat (length l) - 15)); [|lia].
    destruct (Z.ltb_spec (Z.of_nat (length l) - 15) (Z.of_nat (length l))); [|lia].
    cbn [bind]. f_equal. lia.
Qed.

Lemma py_index_fifteenth_short (l : list R) (v : R) :
  py_index l (Z.of_nat (length l) - 15) = Some v -> (8 <= length l)%nat.
Proof.
  unfold py_index; intros H. inv_bind H. unfold py_pos in E.
  destruct (Z.leb_spec 0 (Z.of_nat (length l) - 15)); [lia|].
  destruct (Z.leb_spec 0 (Z.of_nat (length l) + (Z.of_nat (length l) - 15)));
    [lia | discriminate].
Qed.

(** X3: a call without follicle slots ([NumFollicles <= 0]), on a parameter
    set that defines the summand of line 29 at size 0, returns the vector
    of [ODE_Model_NormalCycle] as it is, computed from the levels without
    follicle contribution, and touches neither [y] nor the registry; it
    needs nothing of the registry and of [parafoll] but entry 0. *)
Theorem X3_no_follicle_call (t : R) (y : list R) (Tovu : R) (Fs : Follicles)
    (para : list Z) (parafoll Par : list R) :
  (2 <= length para)%nat -> (76 <= length Par)%nat -> (1 <= length parafoll)%nat ->
  (8 <= length y)%nat -> (NumFollicles_of y para <= 0)%Z ->
  SF_defined_at_zero Par ->
  FollicleFunction t y Tovu Fs para parafoll Par
  = Some (mkOutcome
            (ODE_Model_NormalCycle t y Par
               (E2_baseline Par
                + gaussian_bump (param Par 60) (param Par 61) (Tovu + 7) t)
               (P4_baseline Par
                + gaussian_bump (param Par 62) (param Par 61) (Tovu + 7) t))
            y Fs).
Proof.
  intros Hpara HPar Hpf Hy HN Hdef.
  destruct (no_follicle_snapshot t y Tovu Fs para Par Hpara HPar HN)
    as (SF & E2 & P4 & Eh & El).
  destruct (SF_of_zero _ _ _ _ _ _ Hdef El) as (-> & -> & ->).
  unfold FollicleFunction. rewrite Eh; cbn [bind].
  unfold feedback_terms. rewrite (py_index_fifteenth y Hy).
  destruct (nth_error y _) as [fsh|] eqn:Ef;
    [|apply nth_error_None in Ef; destruct (length y <? 15)%nat eqn:B;
      [apply Nat.ltb_lt in B | apply Nat.ltb_ge in B]; lia].
  cbn [bind]. have_param parafoll 0%nat.
  unfold for_range. replace (Z.to_nat (NumFollicles_of y para)) with 0%nat by lia.
  cbn [seq for_each bind].
  unfold E2_spec, P4_spec, E2_baseline, P4_baseline.
  replace (param Par 74 + (param Par 58 + param Par 59 * 0))
    with (param Par 74 + param Par 58) by ring.
  reflexivity.
Qed.

(** X4: a state vector of fewer than 8 entries makes every call raise: the
    index [r - 15] of line 41 is out of range even after wrapping. *)
Theorem X4_short_state_vector_raises (t : R) (y : list R) (Tovu : R) (Fs : Follicles)
    (para : list Z) (parafoll Par : list R) :
  (length y < 8)%nat ->
  FollicleFunction t y Tovu Fs para parafoll Par = None.
Proof.
  intros Hy.
  destruct (FollicleFunction t y Tovu Fs para parafoll Par) as [out|] eqn:H;
    [|reflexivity].
  destruct (FollicleFunction_Some _ _ _ _ _ _ _ _ H)
    as (y1 & SF & E2 & P4 & fsh & SumV & Eh & Ef & _ & _).
  destruct (hormone_snapshot_Some _ _ _ _ _ _ _ _ _ Eh) as (_ & Hz & _).
  pose proof (zero_silent_length _ _ _ _ _ Hz) as Ly1.
  unfold feedback_terms in Ef. inv_bind Ef.
  apply py_index_fifteenth_short in E. lia.
Qed.

(** X5: with 8 to 14 entries the lookup [y[r - 15]] of line 41 does not
    raise: the negative index wraps, and [fshrezcomp] is read from slot
    [2 r - 15]; from 15 entries on it is the 15th slot from the end. *)
Theorem X5_fshrezcomp_slot (parafoll : list R) (NumFollicles : Z) (y1 : list R) :
  (8 <= length y1)%nat -> (1 <= length parafoll)%nat ->
  exists fshrezcomp SumV,
    feedback_terms parafoll NumFollicles y1 = Some (fshrezcomp, SumV) /\
    nth_error y1 (if (length y1 <? 15)%nat then 2 * length y1 - 15 else length y1 - 15)
    = Some fshrezcomp.
Proof.
  intros Hy Hpf. unfold feedback_terms. rewrite (py_index_fifteenth y1 Hy).
  destruct (nth_error y1 _) as [fsh|] eqn:Ef;
    [|apply nth_error_None in Ef; destruct (length y1 <? 15)%nat eqn:B;
      [apply Nat.ltb_lt in B | apply Nat.ltb_ge in B]; lia].
  cbn [bind]. have_param parafoll 0%nat. eauto.
Qed.

(** X6: a negative number of fixed slots [para[1]], which makes
    [NumFollicles] exceed the length of [y], makes every call raise. *)
Theorem X6_negative_fixed_count_raises (t : R) (y : list R) (Tovu : R)
    (Fs : Follicles) (para : list Z) (parafoll Par : list R) :
  (nth 1 para 0 < 0)%Z ->
  FollicleFunction t y Tovu Fs para parafoll Par = None.
Proof.
  intros Hp.
  destruct (FollicleFunction t y Tovu Fs para parafoll Par) as [out|] eqn:H;
    [|reflexivity].
  destruct (FollicleFunction_Some _ _ _ _ _ _ _ _ H)
    as (y1 & SF & E2 & P4 & fsh & SumV & Eh & Ef & El & _).
  destruct (hormone_snapshot_Some _ _ _ _ _ _ _ _ _ Eh) as (_ & Hz & _).
  pose proof (zero_silent_length _ _ _ _ _ Hz) as Ly1.
  destruct (for_each_ran _ _ _ _ El (length y)) as ([f1 F1] & s2 & Hb).
  - apply in_seq. unfold slots, NumFollicles_of. lia.
  - unfold growth_step in Hb. inv_bind Hb.
    destruct (growth_X_Some _ _ _ _ _ _ _ _ E) as (fFSH & fsize & _ & Ey & _).
    assert (nth_error y1 (length y) <> None) as Hn by congruence.
    apply nth_error_Some in Hn. lia.
Qed.

(** A loop that ran to its end found an entry of [ActiveFSHS] for every
    index. *)
Lemma growth_loop_ActiveFSHS (t : R) (para : list Z) (parafoll y : list R)
    (p4all fshrezcomp SumV : R) (l : list nat) :
  forall f Fs f' Fs',
  for_each (growth_step t para parafoll y p4all fshrezcomp SumV) l (f, Fs)
    = Some (f', Fs') ->
  forall i, In i l -> nth_error (ActiveFSHS Fs) i <> None.
Proof.
  induction l as [|i l IH]; intros f Fs f' Fs' H i0 Hi; [destruct Hi|].
  cbn in H. inv_bind H. destruct a as [f1 F1].
  destruct Hi as [<-|Hi].
  - unfold growth_step in E. inv_bind E.
    destruct (growth_X_Some _ _ _ _ _ _ _ _ E0) as (fF & fs & EA & _).
    congruence.
  - destruct (growth_step_frame _ _ _ _ _ _ _ _ _ _ _ _ E) as (_ & HF).
    assert (ActiveFSHS F1 = ActiveFSHS Fs) as <-.
    { destruct HF as [->|(k & r & _ & _ & ->)]; reflexivity. }
    eapply IH; eauto.
Qed.

(** X7: a follicle slot without an entry in [ActiveFSHS], or, in normal
    mode, without an entry in [Active] that leads to a record, makes the call
    raise. *)
Theorem X7_missing_registry_entry_raises (t : R) (y : list R) (Tovu : R)
    (Fs : Follicles) (para : list Z) (parafoll Par : list R) (j : nat) :
  (j < slots y para)%nat ->
  nth_error (ActiveFSHS Fs) j = None \/
  (normal_mode para /\ follicle_at Fs j = None) ->
  FollicleFunction t y Tovu Fs para parafoll Par = None.
Proof.
  intros Hj Hmiss.
  destruct (FollicleFunction t y Tovu Fs para parafoll Par) as [out|] eqn:H;
    [|reflexivity].
  destruct (FollicleFunction_Some _ _ _ _ _ _ _ _ H)
    as (y1 & SF & E2 & P4 & fsh & SumV & Eh & Ef & El & _).
  destruct Hmiss as [HA|(Hm & Hr)].
  - exfalso. apply (growth_loop_ActiveFSHS _ _ _ _ _ _ _ _ _ _ _ _ El j); [|exact HA].
    apply in_seq; lia.
  - destruct (hormone_snapshot_Some _ _ _ _ _ _ _ _ _ Eh) as (_ & Hz & _).
    assert (0 < NumFollicles_of y para)%Z as Hpos by (unfold slots in Hj; lia).
    destruct (zero_silent_records _ _ _ _ _ Hm Hpos Hz j Hj) as (k & r & Er).
    congruence.
Qed.

(** ** More of the function: the registry and the derivatives in normal mode *)

(** X8: marking is final: a record whose destiny is -2 when a call starts
    is left as it is, so a [TimeDecrease] once written is never overwritten,
    whatever the time and the state vector of the later call. *)
Theorem X8_marked_record_is_kept (t : R) (y : list R) (Tovu : R) (Fs : Follicles)
    (para : list Z) (parafoll Par : list R) :
  ODE_keeps_length -> well_formed y Fs para parafoll Par ->
  exists out,
    FollicleFunction t y Tovu Fs para parafoll Par = Some out /\
    forall k r,
      nth_error (Follicle Fs) k = Some r -> Destiny r = MarkedForDecline ->
      nth_error (Follicle (Follicles_after out)) k = Some r.
Proof.
  intros HO Hwf.
  destruct (FollicleFunction_total t y Tovu Fs para parafoll Par HO Hwf) as (out & H).
  destruct (FollicleFunction_frame _ _ _ _ _ _ _ _ H) as (_ & _ & _ & _ & Hm & _).
  exists out. split; [exact H|]. intros k r Er Hd.
  destruct (Hm k) as [Hs|(r0 & E0 & Hn & _)].
  - congruence.
  - rewrite Er in E0. inversion E0; subst r0. contradiction.
Qed.

(** X9: a call never touches the record of a follicle that is not active:
    an entry of [Follicles.Follicle] that no follicle slot leads to is the
    same after the call. *)
Theorem X9_inactive_record_untouched (t : R) (y : list R) (Tovu : R)
    (Fs : Follicles) (para : list Z) (parafoll Par : list R) :
  ODE_keeps_length -> well_formed y Fs para parafoll Par ->
  exists out,
    FollicleFunction t y Tovu Fs para parafoll Par = Some out /\
    forall k,
      (forall j, (j < slots y para)%nat -> record_pos Fs j <> Some k) ->
      nth_error (Follicle (Follicles_after out)) k = nth_error (Follicle Fs) k.
Proof.
  intros HO Hwf.
  destruct (FollicleFunction_total t y Tovu Fs para parafoll Par HO Hwf) as (out & H).
  exists out. split; [exact H|]. intros k Hk.
  destruct (FollicleFunction_Some _ _ _ _ _ _ _ _ H)
    as (y1 & SF & E2 & P4 & fsh & SumV & _ & _ & El & _).
  destruct (growth_loop_frame _ _ _ _ _ _ _ _ _ _ _ _ El) as (_ & _ & _ & _ & _ & Hr & _).
  apply Hr. intros j Hj. apply Hk. apply in_seq in Hj. lia.
Qed.



Lemma decline_fires_growing_iff (t X : R) (parafoll : list R) (r : FollicleRecord) :
  Destiny r = Growing ->
  decline_fires t X parafoll r = true <->
  X <= param parafoll 11 \/
  (X <= param parafoll 12 /\ t - oldest (Time r) >= param parafoll 13) \/
  oldest (Time r) - latest (Time r) > param parafoll 14.
Proof.
  intros Hd. unfold Growing in Hd. unfold decline_fires. rewrite Hd.
  cbn [Z.eqb Pos.eqb]. rewrite !andb_false_r, !andb_true_r, !orb_false_r.
  rewrite !orb_true_iff, andb_true_iff, !Rleb_true, Rgeb_true, Rgtb_true.
  tauto.
Qed.

Lemma decline_fires_dominant_iff (t X : R) (parafoll : list R) (r : FollicleRecord) :
  Destiny r = Dominant ->
  decline_fires t X parafoll r = true <->
  X <= param parafoll 11 \/
  (X <= param parafoll 12 /\ t - oldest (Time r) >= param parafoll 14) \/
  t - TimeDecrease r >= param parafoll 10 \/
  oldest (Time r) - latest (Time r) > param parafoll 14.
Proof.
  intros Hd. unfold Dominant in Hd. unfold decline_fires. rewrite Hd.
  cbn [Z.eqb Pos.eqb andb]. rewrite !andb_false_r, !andb_true_r, !orb_false_r.
  rewrite !orb_true_iff, andb_true_iff, !Rleb_true, !Rgeb_true, Rgtb_true.
  tauto.
Qed.


(** X11: the transition of a growing follicle (destiny -1) in a normal-mode
    call: it is marked for decline, with [TimeDecrease = t], exactly when
    X <= parafoll[11], or X <= parafoll[12] and its age [t - Time[0]] is at
    least parafoll[13], or [Time[0] - Time[-1] > parafoll[14]]; otherwise its
    record is kept and its slot gets X. *)
Theorem X11_growing_transition (t : R) (y : list R) (Tovu : R)
    (Fs : Follicles) (para : list Z) (parafoll Par : list R) :
  ODE_keeps_length -> well_formed y Fs para parafoll Par ->
  normal_mode para -> distinct_follicles Fs (slots y para) ->
  exists out,
    FollicleFunction t y Tovu Fs para parafoll Par = Some out /\
    forall j k r,
      (j < slots y para)%nat -> follicle_at Fs j = Some (k, r) ->
      Destiny r = Growing ->
      exists X,
        X_in_call t y Tovu Fs para parafoll Par j = Some X /\
        (growing_declines t X parafoll r ->
         nth_error (Follicle (Follicles_after out)) k = Some (mark_decline t r)) /\
        (~ growing_declines t X parafoll r ->
         nth_error (Follicle (Follicles_after out)) k = Some r /\
         nth_error (returned out) j = Some X).
Proof.
  intros HO Hwf Hm Hd.
  destruct (FollicleFunction_total t y Tovu Fs para parafoll Par HO Hwf) as (out & H).
  exists out. split; [exact H|]. intros j k r Hj Er Hdes.
  destruct (FollicleFunction_slot_normal _ _ _ _ _ _ _ _ Hm Hd H j Hj)
    as (k' & r0 & X & yi & Er' & EX & _ & Ef & Erec).
  rewrite Er in Er'. inversion Er'; subst k' r0.
  exists X. split; [exact EX|].
  pose proof (decline_fires_growing_iff t X parafoll r Hdes) as Hiff.
  fold (growing_declines t X parafoll r) in Hiff.
  unfold Growing in Hdes. split.
  - intros Hc. apply Hiff in Hc. rewrite Erec, Hc. unfold slot_record.
    now rewrite Hdes.
  - intros Hc. assert (decline_fires t X parafoll r = false) as Hf.
    { destruct (decline_fires t X parafoll r); [|reflexivity].
      exfalso. apply Hc. now apply Hiff. }
    rewrite Erec, Ef, Hf. unfold slot_record, slot_derivative. now rewrite Hdes.
Qed.

(** X12: the transition of a dominant follicle (destiny 3) in a normal-mode
    call: it is marked for decline, with [TimeDecrease = t], exactly when
    X <= parafoll[11], or X <= parafoll[12] and its age [t - Time[0]] is at
    least parafoll[14], or [t - TimeDecrease >= parafoll[10]], or
    [Time[0] - Time[-1] > parafoll[14]]; otherwise its record is kept and
    its slot gets X. *)
Theorem X12_dominant_transition (t : R) (y : list R) (Tovu : R)
    (Fs : Follicles) (para : list Z) (parafoll Par : list R) :
  ODE_keeps_length -> well_formed y Fs para parafoll Par ->
  normal_mode para -> distinct_follicles Fs (slots y para) ->
  exists out,
    FollicleFunction t y Tovu Fs para parafoll Par = Some out /\
    forall j k r,
      (j < slots y para)%nat -> follicle_at Fs j = Some (k, r) ->
      Destiny r = Dominant ->
      exists X,
        X_in_call t y Tovu Fs para parafoll Par j = Some X /\
        (dominant_declines t X parafoll r ->
         nth_error (Follicle (Follicles_after out)) k = Some (mark_decline t r)) /\
        (~ dominant_declines t X parafoll r ->
         nth_error (Follicle (Follicles_after out)) k = Some r /\
         nth_error (returned out) j = Some X).
Proof.
  intros HO Hwf Hm Hd.
  destruct (FollicleFunction_total t y Tovu Fs para parafoll Par HO Hwf) as (out & H).
  exists out. split; [exact H|]. intros j k r Hj Er Hdes.
  destruct (FollicleFunction_slot_normal _ _ _ _ _ _ _ _ Hm Hd H j Hj)
    as (k' & r0 & X & yi & Er' & EX & _ & Ef & Erec).
  rewrite Er in Er'. inversion Er'; subst k' r0.
  exists X. split; [exact EX|].
  pose proof (decline_fires_dominant_iff t X parafoll r Hdes) as Hiff.
  fold (dominant_declines t X parafoll r) in Hiff.
  unfold Dominant in Hdes. split.
  - intros Hc. apply Hiff in Hc. rewrite Erec, Hc. unfold slot_record.
    now rewrite Hdes.
  - intros Hc. assert (decline_fires t X parafoll r = false) as Hf.
    { destruct (decline_fires t X parafoll r); [|reflexivity].
      exfalso. apply Hc. now apply Hiff. }
    rewrite Erec, Ef, Hf. unfold slot_record, slot_derivative. now rewrite Hdes.
Qed.


Lemma exp_nonpos_le_1 (x : R) : x <= 0 -> 0 < exp x <= 1.
Proof.
  intros Hx. split; [apply exp_pos|].
  destruct (Req_dec x 0) as [->|Hne]; [rewrite exp_0; lra|].
  rewrite <- exp_0. left. apply exp_increasing. lra.
Qed.

Lemma gaussian_bump_bounds (h w c t : R) :
  0 <= h -> 0 <= w -> 0 <= gaussian_bump h w c t <= h.
Proof.
  intros Hh Hw. unfold gaussian_bump.
  assert (- w * (t - c) ^ 2 <= 0) as Hneg.
  { pose proof (pow2_ge_0 (t - c)). nra. }
  destruct (exp_nonpos_le_1 _ Hneg) as (H0 & H1). nra.
Qed.


(** X15: what a normal-mode call does to the caller's state vector, which
    it receives by reference: the length is kept, the slot of every silent
    follicle (destiny -2, -3 or 4) holds 0 afterwards, and every other slot
    is unchanged. *)
Theorem X15_state_vector_after_call (t : R) (y : list R) (Tovu : R)
    (Fs : Follicles) (para : list Z) (parafoll Par : list R) :
  ODE_keeps_length -> well_formed y Fs para parafoll Par -> normal_mode para ->
  exists out,
    FollicleFunction t y Tovu Fs para parafoll Par = Some out /\
    length (y_after out) = length y /\
    (forall j k r, (j < slots y para)%nat -> follicle_at Fs j = Some (k, r) ->
       silent r = true -> nth_error (y_after out) j = Some 0) /\
    (forall j k r, (j < slots y para)%nat -> follicle_at Fs j = Some (k, r) ->
       silent r = false -> nth_error (y_after out) j = nth_error y j) /\
    (forall j, (slots y para <= j)%nat -> nth_error (y_after out) j = nth_error y j).
Proof.
  intros HO Hwf Hm.
  destruct (FollicleFunction_total t y Tovu Fs para parafoll Par HO Hwf) as (out & H).
  exists out. split; [exact H|].
  destruct (FollicleFunction_y_after _ _ _ _ _ _ _ _ Hm H) as (Hin & Hout).
  destruct Hwf as (_ & _ & _ & _ & Hp1 & _).
  assert (slots y para <= length y)%nat as Hs by (unfold slots, NumFollicles_of; lia).
  split.
  { destruct (FollicleFunction_Some _ _ _ _ _ _ _ _ H)
      as (y1 & SF & E2 & P4 & fsh & SumV & Eh & _ & _ & ->).
    destruct (hormone_snapshot_Some _ _ _ _ _ _ _ _ _ Eh) as (_ & Hz & _).
    cbn [y_after]. exact (zero_silent_length _ _ _ _ _ Hz). }
  split; [|split; [|exact Hout]].
  - intros j k r Hj Er Hsil. rewrite (Hin j Hj).
    destruct (nth_error y j) as [v|] eqn:Ey.
    + cbn. unfold silenced. now rewrite Er, Hsil.
    + apply nth_error_None in Ey. lia.
  - intros j k r Hj Er Hsil. rewrite (Hin j Hj).
    destruct (nth_error y j) as [v|] eqn:Ey; [|reflexivity].
    cbn. unfold silenced. now rewrite Er, Hsil.
Qed.

Lemma option_R_eq_or_not (a b : option R) : a = b \/ a <> b.
Proof.
  destruct a as [u|], b as [v|]; try (right; congruence); [|now left].
  destruct (Req_dec u v) as [->|Hne]; [now left | right; congruence].
Qed.

Lemma silenced_agree (Fs : Follicles) (n : nat) (y y' : list R) :
  (forall j, nth_error y j <> nth_error y' j ->
     (j < n)%nat /\ exists k r, follicle_at Fs j = Some (k, r) /\ silent r = true) ->
  length y' = length y ->
  forall j, (j < n)%nat ->
    option_map (silenced Fs j) (nth_error y j) = option_map (silenced Fs j) (nth_error y' j).
Proof.
  intros Hag Hlen j Hj.
  destruct (nth_error y j) as [v|] eqn:E, (nth_error y' j) as [v'|] eqn:E'; cbn.
  - destruct (Req_dec v v') as [->|Hne]; [reflexivity|].
    destruct (Hag j) as (_ & k & r & Er & Hs); [rewrite E, E'; congruence|].
    unfold silenced. now rewrite Er, Hs.
  - apply nth_error_None in E'. assert (j < length y)%nat by (apply nth_error_Some; congruence).
    lia.
  - apply nth_error_None in E. assert (j < length y')%nat by (apply nth_error_Some; congruence).
    lia.
  - reflexivity.
Qed.

(** X16: a normal-mode call does not read the size of a silent follicle
    (destiny -2, -3 or 4): two state vectors of the same length that differ
    only in follicle slots of silent follicles give the same call, with the
    same returned vector, the same state vector afterwards and the same
    registry. *)
Theorem X16_silent_sizes_not_read (t : R) (y y' : list R) (Tovu : R)
    (Fs : Follicles) (para : list Z) (parafoll Par : list R) :
  well_formed y Fs para parafoll Par -> normal_mode para ->
  length y' = length y ->
  (forall j, nth_error y j <> nth_error y' j ->
     (j < slots y para)%nat /\
     exists k r, follicle_at Fs j = Some (k, r) /\ silent r = true) ->
  FollicleFunction t y' Tovu Fs para parafoll Par
  = FollicleFunction t y Tovu Fs para parafoll Par.
Proof.
  intros Hwf Hm Hlen Hag.
  destruct Hwf as (Hpara & _ & _ & _ & Hp1 & Hok).
  assert (NumFollicles_of y' para = NumFollicles_of y para) as HN.
  { unfold NumFollicles_of. now rewrite Hlen. }
  assert (forall j, (j < Z.to_nat (NumFollicles_of y para))%nat ->
            exists k r, follicle_at Fs j = Some (k, r)) as Hrec.
  { intros j Hj. destruct (Hok j Hj) as (_ & k & r & Er & _). eauto. }
  assert (Z.to_nat (NumFollicles_of y para) <= length y)%nat as Hs
    by (unfold NumFollicles_of; lia).
  destruct (zero_silent_total para Fs (NumFollicles_of y para) y) as (y1 & E1);
    [lia | exact Hs | exact Hrec |].
  destruct (zero_silent_total para Fs (NumFollicles_of y para) y') as (y1' & E1');
    [lia | lia | exact Hrec |].
  assert (y1' = y1) as Heq.
  { apply nth_error_ext. intros j.
    destruct (Z.ltb_spec 0 (NumFollicles_of y para)) as [Hpos|Hneg].
    - destruct (zero_silent_normal _ _ _ _ _ Hm Hpos E1) as (_ & A1 & B1).
      destruct (zero_silent_normal _ _ _ _ _ Hm Hpos E1') as (_ & A1' & B1').
      destruct (Nat.lt_ge_cases j (Z.to_nat (NumFollicles_of y para))) as [Hj|Hj].
      + rewrite (A1 j Hj), (A1' j Hj). symmetry.
        now apply (silenced_agree Fs (slots y para)).
      + rewrite (B1 j), (B1' j) by lia.
        destruct (option_R_eq_or_not (nth_error y' j) (nth_error y j)) as [e|ne]; [exact e|].
        destruct (Hag j) as (Hlt & _); [congruence|]. unfold slots in Hlt. lia.
    - rewrite zero_silent_empty in E1, E1' by lia.
      inversion E1; inversion E1'; subst.
      destruct (option_R_eq_or_not (nth_error y1' j) (nth_error y1 j)) as [e|ne]; [exact e|].
      destruct (Hag j) as (Hlt & _); [congruence|]. unfold slots in Hlt. lia. }
  subst y1'.
  assert (hormone_snapshot t y' Tovu Fs para Par = hormone_snapshot t y Tovu Fs para Par) as Hh.
  { unfold hormone_snapshot. have_para para 1%nat.
    rewrite Hlen. fold (NumFollicles_of y para). now rewrite E1, E1'. }
  unfold FollicleFunction. now rewrite Hh.
Qed.

Lemma for_each_ext {S : Type} (b1 b2 : nat -> S -> option S) (l : list nat) :
  (forall i s, b1 i s = b2 i s) ->
  forall s, for_each b1 l s = for_each b2 l s.
Proof.
  intros Hb. induction l as [|i l IH]; intros s; cbn [for_each]; [reflexivity|].
  rewrite Hb. destruct (b2 i s); cbn [bind]; [apply IH | reflexivity].
Qed.

Lemma py_index_head {A : Type} (a : A) (l : list A) : py_index (a :: l) 0 = Some a.
Proof.
  unfold py_index, py_pos. cbn [length Z.leb Z.compare].
  destruct (Z.ltb_spec 0 (Z.of_nat (S (length l)))); [reflexivity | lia].
Qed.

Lemma py_index_tail {A : Type} (a b : A) (l : list A) (i : Z) :
  (0 < i)%Z -> py_index (a :: l) i = py_index (b :: l) i.
Proof.
  intros Hi. unfold py_index, py_pos. cbn [length].
  destruct (0 <=? i)%Z eqn:E0; [|lia].
  destruct (i <? Z.of_nat (S (length l)))%Z; cbn [bind]; [|reflexivity].
  destruct (Z.to_nat i) as [|k] eqn:Ek; [lia | reflexivity].
Qed.

(** X17: the mode flag [para[0]] is only compared with 0: two calls whose
    flags are both different from 0, everything else equal, are the same
    call. *)
Theorem X17_nonzero_flags_agree (t : R) (y : list R) (Tovu : R) (Fs : Follicles)
    (p p' : Z) (rest : list Z) (parafoll Par : list R) :
  p <> 0%Z -> p' <> 0%Z ->
  FollicleFunction t y Tovu Fs (p :: rest) parafoll Par
  = FollicleFunction t y Tovu Fs (p' :: rest) parafoll Par.
Proof.
  intros Hp Hp'.
  assert (test_mode (p :: rest)) as Hm by (exists p; split; [apply py_index_head | exact Hp]).
  assert (test_mode (p' :: rest)) as Hm' by (exists p'; split; [apply py_index_head | exact Hp']).
  assert (hormone_snapshot t y Tovu Fs (p :: rest) Par
          = hormone_snapshot t y Tovu Fs (p' :: rest) Par) as Hh.
  { unfold hormone_snapshot, zero_silent.
    rewrite (py_index_tail p p' rest 1) by lia.
    destruct (py_index (p' :: rest) 1) as [p1|]; cbn [bind]; [|reflexivity].
    destruct (0 <? Z.of_nat (length y) - p1)%Z; [|reflexivity].
    rewrite !py_index_head; cbn [bind].
    destruct (Z.eqb_spec p 0), (Z.eqb_spec p' 0); try contradiction. reflexivity. }
  unfold FollicleFunction. rewrite Hh.
  destruct (hormone_snapshot t y Tovu Fs (p' :: rest) Par) as [[[N y1] [[SF E2] P4]]|];
    cbn [bind]; [|reflexivity].
  destruct (feedback_terms parafoll N y1) as [[fsh SumV]|]; cbn [bind]; [|reflexivity].
  unfold for_range.
  rewrite (for_each_ext (growth_step t (p :: rest) parafoll y1 P4 fsh SumV)
             (growth_step t (p' :: rest) parafoll y1 P4 fsh SumV)); [reflexivity|].
  intros i [f F]. now rewrite !growth_step_test_eq.
Qed.

(** X18: the sizes 0 and [parafoll[2]] are stationary for the growth law
    of line 60: in a test-mode call whose powers and quotients are defined
    (exponent [parafoll[0]] and follicle slots not negative, the divisors
    of lines 51 and 57 not zero), a follicle slot that holds one of them
    gets the derivative 0. *)
Theorem X18_stationary_sizes (t : R) (y : list R) (Tovu : R) (Fs : Follicles)
    (para : list Z) (parafoll Par : list R) (j : nat) (s fFSH fsh : R) :
  ODE_keeps_length -> well_formed y Fs para parafoll Par -> test_mode para ->
  (j < slots y para)%nat -> nth_error y j = Some s ->
  nth_error (ActiveFSHS Fs) j = Some fFSH ->
  nth_error y (length y - 15) = Some fsh ->
  powers_defined parafoll y (slots y para) ->
  quotients_defined (P4_spec Par t Tovu) fsh fFSH ->
  s = 0 \/ s = param parafoll 2 ->
  exists out,
    FollicleFunction t y Tovu Fs para parafoll Par = Some out /\
    nth_error (returned out) j = Some 0.
Proof.
  intros HO Hwf Hm Hj Es EA Efsh _ _ Hs.
  destruct (FollicleFunction_total t y Tovu Fs para parafoll Par HO Hwf) as (out & H).
  exists out. split; [exact H|].
  destruct (FollicleFunction_slot_test _ _ _ _ _ _ _ _ Hm H) as (_ & _ & Hl).
  destruct (Hl j Hj) as (X & EX & Ej). rewrite Ej. f_equal.
  destruct (X_in_call_Some _ _ _ _ _ _ _ _ _ EX)
    as (y1 & SF & E2 & P4 & fsh' & fFSH' & size & Eh & _ & _ & Ey1 & ->).
  destruct (hormone_snapshot_Some _ _ _ _ _ _ _ _ _ Eh) as (_ & Hz & _).
  apply (zero_silent_test _ _ _ _ _ Hm) in Hz. subst y1.
  rewrite Es in Ey1. inversion Ey1; subst size.
  unfold raw_growth, X_of. destruct Hs as [->| ->]; ring.
Qed.

End Model.

(** ** The sample inputs *)

Lemma zero_ODE_keeps_length : ODE_keeps_length zero_ODE.
Proof. intros t y Par E2 P4. unfold zero_ODE. apply length_map. Qed.

Lemma normal_para_normal : normal_mode normal_para.
Proof. reflexivity. Qed.

Lemma test_para_test : test_mode test_para.
Proof. exists 1%Z. split; [reflexivity | discriminate]. Qed.

Lemma one_follicle_at (r : FollicleRecord) :
  follicle_at (one_follicle_registry r) 0 = Some (0%nat, r).
Proof. reflexivity. Qed.

(** Every sample with one follicle slot is well formed. *)
Lemma one_follicle_well_formed (y : list R) (para : list Z) (parafoll : list R)
    (r : FollicleRecord) :
  length y = 16%nat -> length para = 2%nat -> nth 1 para 0%Z = 15%Z ->
  length parafoll = 15%nat -> Time r <> [] ->
  well_formed y (one_follicle_registry r) para parafoll sample_Par /\
  slots y para = 1%nat.
Proof.
  intros Hy Hpara Hp1 Hpf Ht.
  assert (slots y para = 1%nat) as Hs.
  { unfold slots, NumFollicles_of. rewrite Hy, Hp1. reflexivity. }
  split; [|exact Hs].
  unfold well_formed. rewrite Hy, Hpara, Hpf, Hp1, Hs.
  do 5 (split; [first [lia | cbn; lia]|]).
  intros a Ha. assert (a = 0%nat) as -> by lia.
  split; [cbn; lia|].
  exists 0%nat, r. split; [reflexivity | exact Ht].
Qed.

Lemma sample_well_formed (y : list R) (para : list Z) (parafoll : list R)
    (d : Z) (td : R) :
  length y = 16%nat -> length para = 2%nat -> nth 1 para 0%Z = 15%Z ->
  length parafoll = 15%nat ->
  well_formed y (sample_registry d td) para parafoll sample_Par /\
  slots y para = 1%nat.
Proof.
  intros. apply one_follicle_well_formed; auto. discriminate.
Qed.

Lemma one_follicle_distinct (Fs : Follicles) : distinct_follicles Fs 1.
Proof. intros a b Ha Hb Hne. lia. Qed.

(** A normal-mode call on a state vector with one follicle slot and an FSH
    slot of 0, on the registry of one record [r]: X is 0, and slot 0 and the
    record end as one iteration leaves them. *)
Lemma one_follicle_call (t size : R) (r : FollicleRecord) (parafoll : list R) :
  length parafoll = 15%nat -> Time r <> [] ->
  exists out yi,
    FollicleFunction numpy_power zero_ODE t (one_follicle_y size) 0
      (one_follicle_registry r) normal_para parafoll sample_Par = Some out /\
    nth_error (y_after out) 0 = Some yi /\
    X_in_call numpy_power t (one_follicle_y size) 0 (one_follicle_registry r)
      normal_para parafoll sample_Par 0 = Some 0 /\
    nth_error (returned out) 0
      = Some (slot_derivative t 0 (decline_fires t 0 parafoll r) r yi) /\
    nth_error (Follicle (Follicles_after out)) 0
      = Some (slot_record t (decline_fires t 0 parafoll r) r).
Proof.
  intros Hpf Ht.
  destruct (one_follicle_well_formed (one_follicle_y size) normal_para parafoll r)
    as (Hwf & Hs); try reflexivity; auto.
  destruct (FollicleFunction_total numpy_power zero_ODE t (one_follicle_y size) 0
              (one_follicle_registry r) normal_para parafoll sample_Par
              zero_ODE_keeps_length Hwf) as (out & H).
  assert (distinct_follicles (one_follicle_registry r)
            (slots (one_follicle_y size) normal_para))
    as Hd by (rewrite Hs; apply one_follicle_distinct).
  destruct (FollicleFunction_slot_normal _ _ _ _ _ _ _ _ _ _ normal_para_normal Hd H 0%nat)
    as (k & r0 & X & yi & Er & EX & Ey & Ef & Erec); [rewrite Hs; lia|].
  rewrite one_follicle_at in Er. inversion Er; subst k r0.
  assert (X = 0) as HX.
  { destruct (X_in_call_Some _ _ _ _ _ _ _ _ _ _ EX)
      as (y1 & SF & E2 & P4 & fsh & fFSH & sz & Eh & Efsh & _ & _ & ->).
    destruct (FollicleFunction_frame _ _ _ _ _ _ _ _ _ _ H)
      as (Ly & _ & _ & _ & _ & SF' & E2' & P4' & Eh' & _).
    rewrite Eh in Eh'. inversion Eh'; subst y1.
    destruct (FollicleFunction_y_after _ _ _ _ _ _ _ _ _ _ normal_para_normal H)
      as (_ & Hy).
    rewrite Ly in Efsh.
    change (Z.of_nat (length (one_follicle_y size)) - 15)%Z with (Z.of_nat 1) in Efsh.
    rewrite py_index_nat in Efsh by (rewrite Ly; cbn; lia).
    rewrite Hy in Efsh by (rewrite Hs; lia).
    cbn in Efsh. inversion Efsh; subst fsh.
    apply raw_growth_no_fsh. }
  subst X. exists out, yi. auto.
Qed.

Lemma sample_call (t : R) (d : Z) (td : R) (parafoll : list R) :
  length parafoll = 15%nat ->
  exists out yi,
    FollicleFunction numpy_power zero_ODE t sample_y 0 (sample_registry d td)
      normal_para parafoll sample_Par = Some out /\
    nth_error (y_after out) 0 = Some yi /\
    X_in_call numpy_power t sample_y 0 (sample_registry d td)
      normal_para parafoll sample_Par 0 = Some 0 /\
    nth_error (returned out) 0
      = Some (slot_derivative t 0 (decline_fires t 0 parafoll (sample_follicle d td))
                (sample_follicle d td) yi) /\
    nth_error (Follicle (Follicles_after out)) 0
      = Some (slot_record t (decline_fires t 0 parafoll (sample_follicle d td))
                (sample_follicle d td)).
Proof.
  intros Hpf. apply one_follicle_call; [exact Hpf | discriminate].
Qed.

Lemma sample_parafoll_fires (t : R) (r : FollicleRecord) :
  decline_fires t 0 sample_parafoll r = true.
Proof.
  apply decline_fires_low. change (param sample_parafoll 11) with 0. lra.
Qed.

(** ** Counterexamples and instances *)

(** C1 fails as stated: a normal-mode call on one growing follicle (destiny
    -1, [TimeDecrease] 0) at t = 5 with X = 0 <= parafoll[11] = 0 returns
    and leaves the follicle's record with destiny -2 and [TimeDecrease] 5. *)
Lemma C1_counterexample :
  exists out,
    FollicleFunction numpy_power zero_ODE 5 sample_y 0 (sample_registry (-1) 0)
      normal_para sample_parafoll sample_Par = Some out /\
    nth_error (Follicle (Follicles_after out)) 0 = Some (mkFollicle (-2) [0] 5 [2]) /\
    ~ (y_after out = sample_y /\
       map Destiny (Follicle (Follicles_after out))
         = map Destiny (Follicle (sample_registry (-1) 0)) /\
       map TimeDecrease (Follicle (Follicles_after out))
         = map TimeDecrease (Follicle (sample_registry (-1) 0))).
Proof.
  destruct (sample_call 5 (-1) 0 sample_parafoll eq_refl)
    as (out & yi & H & _ & _ & _ & Hrec).
  rewrite sample_parafoll_fires in Hrec.
  change (slot_record 5 true (sample_follicle (-1) 0))
    with (mkFollicle (-2) [0] 5 [2]) in Hrec.
  exists out. split; [exact H|]. split; [exact Hrec|].
  intros (_ & HD & _).
  destruct (Follicle (Follicles_after out)) as [|r l]; [discriminate|].
  cbn in Hrec. inversion Hrec; subst r. cbn in HD. discriminate.
Qed.

(** Instance of C1 on the same call. *)
Lemma C1_witness :
  exists out,
    FollicleFunction numpy_power zero_ODE 5 sample_y 0 (sample_registry (-1) 0)
      normal_para sample_parafoll sample_Par = Some out /\
    Active (Follicles_after out) = [1%Z] /\
    ActiveFSHS (Follicles_after out) = [1] /\
    length (Follicle (Follicles_after out)) = 1%nat /\
    forall k, marked_or_same 5 (nth_error [sample_follicle (-1) 0] k)
                               (nth_error (Follicle (Follicles_after out)) k).
Proof.
  apply (C1_registry_marked_only numpy_power zero_ODE 5 sample_y 0
           (sample_registry (-1) 0) normal_para sample_parafoll sample_Par).
  - exact zero_ODE_keeps_length.
  - apply sample_well_formed; reflexivity.
Defined.

(** C3 fails as stated: a normal-mode call on one Atretic follicle at t = 5
    with X = 0 <= parafoll[11] = 0 returns and leaves the follicle marked
    for decline. *)
Lemma C3_counterexample :
  exists out,
    FollicleFunction numpy_power zero_ODE 5 sample_y 0 (sample_registry Atretic 0)
      normal_para sample_parafoll sample_Par = Some out /\
    option_map Destiny (nth_error (Follicle (Follicles_after out)) 0)
      = Some MarkedForDecline.
Proof.
  destruct (sample_call 5 Atretic 0 sample_parafoll eq_refl)
    as (out & yi & H & _ & _ & _ & Hrec).
  rewrite sample_parafoll_fires in Hrec.
  exists out. split; [exact H|]. rewrite Hrec. reflexivity.
Qed.

(** Instance of C3: with parafoll[11] = -1 < X = 0 the Atretic follicle
    keeps its record. *)
Lemma C3_witness :
  exists out,
    FollicleFunction numpy_power zero_ODE 5 sample_y 0 (sample_registry Atretic 0)
      normal_para sample_parafoll_strict sample_Par = Some out /\
    nth_error (Follicle (Follicles_after out)) 0 = Some (sample_follicle Atretic 0).
Proof.
  destruct (sample_well_formed sample_y normal_para sample_parafoll_strict Atretic 0)
    as (Hwf & Hs); try reflexivity.
  destruct (C3_atretic_kept_unless_decline numpy_power zero_ODE 5 sample_y 0
              (sample_registry Atretic 0) normal_para sample_parafoll_strict sample_Par
              zero_ODE_keeps_length Hwf normal_para_normal)
    as (out & H & Hall).
  - rewrite Hs. apply one_follicle_distinct.
  - exists out. split; [exact H|].
    destruct (Hall 0%nat 0%nat (sample_follicle Atretic 0)) as (X & r' & EX & Er' & Hkeep & _).
    + rewrite Hs. lia.
    + reflexivity.
    + reflexivity.
    + assert (X = 0) as ->.
      { apply (silent_follicle_X numpy_power 5 sample_y 0 (sample_registry Atretic 0)
                 normal_para sample_parafoll_strict sample_Par 0 0
                 (sample_follicle Atretic 0));
          [exact normal_para_normal | rewrite Hs; lia | reflexivity | reflexivity
          | exact EX]. }
      rewrite Er'. f_equal. apply Hkeep.
      * change (param sample_parafoll_strict 11) with (-1). lra.
      * change (param sample_parafoll_strict 14) with 5.
        change (oldest (Time (sample_follicle Atretic 0))) with 0.
        change (latest (Time (sample_follicle Atretic 0))) with 0. lra.
Defined.

(** C5 at a failing input: one follicle of size 2, marked for decline at
    time 10, evaluated in normal mode at t = 15.  Line 20 zeroes its slot of
    [y] through the view [x], and line 80 returns -0.05 * 0 * (15 - 10)
    where the claim has -0.05 * 2 * (15 - 10). *)
Theorem C5_marked_follicle_at_sample :
  exists out,
    FollicleFunction numpy_power zero_ODE 15 sample_y 0
      (sample_registry MarkedForDecline 10)
      normal_para sample_parafoll sample_Par = Some out /\
    nth_error sample_y 0 = Some 2 /\
    nth_error (y_after out) 0 = Some 0 /\
    nth_error (returned out) 0 = Some (-0.05 * 0 * (15 - 10)) /\
    -0.05 * 0 * (15 - 10) <> -0.05 * 2 * (15 - 10).
Proof.
  destruct (sample_well_formed sample_y normal_para sample_parafoll
              MarkedForDecline 10) as (Hwf & Hs); try reflexivity.
  destruct (FollicleFunction_total numpy_power zero_ODE 15 sample_y 0
              (sample_registry MarkedForDecline 10) normal_para sample_parafoll
              sample_Par zero_ODE_keeps_length Hwf) as (out & H).
  assert (distinct_follicles (sample_registry MarkedForDecline 10)
            (slots sample_y normal_para)) as Hd
    by (rewrite Hs; apply one_follicle_distinct).
  assert (0 < slots sample_y normal_para)%nat as H0 by (rewrite Hs; lia).
  destruct (marked_slot_derivative numpy_power zero_ODE 15 sample_y 0
              (sample_registry MarkedForDecline 10) normal_para sample_parafoll
              sample_Par out 0 0 (sample_follicle MarkedForDecline 10)
              normal_para_normal Hd H H0 eq_refl eq_refl) as (Hy & Hf).
  exists out. repeat (split; [auto|]). lra.
Qed.

(** C6 at a failing input: one Atretic follicle of size 2, evaluated in
    normal mode at t = 5 with parafoll[11] = -1, so that the decline
    condition does not fire and line 82 is the branch that runs.  Line 20
    has zeroed the follicle's slot of [y] through the view [x], and line 82
    returns -1000 * 0 where the claim has -1000 * 2. *)
Theorem C6_atretic_follicle_at_sample :
  exists out,
    FollicleFunction numpy_power zero_ODE 5 sample_y 0 (sample_registry Atretic 0)
      normal_para sample_parafoll_strict sample_Par = Some out /\
    nth_error sample_y 0 = Some 2 /\
    X_in_call numpy_power 5 sample_y 0 (sample_registry Atretic 0)
      normal_para sample_parafoll_strict sample_Par 0 = Some 0 /\
    decline_fires 5 0 sample_parafoll_strict (sample_follicle Atretic 0) = false /\
    nth_error (y_after out) 0 = Some 0 /\
    nth_error (returned out) 0 = Some (-1000 * 0) /\
    -1000 * 0 <> -1000 * 2.
Proof.
  destruct (sample_well_formed sample_y normal_para sample_parafoll_strict
              Atretic 0) as (Hwf & Hs); try reflexivity.
  destruct (FollicleFunction_total numpy_power zero_ODE 5 sample_y 0
              (sample_registry Atretic 0) normal_para sample_parafoll_strict
              sample_Par zero_ODE_keeps_length Hwf) as (out & H).
  assert (distinct_follicles (sample_registry Atretic 0)
            (slots sample_y normal_para)) as Hd
    by (rewrite Hs; apply one_follicle_distinct).
  assert (0 < slots sample_y normal_para)%nat as H0 by (rewrite Hs; lia).
  assert (param sample_parafoll_strict 11 < 0) as H11
    by (change (param sample_parafoll_strict 11) with (-1); lra).
  assert (oldest (Time (sample_follicle Atretic 0))
          - latest (Time (sample_follicle Atretic 0))
          <= param sample_parafoll_strict 14) as H14.
  { change (param sample_parafoll_strict 14) with 5.
    change (oldest (Time (sample_follicle Atretic 0))) with 0.
    change (latest (Time (sample_follicle Atretic 0))) with 0. lra. }
  destruct (atretic_slot_derivative numpy_power zero_ODE 5 sample_y 0
              (sample_registry Atretic 0) normal_para sample_parafoll_strict
              sample_Par out 0 0 (sample_follicle Atretic 0)
              normal_para_normal Hd H H0 eq_refl eq_refl H11 H14)
    as (EX & Hf & Hy & Hr & _).
  exists out. repeat (split; [auto|]). lra.
Qed.

Lemma numpy_power_one (b : R) : numpy_power 1 b = 1.
Proof.
  unfold numpy_power. destruct (Req_dec_T 1 0) as [H|H]; [lra|].
  unfold Rpower. now rewrite ln_1, Rmult_0_r, exp_0.
Qed.

(** The sample parameter set defines the summand of line 29 at size 0:
    exponent 2, constant 1, divisor 0 + 1. *)
Lemma sample_SF_defined : SF_defined_at_zero numpy_power sample_Par.
Proof.
  unfold SF_defined_at_zero.
  change (param sample_Par 56) with 2. change (param sample_Par 57) with 1.
  split; [lra|]. split; [lra|].
  rewrite numpy_power_one. unfold numpy_power.
  destruct (Req_dec_T 0 0) as [_|H]; [|lra].
  destruct (Req_dec_T 2 0) as [H|_]; lra.
Qed.

Lemma kappa_spec_positive : 0 < kappa_spec 1 1.
Proof.
  unfold kappa_spec, sigmoid_down.
  assert (0 < 0.55 ^ 10) as Ha by (apply pow_lt; lra).
  replace (1 ^ 10) with 1 by ring.
  rewrite Rmult_1_l. apply Rdiv_lt_0_compat; lra.
Qed.

(** C2 fails as stated: in a test-mode call with one follicle of size 1, an
    FSH residual of 1, an FSH sensitivity of 1 and parafoll[3] = 1/2, the
    derivative returned for the slot, which is X, differs from the growth
    expression whose own share is [size ^ p]. *)
Lemma C2_counterexample :
  exists out,
    FollicleFunction numpy_power zero_ODE 5 sample_y_fsh 0 (sample_registry (-1) 0)
      test_para sample_parafoll sample_Par = Some out /\
    nth_error (returned out) 0
    <> Some (X_claimed numpy_power sample_parafoll (P4_spec sample_Par 5 0) 1 1 1 [1]).
Proof.
  destruct (sample_well_formed sample_y_fsh test_para sample_parafoll (-1) 0)
    as (Hwf & Hs); try reflexivity.
  destruct (FollicleFunction_total numpy_power zero_ODE 5 sample_y_fsh 0
              (sample_registry (-1) 0) test_para sample_parafoll sample_Par
              zero_ODE_keeps_length Hwf) as (out & H).
  destruct (FollicleFunction_slot_test _ _ _ _ _ _ _ _ _ _ test_para_test H)
    as (_ & _ & Hall).
  destruct (Hall 0%nat) as (X & EX & Hret); [rewrite Hs; lia|].
  destruct (X_in_call_Some _ _ _ _ _ _ _ _ _ _ EX)
    as (y1 & SF & E2 & P4 & fsh & fFSH & size & Eh & Efsh & EA & Ey & HX).
  destruct (hormone_snapshot_Some _ _ _ _ _ _ _ _ _ _ Eh) as (_ & Hz & _).
  apply (zero_silent_test _ _ _ _ _ test_para_test) in Hz. subst y1.
  change (nth_error (ActiveFSHS (sample_registry (-1) 0)) 0) with (Some 1) in EA.
  change (nth_error sample_y_fsh 0) with (Some 1) in Ey.
  change (py_index sample_y_fsh (Z.of_nat (length sample_y_fsh) - 15)) with (Some 1)
    in Efsh.
  inversion EA; subst fFSH. inversion Ey; subst size. inversion Efsh; subst fsh.
  destruct (hormone_snapshot_levels _ _ _ _ _ _ _ _ _ _ _ _ Eh) as (_ & HP4).
  subst P4.
  change (x_of (NumFollicles_of sample_y_fsh test_para) sample_y_fsh) with [1] in HX.
  rewrite raw_growth_weighted in HX.
  exists out. split; [exact H|]. rewrite Hret. intros Heq.
  inversion Heq as [HX']. rewrite HX in HX'. clear Heq Hret HX EX.
  unfold X_claimed, X_spec, SumV_spec, np_sum in HX'.
  cbn [map fold_right] in HX'. rewrite !numpy_power_one in HX'.
  change (param sample_parafoll 3) with (1 / 2) in HX'.
  change (param sample_parafoll 2) with 25 in HX'.
  change (param sample_parafoll 4) with 1 in HX'.
  assert (ffsh_spec 1 1 = 1 / 2) as Hf by (unfold ffsh_spec, sigmoid_up; field).
  rewrite Hf in HX'.
  pose proof kappa_spec_positive as HK.
  set (K := kappa_spec 1 1) in *.
  set (G := gamma_spec (param sample_parafoll 1) (P4_spec sample_Par 5 0) 1) in *.
  lra.
Qed.

(** Instance of C2 on the same call. *)
Lemma C2_witness :
  saturating_shapes /\
  exists out SF E2 P4 fsh,
    FollicleFunction numpy_power zero_ODE 5 sample_y_fsh 0 (sample_registry (-1) 0)
      test_para sample_parafoll sample_Par = Some out /\
    hormone_snapshot numpy_power 5 sample_y_fsh 0 (sample_registry (-1) 0)
      test_para sample_Par
      = Some (NumFollicles_of sample_y_fsh test_para, y_after out, (SF, E2, P4)) /\
    py_index (y_after out) (Z.of_nat (length (y_after out)) - 15) = Some fsh /\
    forall j, (j < slots sample_y_fsh test_para)%nat ->
      exists fFSH size,
        nth_error (ActiveFSHS (sample_registry (-1) 0)) j = Some fFSH /\
        nth_error (y_after out) j = Some size /\
        X_in_call numpy_power 5 sample_y_fsh 0 (sample_registry (-1) 0)
          test_para sample_parafoll sample_Par j
          = Some (X_weighted numpy_power sample_parafoll P4 fsh fFSH size
                    (firstn (slots sample_y_fsh test_para) (y_after out))) /\
        (test_mode test_para ->
         nth_error (returned out) j
           = Some (X_weighted numpy_power sample_parafoll P4 fsh fFSH size
                     (firstn (slots sample_y_fsh test_para) (y_after out)))).
Proof.
  apply (C2_growth_expression numpy_power zero_ODE 5 sample_y_fsh 0
           (sample_registry (-1) 0) test_para sample_parafoll sample_Par).
  - exact zero_ODE_keeps_length.
  - apply sample_well_formed; reflexivity.
Defined.


(** C7 fails as stated: a growing follicle whose recorded size fell from 10
    to 1, more than the span parafoll[14] = 5, between the times 0 and 1,
    evaluated in normal mode at t = 1 with X = 0 above the growth thresholds
    parafoll[11] = parafoll[12] = -1: the guard does not fire and the call
    leaves the follicle growing. *)
Lemma C7_counterexample :
  exists out,
    FollicleFunction numpy_power zero_ODE 1 (one_follicle_y 1) 0
      (one_follicle_registry shrunk_follicle)
      normal_para sample_parafoll_strict sample_Par = Some out /\
    Destiny shrunk_follicle = Growing /\
    size_drop_exceeds (param sample_parafoll_strict 14) shrunk_follicle /\
    span_guard sample_parafoll_strict shrunk_follicle = Some false /\
    nth_error (Follicle (Follicles_after out)) 0 = Some shrunk_follicle.
Proof.
  assert (Rgtb (oldest (Time shrunk_follicle) - latest (Time shrunk_follicle))
            (param sample_parafoll_strict 14) = false) as Hg.
  { apply Rgtb_false.
    change (param sample_parafoll_strict 14) with 5.
    change (oldest (Time shrunk_follicle)) with 0.
    change (latest (Time shrunk_follicle)) with 1. lra. }
  destruct (one_follicle_call 1 1 shrunk_follicle sample_parafoll_strict eq_refl)
    as (out & yi & H & _ & _ & _ & Hrec); [discriminate|].
  rewrite decline_fires_growing in Hrec.
  - rewrite Hg in Hrec. exists out. split; [exact H|]. split; [reflexivity|].
    split; [|split; [|exact Hrec]].
    + unfold size_drop_exceeds.
      change (param sample_parafoll_strict 14) with 5.
      change (oldest (SizeSamples shrunk_follicle)) with 10.
      change (latest (SizeSamples shrunk_follicle)) with 1. lra.
    + rewrite span_guard_value by (cbn; first [lia | discriminate]).
      now rewrite Hg.
  - reflexivity.
  - change (param sample_parafoll_strict 11) with (-1). lra.
  - change (param sample_parafoll_strict 12) with (-1). lra.
Qed.

(** Instance of C7 on the same follicle. *)
Lemma C7_witness :
  exists g,
    span_guard sample_parafoll shrunk_follicle = Some g /\
    (g = true <->
     oldest (Time shrunk_follicle) - latest (Time shrunk_follicle)
     > param sample_parafoll 14) /\
    (Destiny shrunk_follicle = Growing ->
     param sample_parafoll 11 < 1 -> param sample_parafoll 12 < 1 ->
     decline_condition 1 1 sample_parafoll (Some (0%nat, shrunk_follicle)) = Some g).
Proof.
  apply (C7_span_guard_compares_times 1 1 sample_parafoll 0 shrunk_follicle).
  - cbn; lia.
  - discriminate.
Defined.

(** Instance of C8: the same test-mode call on a growing and on an Atretic
    follicle. *)
Lemma C8_witness :
  exists out1 out2,
    FollicleFunction numpy_power zero_ODE 5 sample_y_fsh 0 (sample_registry Growing 0)
      test_para sample_parafoll sample_Par = Some out1 /\
    FollicleFunction numpy_power zero_ODE 5 sample_y_fsh 0 (sample_registry Atretic 0)
      test_para sample_parafoll sample_Par = Some out2 /\
    returned out1 = returned out2 /\
    forall j, (j < slots sample_y_fsh test_para)%nat ->
      exists X,
        X_in_call numpy_power 5 sample_y_fsh 0 (sample_registry Growing 0)
          test_para sample_parafoll sample_Par j = Some X /\
        X_in_call numpy_power 5 sample_y_fsh 0 (sample_registry Atretic 0)
          test_para sample_parafoll sample_Par j = Some X /\
        nth_error (returned out1) j = Some X.
Proof.
  apply (C8_test_mode_ignores_destiny numpy_power zero_ODE 5 sample_y_fsh 0
           (sample_registry Growing 0) (sample_registry Atretic 0)
           test_para sample_parafoll sample_Par).
  - exact zero_ODE_keeps_length.
  - apply sample_well_formed; reflexivity.
  - exact test_para_test.
  - split; [reflexivity|]. split; [reflexivity|].
    constructor; [|constructor]. repeat split; reflexivity.
Defined.

Lemma gaussian_bump_at_peak (h w c t : R) : t = c -> gaussian_bump h w c t = h.
Proof. intros ->. apply gaussian_bump_center. Qed.

(** C9 fails as stated: without any follicle slot, at t = 7 and
    [Tovu = 0], both levels exceed the baseline constants by the height of
    the Gaussian bump, Par[60] = 1 and Par[62] = 1. *)
Lemma C9_counterexample :
  exists E2 P4,
    hormone_snapshot numpy_power 7 sample_y_empty 0 empty_registry normal_para sample_Par
      = Some (0%Z, sample_y_empty, (0, E2, P4)) /\
    E2 = E2_baseline sample_Par + 1 /\ P4 = P4_baseline sample_Par + 1 /\
    E2 <> E2_baseline sample_Par /\ P4 <> P4_baseline sample_Par.
Proof.
  destruct (no_follicle_snapshot numpy_power 7 sample_y_empty 0 empty_registry
              normal_para sample_Par) as (SF & E2 & P4 & Eh & El); try (cbn; lia).
  destruct (SF_of_zero _ _ _ _ _ _ _ sample_SF_defined El) as (-> & -> & ->).
  exists (E2_spec sample_Par 7 0 0), (P4_spec sample_Par 7 0).
  split; [exact Eh|].
  assert (E2_spec sample_Par 7 0 0 = E2_baseline sample_Par + 1) as HE.
  { unfold E2_spec, E2_baseline.
    change (param sample_Par 60) with 1. rewrite gaussian_bump_at_peak by lra. ring. }
  assert (P4_spec sample_Par 7 0 = P4_baseline sample_Par + 1) as HP.
  { unfold P4_spec, P4_baseline.
    change (param sample_Par 62) with 1. rewrite gaussian_bump_at_peak by lra. ring. }
  rewrite HE, HP. repeat split; lra.
Qed.

(** Instance of C9 on the same input. *)
Lemma C9_witness :
  hormone_snapshot numpy_power 7 sample_y_empty 0 empty_registry normal_para sample_Par
  = Some (NumFollicles_of sample_y_empty normal_para, sample_y_empty,
          (0,
           E2_baseline sample_Par
           + gaussian_bump (param sample_Par 60) (param sample_Par 61) (0 + 7) 7,
           P4_baseline sample_Par
           + gaussian_bump (param sample_Par 62) (param sample_Par 61) (0 + 7) 7)).
Proof.
  apply (C9_no_follicle_levels numpy_power 7 sample_y_empty 0 empty_registry
           normal_para sample_Par).
  - cbn; lia.
  - cbn; lia.
  - cbn; lia.
  - exact sample_SF_defined.
Defined.

(** Instance of C10: a normal-mode call with one growing follicle. *)
Lemma C10_witness :
  exists out SF E2 P4,
    FollicleFunction numpy_power zero_ODE 5 sample_y 0 (sample_registry Growing 0)
      normal_para sample_parafoll sample_Par = Some out /\
    hormone_snapshot numpy_power 5 sample_y 0 (sample_registry Growing 0)
      normal_para sample_Par
      = Some (NumFollicles_of sample_y normal_para, y_after out, (SF, E2, P4)) /\
    length (returned out) = length sample_y /\
    forall j, (slots sample_y normal_para <= j)%nat ->
      nth_error (returned out) j = nth_error (zero_ODE 5 (y_after out) sample_Par E2 P4) j.
Proof.
  apply (C10_returned_vector_frame numpy_power zero_ODE 5 sample_y 0
           (sample_registry Growing 0) normal_para sample_parafoll sample_Par).
  - exact zero_ODE_keeps_length.
  - apply sample_well_formed; reflexivity.
Defined.


(** ** Instances of the further properties *)

(** A registry of two records of which only the first is active. *)
Lemma two_records_well_formed (r1 r2 : FollicleRecord) (para : list Z) :
  length para = 2%nat -> nth 1 para 0%Z = 15%Z -> Time r1 <> [] ->
  well_formed sample_y (mkFollicles [r1; r2] [1%Z] [1]) para sample_parafoll sample_Par.
Proof.
  intros Hpara Hp1 Ht.
  assert (slots sample_y para = 1%nat) as Hs.
  { unfold slots, NumFollicles_of. rewrite Hp1. reflexivity. }
  unfold well_formed. rewrite Hpara, Hp1, Hs.
  do 5 (split; [first [lia | cbn; lia]|]).
  intros a Ha. assert (a = 0%nat) as -> by lia.
  split; [cbn; lia|].
  exists 0%nat, r1. split; [reflexivity | exact Ht].
Qed.

Lemma X1_witness :
  exists out,
    FollicleFunction numpy_power zero_ODE 5 sample_y_fsh 0 (sample_registry Atretic 0)
      test_para sample_parafoll sample_Par = Some out /\
    y_after out = sample_y_fsh /\ Follicles_after out = sample_registry Atretic 0.
Proof.
  apply (X1_test_mode_no_side_effect numpy_power zero_ODE 5 sample_y_fsh 0
           (sample_registry Atretic 0) test_para sample_parafoll sample_Par).
  - exact zero_ODE_keeps_length.
  - apply sample_well_formed; reflexivity.
  - exact test_para_test.
Defined.

Lemma X2_witness :
  (FollicleFunction numpy_power zero_ODE 5 sample_y_fsh 0 (sample_registry Growing 0)
     test_para sample_parafoll sample_Par = None <->
   FollicleFunction numpy_power zero_ODE 5 sample_y_fsh 0 (mkFollicles [] [] [1])
     test_para sample_parafoll sample_Par = None) /\
  forall out1 out2,
    FollicleFunction numpy_power zero_ODE 5 sample_y_fsh 0 (sample_registry Growing 0)
      test_para sample_parafoll sample_Par = Some out1 ->
    FollicleFunction numpy_power zero_ODE 5 sample_y_fsh 0 (mkFollicles [] [] [1])
      test_para sample_parafoll sample_Par = Some out2 ->
    returned out1 = returned out2 /\ y_after out1 = y_after out2.
Proof.
  apply (X2_test_mode_reads_ActiveFSHS_only numpy_power zero_ODE 5 sample_y_fsh 0
           (sample_registry Growing 0) (mkFollicles [] [] [1])
           test_para sample_parafoll sample_Par).
  - exact test_para_test.
  - reflexivity.
Defined.

Lemma X3_witness :
  FollicleFunction numpy_power zero_ODE 5 sample_y_empty 0 empty_registry
    normal_para sample_parafoll sample_Par
  = Some (mkOutcome
            (zero_ODE 5 sample_y_empty sample_Par
               (E2_baseline sample_Par
                + gaussian_bump (param sample_Par 60) (param sample_Par 61) (0 + 7) 5)
               (P4_baseline sample_Par
                + gaussian_bump (param sample_Par 62) (param sample_Par 61) (0 + 7) 5))
            sample_y_empty empty_registry).
Proof.
  apply (X3_no_follicle_call numpy_power zero_ODE 5 sample_y_empty 0 empty_registry
           normal_para sample_parafoll sample_Par).
  - cbn; lia.
  - cbn; lia.
  - cbn; lia.
  - cbn; lia.
  - cbn; lia.
  - exact sample_SF_defined.
Defined.

Lemma X4_witness :
  FollicleFunction numpy_power zero_ODE 5 [1; 2; 3] 0 empty_registry
    [0; 3]%Z sample_parafoll sample_Par = None.
Proof.
  apply (X4_short_state_vector_raises numpy_power zero_ODE 5 [1; 2; 3] 0 empty_registry
           [0; 3]%Z sample_parafoll sample_Par).
  cbn; lia.
Defined.

Lemma X5_witness :
  exists fshrezcomp SumV,
    feedback_terms numpy_power sample_parafoll 0 [1; 2; 3; 4; 5; 6; 7; 8; 9; 10]
      = Some (fshrezcomp, SumV) /\
    nth_error [1; 2; 3; 4; 5; 6; 7; 8; 9; 10]
      (if (length [1; 2; 3; 4; 5; 6; 7; 8; 9; 10] <? 15)%nat
       then 2 * length [1; 2; 3; 4; 5; 6; 7; 8; 9; 10] - 15
       else length [1; 2; 3; 4; 5; 6; 7; 8; 9; 10] - 15)
    = Some fshrezcomp.
Proof.
  apply (X5_fshrezcomp_slot numpy_power sample_parafoll 0 [1; 2; 3; 4; 5; 6; 7; 8; 9; 10]).
  - cbn; lia.
  - cbn; lia.
Defined.

Lemma X6_witness :
  FollicleFunction numpy_power zero_ODE 5 sample_y 0 (sample_registry Growing 0)
    [0; -1]%Z sample_parafoll sample_Par = None.
Proof.
  apply (X6_negative_fixed_count_raises numpy_power zero_ODE 5 sample_y 0
           (sample_registry Growing 0) [0; -1]%Z sample_parafoll sample_Par).
  cbn; lia.
Defined.

Lemma X7_witness :
  FollicleFunction numpy_power zero_ODE 5 sample_y 0 empty_registry
    normal_para sample_parafoll sample_Par = None.
Proof.
  apply (X7_missing_registry_entry_raises numpy_power zero_ODE 5 sample_y 0
           empty_registry normal_para sample_parafoll sample_Par 0).
  - unfold slots, NumFollicles_of; cbn; lia.
  - left. reflexivity.
Defined.

Lemma X8_witness :
  exists out,
    FollicleFunction numpy_power zero_ODE 5 sample_y 0 (sample_registry MarkedForDecline 3)
      normal_para sample_parafoll sample_Par = Some out /\
    forall k r,
      nth_error (Follicle (sample_registry MarkedForDecline 3)) k = Some r ->
      Destiny r = MarkedForDecline ->
      nth_error (Follicle (Follicles_after out)) k = Some r.
Proof.
  apply (X8_marked_record_is_kept numpy_power zero_ODE 5 sample_y 0
           (sample_registry MarkedForDecline 3) normal_para sample_parafoll sample_Par).
  - exact zero_ODE_keeps_length.
  - apply sample_well_formed; reflexivity.
Defined.

Lemma X9_witness :
  exists out,
    FollicleFunction numpy_power zero_ODE 5 sample_y 0
      (mkFollicles [sample_follicle Growing 0; sample_follicle Growing 0] [1%Z] [1])
      normal_para sample_parafoll sample_Par = Some out /\
    forall k,
      (forall j, (j < slots sample_y normal_para)%nat ->
         record_pos
           (mkFollicles [sample_follicle Growing 0; sample_follicle Growing 0] [1%Z] [1]) j
         <> Some k) ->
      nth_error (Follicle (Follicles_after out)) k
      = nth_error
          (Follicle
             (mkFollicles [sample_follicle Growing 0; sample_follicle Growing 0] [1%Z] [1]))
          k.
Proof.
  apply (X9_inactive_record_untouched numpy_power zero_ODE 5 sample_y 0
           (mkFollicles [sample_follicle Growing 0; sample_follicle Growing 0] [1%Z] [1])
           normal_para sample_parafoll sample_Par).
  - exact zero_ODE_keeps_length.
  - apply two_records_well_formed; [reflexivity | reflexivity | discriminate].
Defined.


Lemma X11_witness :
  exists out,
    FollicleFunction numpy_power zero_ODE 5 sample_y_fsh 0 (sample_registry Growing 0)
      normal_para sample_parafoll_strict sample_Par = Some out /\
    forall j k r,
      (j < slots sample_y_fsh normal_para)%nat ->
      follicle_at (sample_registry Growing 0) j = Some (k, r) ->
      Destiny r = Growing ->
      exists X,
        X_in_call numpy_power 5 sample_y_fsh 0 (sample_registry Growing 0)
          normal_para sample_parafoll_strict sample_Par j = Some X /\
        (growing_declines 5 X sample_parafoll_strict r ->
         nth_error (Follicle (Follicles_after out)) k = Some (mark_decline 5 r)) /\
        (~ growing_declines 5 X sample_parafoll_strict r ->
         nth_error (Follicle (Follicles_after out)) k = Some r /\
         nth_error (returned out) j = Some X).
Proof.
  apply (X11_growing_transition numpy_power zero_ODE 5 sample_y_fsh 0
           (sample_registry Growing 0) normal_para sample_parafoll_strict sample_Par).
  - exact zero_ODE_keeps_length.
  - apply sample_well_formed; reflexivity.
  - exact normal_para_normal.
  - apply one_follicle_distinct.
Defined.

Lemma X12_witness :
  exists out,
    FollicleFunction numpy_power zero_ODE 5 sample_y_fsh 0 (sample_registry Dominant 0)
      normal_para sample_parafoll_strict sample_Par = Some out /\
    forall j k r,
      (j < slots sample_y_fsh normal_para)%nat ->
      follicle_at (sample_registry Dominant 0) j = Some (k, r) ->
      Destiny r = Dominant ->
      exists X,
        X_in_call numpy_power 5 sample_y_fsh 0 (sample_registry Dominant 0)
          normal_para sample_parafoll_strict sample_Par j = Some X /\
        (dominant_declines 5 X sample_parafoll_strict r ->
         nth_error (Follicle (Follicles_after out)) k = Some (mark_decline 5 r)) /\
        (~ dominant_declines 5 X sample_parafoll_strict r ->
         nth_error (Follicle (Follicles_after out)) k = Some r /\
         nth_error (returned out) j = Some X).
Proof.
  apply (X12_dominant_transition numpy_power zero_ODE 5 sample_y_fsh 0
           (sample_registry Dominant 0) normal_para sample_parafoll_strict sample_Par).
  - exact zero_ODE_keeps_length.
  - apply sample_well_formed; reflexivity.
  - exact normal_para_normal.
  - apply one_follicle_distinct.
Defined.



Lemma X15_witness :
  exists out,
    FollicleFunction numpy_power zero_ODE 5 sample_y 0 (sample_registry Atretic 0)
      normal_para sample_parafoll sample_Par = Some out /\
    length (y_after out) = length sample_y /\
    (forall j k r, (j < slots sample_y normal_para)%nat ->
       follicle_at (sample_registry Atretic 0) j = Some (k, r) ->
       silent r = true -> nth_error (y_after out) j = Some 0) /\
    (forall j k r, (j < slots sample_y normal_para)%nat ->
       follicle_at (sample_registry Atretic 0) j = Some (k, r) ->
       silent r = false -> nth_error (y_after out) j = nth_error sample_y j) /\
    (forall j, (slots sample_y normal_para <= j)%nat ->
       nth_error (y_after out) j = nth_error sample_y j).
Proof.
  apply (X15_state_vector_after_call numpy_power zero_ODE 5 sample_y 0
           (sample_registry Atretic 0) normal_para sample_parafoll sample_Par).
  - exact zero_ODE_keeps_length.
  - apply sample_well_formed; reflexivity.
  - exact normal_para_normal.
Defined.

Lemma X16_witness :
  FollicleFunction numpy_power zero_ODE 5 (one_follicle_y 3) 0 (sample_registry Atretic 0)
    normal_para sample_parafoll sample_Par
  = FollicleFunction numpy_power zero_ODE 5 (one_follicle_y 2) 0 (sample_registry Atretic 0)
      normal_para sample_parafoll sample_Par.
Proof.
  apply (X16_silent_sizes_not_read numpy_power zero_ODE 5 (one_follicle_y 2)
           (one_follicle_y 3) 0 (sample_registry Atretic 0) normal_para
           sample_parafoll sample_Par).
  - apply sample_well_formed; reflexivity.
  - exact normal_para_normal.
  - reflexivity.
  - intros j Hj. destruct j as [|j]; [|exfalso; apply Hj; reflexivity].
    split; [unfold slots, NumFollicles_of; cbn; lia|].
    exists 0%nat, (sample_follicle Atretic 0). split; reflexivity.
Defined.

Lemma X17_witness :
  FollicleFunction numpy_power zero_ODE 5 sample_y_fsh 0 (sample_registry Growing 0)
    [1; 15]%Z sample_parafoll sample_Par
  = FollicleFunction numpy_power zero_ODE 5 sample_y_fsh 0 (sample_registry Growing 0)
      [2; 15]%Z sample_parafoll sample_Par.
Proof.
  apply (X17_nonzero_flags_agree numpy_power zero_ODE 5 sample_y_fsh 0
           (sample_registry Growing 0) 1 2 [15%Z] sample_parafoll sample_Par).
  - lia.
  - lia.
Defined.

Lemma sample_quotients_defined :
  quotients_defined (P4_spec sample_Par 5 0) 1 1.
Proof.
  unfold quotients_defined, P4_spec.
  change (param sample_Par 75) with 1. change (param sample_Par 62) with 1.
  change (param sample_Par 61) with 1.
  destruct (gaussian_bump_bounds 1 1 (0 + 7) 5) as (Hb & _); [lra | lra |].
  assert (0 < ((1 + gaussian_bump 1 1 (0 + 7) 5) / 3) ^ 3) by (apply pow_lt; lra).
  assert (0 < 0.95 ^ 5) by (apply pow_lt; lra).
  rewrite !pow1. repeat split; lra.
Qed.

(** Instance of X18: one follicle of size 25 = parafoll[2], FSH slot 1 and
    FSH sensitivity 1, in test mode. *)
Lemma X18_witness :
  exists out,
    FollicleFunction numpy_power zero_ODE 5 sample_y_xi 0 (sample_registry Growing 0)
      test_para sample_parafoll sample_Par = Some out /\
    nth_error (returned out) 0 = Some 0.
Proof.
  apply (X18_stationary_sizes numpy_power zero_ODE 5 sample_y_xi 0
           (sample_registry Growing 0) test_para sample_parafoll sample_Par
           0 25 1 1).
  - exact zero_ODE_keeps_length.
  - apply sample_well_formed; reflexivity.
  - exact test_para_test.
  - unfold slots, NumFollicles_of; cbn; lia.
  - reflexivity.
  - reflexivity.
  - reflexivity.
  - split.
    + change (param sample_parafoll 0) with 2. lra.
    + intros k v Hk Ev.
      assert (k = 0%nat) as -> by (unfold slots, NumFollicles_of in Hk; cbn in Hk; lia).
      cbn in Ev. inversion Ev; subst v. lra.
  - exact sample_quotients_defined.
  - right. reflexivity.
Defined.
